(** * GeoArk backend: query decomposition and multi-stage search pipeline

    A shallow embedding of [backend/geospatial_search_enhanced.py]
    (PostGISSearcher, QueryDecomposer, GeospatialSearchAgent) and of
    [parse_final_response] from [ollama_from_python.py], together with the
    properties of the pipeline established on that embedding.

    Conventions.
    - Python [str] is [string]; characters are code points below 256.
    - A Python value that may come out of [json.loads] or out of a database
      row is a [pyval].
    - A call that may raise returns a [result]; code that talks to the
      outside (language model, database connection, SQLAlchemy engine) runs in
      the monad [M W], a state monad over the outside world [W] with
      exceptions.  [try: ... except Exception] is [try_except]. Only
      subclasses of [Exception] are modelled.
    - Logging is not modelled, but the expressions evaluated to build a log
      line are, since they may raise. *)

From Stdlib Require Import String Ascii List ZArith Lia Bool Arith Permutation.
From Stdlib Require Import DecimalString.
From Stdlib Require Import Sorted.
Set Warnings "-register-all".
Import ListNotations.
Local Open Scope list_scope.
Local Open Scope string_scope.

(* ===================================================================== *)
(** ** Python strings *)
(* ===================================================================== *)

Module PyStr.

(** The double-quote character, and [quoted s] for [f'"{s}"']. *)
Definition dq : ascii := ascii_of_nat 34.
Definition quoted (s : string) : string := String dq (s ++ String dq EmptyString).

(** [c.lower()] on one code point below 256: the letters A to Z, and the
    capital letters of Latin-1 (192 to 222, the multiplication sign 215
    apart), move up by 32. *)
Definition lower_ascii (c : ascii) : ascii :=
  let n := nat_of_ascii c in
  if (((65 <=? n) && (n <=? 90))
      || ((192 <=? n) && (n <=? 222) && negb (n =? 215)))%nat
  then ascii_of_nat (n + 32) else c.

(** [s.lower()]. *)
Fixpoint lower (s : string) : string :=
  match s with
  | EmptyString => EmptyString
  | String c s' => String (lower_ascii c) (lower s')
  end.

(** [sub in s]. *)
Fixpoint contains (sub s : string) : bool :=
  prefix sub s ||
  match s with
  | EmptyString => false
  | String _ s' => contains sub s'
  end.

(** [s.split(sep)] for a non-empty [sep]: the first piece and the others.
    [skip] counts the characters of a separator still to be passed over. *)
Fixpoint split_go (sep : string) (skip : nat) (s : string) : string * list string :=
  match s with
  | EmptyString => (EmptyString, [])
  | String c s' =>
      match skip with
      | S k => split_go sep k s'
      | O =>
          if prefix sep s
          then (EmptyString,
                let '(p, ps) := split_go sep (String.length sep - 1) s' in p :: ps)
          else let '(p, ps) := split_go sep 0 s' in (String c p, ps)
      end
  end.

Definition split (sep s : string) : list string :=
  let '(p, ps) := split_go sep 0 s in p :: ps.

(** [c.isspace()] for code points below 256. *)
Definition isspace (c : ascii) : bool :=
  let n := nat_of_ascii c in
  (((9 <=? n) && (n <=? 13)) || ((28 <=? n) && (n <=? 32))
   || (n =? 133) || (n =? 160))%nat.

Fixpoint lstrip (s : string) : string :=
  match s with
  | EmptyString => EmptyString
  | String c s' => if isspace c then lstrip s' else s
  end.

Definition reverse (s : string) : string :=
  string_of_list_ascii (rev (list_ascii_of_string s)).

Definition rstrip (s : string) : string := reverse (lstrip (reverse s)).

(** [s.strip()]. *)
Definition strip (s : string) : string := rstrip (lstrip s).

(** [sep.join(parts)]. *)
Fixpoint join (sep : string) (parts : list string) : string :=
  match parts with
  | [] => EmptyString
  | [p] => p
  | p :: ps => p ++ sep ++ join sep ps
  end.

End PyStr.

(* ===================================================================== *)
(** ** Python values, exceptions, and the effect monad *)
(* ===================================================================== *)

Module Py.

(** Values of the shapes [json.loads] and a database row can produce.
    Non-integral numbers are outside the model. *)
Inductive pyval : Type :=
| PNone
| PBool (b : bool)
| PInt (n : Z)
| PStr (s : string)
| PList (items : list pyval)
| PDict (entries : list (string * pyval)).

(** A [dict] with string keys, in insertion order. *)
Definition pydict : Type := list (string * pyval).

Inductive exn_class : Type :=
| JSONDecodeError
| AttributeError
| TypeError
| KeyError
| IndexError
| ExternalError.   (* raised by the model, the database driver, pandas *)

(** An exception instance; [exn_str] is what [str(e)] gives. *)
Record exn : Type := Exn { exn_type : exn_class; exn_str : string }.

Inductive result (A : Type) : Type :=
| Ok (a : A)
| Raise (e : exn).
Arguments Ok {A} a.
Arguments Raise {A} e.

(** *** Dictionaries *)

Fixpoint dict_lookup (k : string) (d : pydict) : option pyval :=
  match d with
  | [] => None
  | (k', v) :: d' => if String.eqb k k' then Some v else dict_lookup k d'
  end.

(** [d[k] = v]: overwrite in place, or append. *)
Fixpoint dict_set (k : string) (v : pyval) (d : pydict) : pydict :=
  match d with
  | [] => [(k, v)]
  | (k', v') :: d' =>
      if String.eqb k k' then (k', v) :: d' else (k', v') :: dict_set k v d'
  end.

(** [d.get(k, default)] on a dict. *)
Definition dict_get (k : string) (default : pyval) (d : pydict) : pyval :=
  match dict_lookup k d with Some v => v | None => default end.

(** [d[k]] on a dict. *)
Definition dict_item (k : string) (d : pydict) : result pyval :=
  match dict_lookup k d with
  | Some v => Ok v
  | None => Raise (Exn KeyError k)
  end.

(** *** Operations on arbitrary values *)

(** [v.get(k, default)]: only a dict has the method. *)
Definition py_get (v : pyval) (k : string) (default : pyval) : result pyval :=
  match v with
  | PDict d => Ok (dict_get k default d)
  | _ => Raise (Exn AttributeError "object has no attribute 'get'")
  end.

(** [len(v)]. *)
Definition py_len (v : pyval) : result nat :=
  match v with
  | PStr s => Ok (String.length s)
  | PList l => Ok (List.length l)
  | PDict d => Ok (List.length d)
  | _ => Raise (Exn TypeError "object has no len()")
  end.

Fixpoint chars (s : string) : list pyval :=
  match s with
  | EmptyString => []
  | String c s' => PStr (String c EmptyString) :: chars s'
  end.

(** The items [for x in v] goes through. *)
Definition py_iter (v : pyval) : result (list pyval) :=
  match v with
  | PList l => Ok l
  | PStr s => Ok (chars s)
  | PDict d => Ok (map (fun kv => PStr (fst kv)) d)
  | _ => Raise (Exn TypeError "object is not iterable")
  end.

(** Truth value, as [if v:] tests it. *)
Definition py_truthy (v : pyval) : bool :=
  match v with
  | PNone => false
  | PBool b => b
  | PInt n => negb (n =? 0)%Z
  | PStr s => negb (String.eqb s EmptyString)
  | PList l => match l with [] => false | _ => true end
  | PDict d => match d with [] => false | _ => true end
  end.

(** [v.lower()]: only a str has the method. *)
Definition py_lower (v : pyval) : result string :=
  match v with
  | PStr s => Ok (PyStr.lower s)
  | _ => Raise (Exn AttributeError "object has no attribute 'lower'")
  end.

(** Lists and dicts are unhashable: using one as a set member or dict
    key raises TypeError. *)
Definition hashable (v : pyval) : bool :=
  match v with
  | PList _ | PDict _ => false
  | _ => true
  end.

(** [a == b] between hashable values ([True == 1], [False == 0]). *)
Definition key_eqb (a b : pyval) : bool :=
  match a, b with
  | PNone, PNone => true
  | PStr s, PStr t => String.eqb s t
  | PInt m, PInt n => (m =? n)%Z
  | PBool x, PBool y => Bool.eqb x y
  | PBool x, PInt n | PInt n, PBool x => (n =? (if x then 1 else 0))%Z
  | _, _ => false
  end.

(** [s.add(v)] on a set kept as the list of its members in insertion
    order. *)
Definition set_add (v : pyval) (s : list pyval) : result (list pyval) :=
  if hashable v
  then Ok (if existsb (key_eqb v) s then s else (s ++ [v])%list)
  else Raise (Exn TypeError "unhashable type").

(** [xs[i]] on a list. *)
Definition list_item {A} (xs : list A) (i : nat) : result A :=
  match nth_error xs i with
  | Some x => Ok x
  | None => Raise (Exn IndexError "list index out of range")
  end.

(** *** The monad: outside world [W], exceptions *)

Definition M (W A : Type) : Type := W -> result A * W.

Definition ret {W A} (a : A) : M W A := fun w => (Ok a, w).
Definition raise {W A} (e : exn) : M W A := fun w => (Raise e, w).
Definition lift {W A} (r : result A) : M W A := fun w => (r, w).

Definition bind {W A B} (m : M W A) (k : A -> M W B) : M W B :=
  fun w =>
    match m w with
    | (Ok a, w') => k a w'
    | (Raise e, w') => (Raise e, w')
    end.

(** [try: body / except Exception as e: handler e]. *)
Definition try_except {W A} (body : M W A) (handler : exn -> M W A) : M W A :=
  fun w =>
    match body w with
    | (Ok a, w') => (Ok a, w')
    | (Raise e, w') => handler e w'
    end.

End Py.

Export Py.

Declare Scope py_scope.
Delimit Scope py_scope with py.
Notation "x <- m ;; k" := (bind m (fun x => k))
  (at level 100, m at next level, right associativity) : py_scope.
Notation "m ;;; k" := (bind m (fun _ => k))
  (at level 100, right associativity) : py_scope.
Local Open Scope py_scope.

(** [for x in xs: acc = body acc x], stopping at the first exception. *)
Fixpoint for_each {W A B} (xs : list A) (body : B -> A -> M W B) (acc : B) : M W B :=
  match xs with
  | [] => ret acc
  | x :: xs' => acc' <- body acc x ;; for_each xs' body acc'
  end.

(** [str(n)] for an int. *)
Definition str_of_int (n : Z) : string := NilZero.string_of_int (Z.to_int n).

(* ===================================================================== *)
(** ** What the store client sends and receives *)
(* ===================================================================== *)

(** One text fragment appended to [conditions] in [search_metadata]:
<<
   (LOWER(dataset_name) LIKE %s
    OR LOWER(table_name) LIKE %s
    OR EXISTS (SELECT 1 FROM unnest(column_list) AS col
               WHERE LOWER(col) LIKE %s))
>>  It holds three placeholders. *)
Inductive condition : Type := LikeAnyName.

(** The text of [where_clause]: [" OR ".join(conditions)], possibly wrapped
    as [f"({where_clause}) AND geometry_type = %s"]. *)
Inductive where_clause : Type :=
| OrJoin (conditions : list condition)
| ParenAndGeometry (inner : where_clause).

(** The statements passed to [cursor.execute], by template.
    - [SelectDatasetMetadata w]:
      [SELECT id, dataset_name, table_name, source_path, geometry_type,
       row_count, column_list, crs, bbox, date_ingested
       FROM dataset_metadata WHERE w
       ORDER BY row_count DESC NULLS LAST LIMIT %s]
    - [SelectMatchingColumns]:
      [SELECT table_name, dataset_name, geometry_type,
       array_agg(col) as matching_columns
       FROM dataset_metadata, unnest(column_list) AS col
       WHERE LOWER(col) LIKE %s
       GROUP BY table_name, dataset_name, geometry_type LIMIT %s]
    - [SelectStatistics t c g]: count, mean, min, max, stddev and median
      of column [c] of table [t] over its non-null values, grouped and ordered
      by [g] when given; the identifiers are interpolated into the text. *)
Inductive statement : Type :=
| SelectDatasetMetadata (w : where_clause)
| SelectMatchingColumns
| SelectStatistics (table_name column : string) (group_by : option string).

(** A value bound to a [%s] placeholder. *)
Inductive sql_param : Type :=
| ParamText (s : string)
| ParamInt (n : Z).

(** A row of a [RealDictCursor]; [dict(row)] is the same mapping. *)
Definition RealDictRow : Type := pydict.

Module DataFrame.
(** A pandas frame as far as the pipeline looks at it. *)
Record t : Type := mk { columns : list string; records : list pydict }.

(** [pd.DataFrame()]. *)
Definition new : t := mk [] [].

(** [df.empty]: some axis has length zero. *)
Definition empty (df : t) : bool :=
  match columns df, records df with
  | [], _ | _, [] => true
  | _, _ => false
  end.

(** [df.to_dict(orient='records')]. *)
Definition to_dict_records (df : t) : list pydict := records df.
End DataFrame.

(* ===================================================================== *)
(** ** The objects the agent holds *)
(* ===================================================================== *)

(** A psycopg2 connection acting on the outside world [W] (database
    server, network): [cursor] opens a cursor, [execute] stands for
    [cursor.execute(query, params)] followed by [cursor.fetchall()]. *)
Record Connection (W : Type) : Type := {
  cursor : M W unit;
  execute : statement -> list sql_param -> M W (list RealDictRow);
  rollback : M W unit
}.
Arguments cursor {W} _.
Arguments execute {W} _ _ _.
Arguments rollback {W} _.

(** A SQLAlchemy engine as [pd.read_sql(query, engine)] uses it. *)
Record Engine (W : Type) : Type := {
  read_sql : string -> M W DataFrame.t
}.
Arguments read_sql {W} _ _.

(** [self.conn] and [self.engine] are [None] until [connect] has run. *)
Record PostGISSearcher (W : Type) : Type := {
  conn : option (Connection W);
  engine : option (Engine W)
}.
Arguments conn {W} _.
Arguments engine {W} _.

(** [ChatOllama]: [ainvoke prompt] gives the text of the response
    ([response.content], or [str(response)]). *)
Record ChatOllama (W : Type) : Type := {
  ainvoke : string -> M W string
}.
Arguments ainvoke {W} _ _.

Record QueryDecomposer (W : Type) : Type := {
  llm : ChatOllama W
}.
Arguments llm {W} _.

Record GeospatialSearchAgent (W : Type) : Type := {
  postgis : PostGISSearcher W;
  decomposer : QueryDecomposer W
}.
Arguments postgis {W} _.
Arguments decomposer {W} _.

(* ===================================================================== *)
(** ** QueryDecomposer: prompt, fallback, fence stripping *)
(* ===================================================================== *)

(** [DECOMPOSITION_PROMPT.format(query=query)]. *)
Definition DECOMPOSITION_PROMPT (query : string) : string :=
  let q := PyStr.quoted in
  "You are a geospatial data analyst expert. Your task is to decompose a natural language query into multiple searchable concepts.

Given a user query about geospatial or demographic data, identify:
1. PRIMARY variables - The main data the user wants (e.g., poverty rates, income, housing)
2. NORMALIZATION variables - Data needed to normalize/compute ratios (e.g., population, area)
3. FILTER variables - Criteria for filtering results (e.g., rural, urban, above threshold)
4. GEOGRAPHIC scope - The geographic level (county, state, tract, block group)
5. TEMPORAL scope - Time period if mentioned
6. RELATED concepts - Variables that might be semantically related to expand the search

Return a JSON object with this structure:
{
    " ++ q "primary_concepts" ++ ": [" ++ q "concept1" ++ ", " ++ q "concept2" ++ "],
    " ++ q "normalization_concepts" ++ ": [" ++ q "concept1" ++ "],
    " ++ q "filter_concepts" ++ ": [" ++ q "concept1" ++ "],
    " ++ q "geographic_level" ++ ": " ++ q "county|state|tract|blockgroup|null" ++ ",
    " ++ q "temporal_filter" ++ ": {" ++ q "start" ++ ": " ++ q "year" ++ ", "
      ++ q "end" ++ ": " ++ q "year" ++ "} or null,
    " ++ q "related_concepts" ++ ": [" ++ q "concept1" ++ ", " ++ q "concept2" ++ "],
    " ++ q "search_queries" ++ ": [
        {" ++ q "query" ++ ": " ++ q "search term 1" ++ ", " ++ q "purpose" ++ ": "
      ++ q "primary|normalization|filter|related" ++ "},
        {" ++ q "query" ++ ": " ++ q "search term 2" ++ ", " ++ q "purpose" ++ ": "
      ++ q "primary|normalization|filter|related" ++ "}
    ]
}

User Query: " ++ query ++ "

Return ONLY valid JSON, no other text.".

(** The basic decomposition returned when the call or the parse fails. *)
Definition basic_decomposition (query : string) : pyval :=
  PDict [("primary_concepts", PList [PStr query]);
         ("search_queries",
          PList [PDict [("query", PStr query); ("purpose", PStr "primary")]])].

(** The text handed to [json.loads], before [.strip()]: the content of the
    first fenced block when the response holds a fence. *)
Definition json_match (content : string) : result string :=
  if PyStr.contains "```json" content then
    match list_item (PyStr.split "```json" content) 1 with
    | Ok rest => list_item (PyStr.split "```" rest) 0
    | Raise e => Raise e
    end
  else if PyStr.contains "```" content then
    match list_item (PyStr.split "```" content) 1 with
    | Ok rest => list_item (PyStr.split "```" rest) 0
    | Raise e => Raise e
    end
  else Ok content.

(* ===================================================================== *)
(** ** Run-state of the search graph *)
(* ===================================================================== *)

(** An entry of [database_results]. *)
Module TableEntry.
Record t : Type := mk {
  table_name : pyval;
  sample_data : list pydict;
  columns : list string
}.
End TableEntry.

(** The dict stored under [final_results] by the last node. *)
Module Summary.
Record t : Type := mk {
  query : string;
  decomposition : pyval;
  results_by_purpose : list (pyval * list pydict);
  available_tables : list pyval;
  total_matches : nat;
  errors : list string
}.
End Summary.

(** [final_results]: [{}] until the last node has run. *)
Inductive FinalResults : Type :=
| EmptyDict
| Results (r : Summary.t).

Record SearchState : Type := {
  original_query : string;
  decomposed_queries : pyval;
  variable_results : list pydict;
  database_results : list TableEntry.t;
  final_results : FinalResults;
  errors : list string;
  messages : list pyval
}.

Definition set_decomposed_queries (v : pyval) (s : SearchState) : SearchState :=
  {| original_query := original_query s; decomposed_queries := v;
     variable_results := variable_results s; database_results := database_results s;
     final_results := final_results s; errors := errors s; messages := messages s |}.

Definition set_variable_results (v : list pydict) (s : SearchState) : SearchState :=
  {| original_query := original_query s; decomposed_queries := decomposed_queries s;
     variable_results := v; database_results := database_results s;
     final_results := final_results s; errors := errors s; messages := messages s |}.

Definition set_database_results (v : list TableEntry.t) (s : SearchState) : SearchState :=
  {| original_query := original_query s; decomposed_queries := decomposed_queries s;
     variable_results := variable_results s; database_results := v;
     final_results := final_results s; errors := errors s; messages := messages s |}.

Definition set_final_results (v : FinalResults) (s : SearchState) : SearchState :=
  {| original_query := original_query s; decomposed_queries := decomposed_queries s;
     variable_results := variable_results s; database_results := database_results s;
     final_results := v; errors := errors s; messages := messages s |}.

Definition set_errors (v : list string) (s : SearchState) : SearchState :=
  {| original_query := original_query s; decomposed_queries := decomposed_queries s;
     variable_results := variable_results s; database_results := database_results s;
     final_results := final_results s; errors := v; messages := messages s |}.

(** [state["errors"].append(msg)]. *)
Definition errors_append (msg : string) (s : SearchState) : SearchState :=
  set_errors (errors s ++ [msg])%list s.

(** The order in which [list(tables)] enumerates a set: some arrangement
    of its members, not determined by the program. *)
Class SetIteration : Type := {
  iter_order : list pyval -> list pyval;
  iter_order_perm : forall members, Permutation (iter_order members) members
}.

(* ===================================================================== *)
(** ** PostgreSQL's reading of the catalog query *)
(* ===================================================================== *)

Module Postgres.

(** A row of [dataset_metadata]; [None] is SQL NULL. *)
Record catalog_row : Type := mk_row {
  id : Z;
  dataset_name : option string;
  table_name : option string;
  source_path : option string;
  geometry_type : option string;
  row_count : option Z;
  column_list : option (list string);
  crs : option string;
  bbox : option string;
  date_ingested : option string
}.

Definition py_text (o : option string) : pyval :=
  match o with Some s => PStr s | None => PNone end.

(** The row as the cursor hands it over, columns in SELECT order. *)
Definition row_dict (r : catalog_row) : RealDictRow :=
  [("id", PInt (id r));
   ("dataset_name", py_text (dataset_name r));
   ("table_name", py_text (table_name r));
   ("source_path", py_text (source_path r));
   ("geometry_type", py_text (geometry_type r));
   ("row_count", match row_count r with Some n => PInt n | None => PNone end);
   ("column_list",
    match column_list r with Some cs => PList (map PStr cs) | None => PNone end);
   ("crs", py_text (crs r));
   ("bbox", py_text (bbox r));
   ("date_ingested", py_text (date_ingested r))].

(** [s LIKE pattern]: percent matches any run of characters, underscore
    any one character, backslash takes the next character literally.
    (A pattern ending in a lone backslash is an error in PostgreSQL; the
    patterns of [search_metadata] end in a percent sign.) *)
Fixpoint like (pattern : string) : string -> bool :=
  match pattern with
  | EmptyString => fun s => match s with EmptyString => true | _ => false end
  | String p rest =>
      if Ascii.eqb p "%" then
        fix any (s : string) : bool :=
          like rest s || match s with EmptyString => false | String _ s' => any s' end
      else if Ascii.eqb p "_" then
        fun s => match s with EmptyString => false | String _ s' => like rest s' end
      else if Ascii.eqb p "\" then
        match rest with
        | EmptyString => fun _ => false
        | String c rest' =>
            fun s =>
              match s with
              | EmptyString => false
              | String c' s' => Ascii.eqb c c' && like rest' s'
              end
        end
      else
        fun s =>
          match s with
          | EmptyString => false
          | String c' s' => Ascii.eqb p c' && like rest s'
          end
  end.

(** SQL's three truth values; [None] is unknown. *)
Definition tv : Type := option bool.

Definition tv_or (a b : tv) : tv :=
  match a, b with
  | Some true, _ | _, Some true => Some true
  | Some false, Some false => Some false
  | _, _ => None
  end.

Definition tv_and (a b : tv) : tv :=
  match a, b with
  | Some false, _ | _, Some false => Some false
  | Some true, Some true => Some true
  | _, _ => None
  end.

(** [LOWER(x) LIKE pattern]; LOWER is taken to agree with Python's
    [lower] on the characters modelled. *)
Definition lower_like (x : option string) (pattern : string) : tv :=
  match x with
  | Some s => Some (like pattern (PyStr.lower s))
  | None => None
  end.

(** [EXISTS (SELECT 1 FROM unnest(column_list) AS col
             WHERE LOWER(col) LIKE pattern)]. *)
Definition exists_column_like (cols : option (list string)) (pattern : string) : tv :=
  match cols with
  | Some cs => Some (existsb (fun col => like pattern (PyStr.lower col)) cs)
  | None => Some false
  end.

(** A where clause with its placeholders filled in. *)
Inductive bound : Type :=
| BoundOr (terms : list (string * string * string))
| BoundAndGeometry (inner : bound) (g : string).

Fixpoint bind_conditions (conditions : list condition) (params : list sql_param)
  : option (list (string * string * string) * list sql_param) :=
  match conditions with
  | [] => Some ([], params)
  | LikeAnyName :: more =>
      match params with
      | ParamText p1 :: ParamText p2 :: ParamText p3 :: params' =>
          match bind_conditions more params' with
          | Some (ts, unused) => Some ((p1, p2, p3) :: ts, unused)
          | None => None
          end
      | _ => None
      end
  end.

(** Placeholders are filled left to right; [None] when the text is not
    a valid clause (no condition at all) or the parameters do not fit. *)
Fixpoint bind_where (w : where_clause) (params : list sql_param)
  : option (bound * list sql_param) :=
  match w with
  | OrJoin [] => None
  | OrJoin conditions =>
      match bind_conditions conditions params with
      | Some (ts, unused) => Some (BoundOr ts, unused)
      | None => None
      end
  | ParenAndGeometry inner =>
      match bind_where inner params with
      | Some (b, ParamText g :: unused) => Some (BoundAndGeometry b g, unused)
      | _ => None
      end
  end.

Definition eval_term (r : catalog_row) (t : string * string * string) : tv :=
  let '(p1, p2, p3) := t in
  tv_or (tv_or (lower_like (dataset_name r) p1) (lower_like (table_name r) p2))
        (exists_column_like (column_list r) p3).

Fixpoint eval_bound (b : bound) (r : catalog_row) : tv :=
  match b with
  | BoundOr ts => fold_right (fun t acc => tv_or (eval_term r t) acc) (Some false) ts
  | BoundAndGeometry inner g =>
      tv_and (eval_bound inner r)
             (match geometry_type r with
              | Some x => Some (String.eqb x g)
              | None => None
              end)
  end.

(** WHERE keeps the rows on which the clause is true. *)
Definition selected (b : bound) (r : catalog_row) : bool :=
  match eval_bound b r with Some true => true | _ => false end.

(** ORDER BY row_count DESC NULLS LAST: [a] may stand before [b]. *)
Definition before (a b : catalog_row) : bool :=
  match row_count a, row_count b with
  | Some x, Some y => (y <=? x)%Z
  | Some _, None => true
  | None, Some _ => false
  | None, None => true
  end.

Fixpoint insert (r : catalog_row) (sorted : list catalog_row) : list catalog_row :=
  match sorted with
  | [] => [r]
  | x :: more => if before r x then r :: sorted else x :: insert r more
  end.

(** Rows of equal count keep their catalog order here; PostgreSQL
    promises no order among them. *)
Definition order_by_row_count (rows : list catalog_row) : list catalog_row :=
  fold_right insert [] rows.

(** The largest bigint; the count of LIMIT is cast to that type. *)
Definition BIGINT_MAX : Z := 9223372036854775807.

(** No character of [s] is NUL. *)
Fixpoint nul_free (s : string) : bool :=
  match s with
  | EmptyString => true
  | String c s' => negb (Ascii.eqb c Ascii.zero) && nul_free s'
  end.

(** The driver refuses to bind a string that holds a NUL character. *)
Definition bindable (p : sql_param) : bool :=
  match p with
  | ParamText s => nul_free s
  | ParamInt _ => true
  end.

(** What the catalog search gives on [catalog]: the driver binds the
    parameters, the server reads the clause, selects, orders and limits. *)
Definition select_dataset_metadata (catalog : list catalog_row) (w : where_clause)
    (params : list sql_param) : result (list RealDictRow) :=
  if negb (forallb bindable params)
  then Raise (Exn ExternalError "A string literal cannot contain NUL (0x00) characters.")
  else
    match bind_where w params with
    | Some (b, [ParamInt limit]) =>
        if (limit <? 0)%Z then Raise (Exn ExternalError "LIMIT must not be negative")
        else if (BIGINT_MAX <? limit)%Z then Raise (Exn ExternalError "bigint out of range")
        else Ok (map row_dict
                   (firstn (Z.to_nat limit)
                      (order_by_row_count (filter (selected b) catalog))))
    | _ => Raise (Exn ExternalError "syntax error or parameter mismatch")
    end.

(** The connection is to a server holding [catalog]: whenever a catalog
    search returns, it returns what the query selects from [catalog].
    Nothing is said of failures, of the cursor, of rollback, of the other
    statements, or of what a call does to the world. *)
Definition serves {W} (catalog : list catalog_row) (c : Connection W) : Prop :=
  forall w params world rows world',
    execute c (SelectDatasetMetadata w) params world = (Ok rows, world') ->
    select_dataset_metadata catalog w params = Ok rows.

(** The characters LIKE gives a meaning to. *)
Definition wildcard (c : ascii) : bool :=
  Ascii.eqb c "%" || Ascii.eqb c "_" || Ascii.eqb c "\".

Fixpoint wildcard_free (s : string) : bool :=
  match s with
  | EmptyString => true
  | String c s' => negb (wildcard c) && wildcard_free s'
  end.

(** [term] occurs in [s], letter case apart. *)
Definition icontains (term s : string) : bool :=
  PyStr.contains (PyStr.lower term) (PyStr.lower s).

(** [term] occurs, letter case apart, in the dataset name, the table
    name or some entry of the column list of [r]. *)
Definition term_matches (term : string) (r : catalog_row) : bool :=
  match dataset_name r with Some s => icontains term s | None => false end
  || match table_name r with Some s => icontains term s | None => false end
  || match column_list r with Some cs => existsb (icontains term) cs | None => false end.

End Postgres.

(* ===================================================================== *)
(** ** ollama_from_python.py: parsing the factor list *)
(* ===================================================================== *)

Module Ollama.

Definition MAX_FACTORS : nat := 8.

(** Dropping a prefix: [Some rest] when [s = p ++ rest]. *)
Fixpoint drop_prefix (p s : string) : option string :=
  match p, s with
  | EmptyString, _ => Some s
  | String a p', String b s' => if Ascii.eqb a b then drop_prefix p' s' else None
  | String _ _, EmptyString => None
  end.

(** The longest prefix whose characters satisfy [keep], and what follows. *)
Fixpoint span (keep : ascii -> bool) (s : string) : string * string :=
  match s with
  | EmptyString => (EmptyString, EmptyString)
  | String c s' =>
      if keep c then let '(a, b) := span keep s' in (String c a, b)
      else (EmptyString, s)
  end.

Definition newline : ascii := ascii_of_nat 10.

(** A match of FINAL_RESPONSE_REGEX, [>>> \*\*[^\*]+\*\*: .*], anchored at
    the start of [s]: the text matched.  The run [[^\*]+] is maximal since
    a star must follow it, and [.*] runs to the end of the line. *)
Definition match_here (s : string) : option string :=
  match drop_prefix ">>> **" s with
  | None => None
  | Some s1 =>
      let '(name, s2) := span (fun c => negb (Ascii.eqb c "*")) s1 in
      match name with
      | EmptyString => None
      | _ =>
          match drop_prefix "**: " s2 with
          | None => None
          | Some s3 =>
              let '(tail, _) := span (fun c => negb (Ascii.eqb c newline)) s3 in
              Some (">>> **" ++ name ++ "**: " ++ tail)
          end
      end
  end.

(** [re.findall(FINAL_RESPONSE_REGEX, s)]: leftmost matches, none
    overlapping; [skip] counts the characters of the last match still to be
    passed over. *)
Fixpoint findall_go (skip : nat) (s : string) : list string :=
  match s with
  | EmptyString => []
  | String c s' =>
      match skip with
      | S k => findall_go k s'
      | O =>
          match match_here s with
          | Some m => m :: findall_go (String.length m - 1) s'
          | None => findall_go 0 s'
          end
      end
  end.

Definition findall (s : string) : list string := findall_go 0 s.

(** What [parse_final_response] prints and what it returns; [None] is
    Python's [None]. *)
Definition parse_final_response (final_response : string)
  : list string * result (option (list string)) :=
  let matches := findall final_response in
  match matches with
  | _ :: _ =>
      if (MAX_FACTORS <? List.length matches)%nat then
        (* matches[MAX_FACTORS] is evaluated and dropped; the branch has
           no return statement, so the function falls off its end *)
        match list_item matches MAX_FACTORS with
        | Ok _ => ([], Ok None)
        | Raise e => ([], Raise e)
        end
      else ([], Ok (Some matches))
  | [] => (["Unable to get factors."; final_response], Ok None)
  end.

(** The text of the line feed, as in ["\n".join(...)]. *)
Definition line_feed : string := String newline EmptyString.

(** [save_selected_factors]: what is written to considered_factors.txt
    ([None] when the file is not touched) and what is returned. *)
Definition save_selected_factors (selected_factors : list string)
  : option string * option string :=
  match selected_factors with
  | [] => (None, None)
  | _ :: _ =>
      let considered_factors := PyStr.join line_feed selected_factors in
      (Some considered_factors, Some considered_factors)
  end.

End Ollama.

(* ===================================================================== *)
(** ** A small deployment, for running the program on concrete inputs *)
(* ===================================================================== *)

Module Scenario.

(** The outside world: whether the database connection is still open,
    and how many times it has been rolled back. *)
Record world : Type := { alive : bool; rollbacks : nat }.

Definition start : world := {| alive := true; rollbacks := 0 |}.

Definition poverty_estimates : Postgres.catalog_row :=
  Postgres.mk_row 1 (Some "Poverty estimates") (Some "A") (Some "/data/poverty.shp")
    (Some "POLYGON") (Some 3000%Z) (Some ["fips"; "poverty_rate"])
    (Some "EPSG:4326") None (Some "2025-01-10").

Definition county_demographics : Postgres.catalog_row :=
  Postgres.mk_row 2 (Some "County demographics") (Some "B") (Some "/data/counties.shp")
    (Some "MULTIPOLYGON") (Some 3100%Z) (Some ["fips"; "population"; "poverty_pct"])
    (Some "EPSG:4326") None (Some "2025-01-11").

Definition catalog : list Postgres.catalog_row :=
  [poverty_estimates; county_demographics].

Definition closed : exn := Exn ExternalError "connection already closed".

(** A connection that serves [catalog] while it is open. *)
Definition healthy : Connection world :=
  {| cursor := fun w => if alive w then (Ok tt, w) else (Raise closed, w);
     execute := fun st params w =>
       if alive w
       then match st with
            | SelectDatasetMetadata clause =>
                (Postgres.select_dataset_metadata catalog clause params, w)
            | _ => (Ok [], w)
            end
       else (Raise closed, w);
     rollback := fun w =>
       if alive w
       then (Ok tt, {| alive := true; rollbacks := S (rollbacks w) |})
       else (Raise closed, w) |}.

(** As [healthy], but the server drops the connection while it runs a
    search whose first pattern is [pattern]. *)
Definition dropping (pattern : string) : Connection world :=
  {| cursor := cursor healthy;
     execute := fun st params w =>
       match params with
       | ParamText p :: _ =>
           if alive w && String.eqb p pattern
           then (Raise (Exn ExternalError "server closed the connection unexpectedly"),
                 {| alive := false; rollbacks := rollbacks w |})
           else execute healthy st params w
       | _ => execute healthy st params w
       end;
     rollback := rollback healthy |}.

Definition sample_query (table : string) : string :=
  "SELECT * FROM " ++ PyStr.quoted table ++ " LIMIT 3".

Definition frame_A : DataFrame.t :=
  DataFrame.mk ["fips"; "poverty_rate"]
    [[("fips", PStr "05001"); ("poverty_rate", PInt 17)];
     [("fips", PStr "05003"); ("poverty_rate", PInt 21)]].

(** An engine on a database where table A can be read and nothing else. *)
Definition engine_A_only : Engine world :=
  {| read_sql := fun query =>
       if String.eqb query (sample_query "A") then ret frame_A
       else raise (Exn ExternalError "relation does not exist") |}.

Definition searcher (c : Connection world) : PostGISSearcher world :=
  {| conn := Some c; engine := Some engine_A_only |}.

(** A searcher on which [connect] was never called. *)
Definition unconnected : PostGISSearcher world :=
  {| conn := None; engine := None |}.

(** A model that answers every prompt with [content]. *)
Definition answering (content : string) : ChatOllama world :=
  {| ainvoke := fun _ => ret content |}.

(** A model runtime that cannot be reached. *)
Definition unreachable : ChatOllama world :=
  {| ainvoke := fun _ => raise (Exn ExternalError "connection refused") |}.

Definition agent (c : Connection world) (model : ChatOllama world)
  : GeospatialSearchAgent world :=
  {| postgis := searcher c; decomposer := {| llm := model |} |}.

(** Responses of the model. *)
Definition no_queries_text : string :=
  "{" ++ PyStr.quoted "search_queries" ++ ": []}".

Definition poverty_text : string :=
  let q := PyStr.quoted in
  "{" ++ q "search_queries" ++ ":[{" ++ q "query" ++ ":" ++ q "poverty" ++ ","
      ++ q "purpose" ++ ":" ++ q "primary" ++ "},{" ++ q "query" ++ ":"
      ++ q "population" ++ "," ++ q "purpose" ++ ":" ++ q "normalization" ++ "}]}".

Definition number_item_text : string :=
  "{" ++ PyStr.quoted "search_queries" ++ ": [1]}".

Definition poverty_items : list pyval :=
  [PDict [("query", PStr "poverty"); ("purpose", PStr "primary")];
   PDict [("query", PStr "population"); ("purpose", PStr "normalization")]].

Definition poverty_queries : pyval := PList poverty_items.

(** [json.loads] on the responses above; every other text of the
    scenarios is not JSON. *)
Definition json_loads (text : string) : result pyval :=
  if String.eqb text no_queries_text then Ok (PDict [("search_queries", PList [])])
  else if String.eqb text poverty_text then Ok (PDict [("search_queries", poverty_queries)])
  else if String.eqb text number_item_text
       then Ok (PDict [("search_queries", PList [PInt 1])])
  else Raise (Exn JSONDecodeError "Expecting value: line 1 column 1 (char 0)").

(** No scenario renders a list or a dict into a message. *)
Definition container_repr (v : pyval) : string := "...".

(** A set enumerated in insertion order. *)
#[global] Instance insertion_order : SetIteration :=
  {| iter_order := fun members => members;
     iter_order_perm := fun members => Permutation_refl members |}.

(** Responses of the model to the reordering prompt of the factor script. *)
Definition factor_line (name : string) : string :=
  ">>> **" ++ name ++ "**: proven to matter" ++ String Ollama.newline "".

Definition three_factors : string :=
  factor_line "Income" ++ factor_line "Education" ++ factor_line "Air quality".

Definition nine_factors : string :=
  factor_line "Income" ++ factor_line "Education" ++ factor_line "Air quality"
  ++ factor_line "Housing" ++ factor_line "Transport" ++ factor_line "Age"
  ++ factor_line "Climate" ++ factor_line "Healthcare access"
  ++ factor_line "Population density".

(** The agent whose model answers with the poverty decomposition, on a
    healthy connection and on one that drops during the second sub-query. *)
Definition poverty_agent : GeospatialSearchAgent world :=
  agent healthy (answering poverty_text).

Definition dropping_agent : GeospatialSearchAgent world :=
  agent (dropping "%population%") (answering poverty_text).

(** A run-state whose matches name the tables A and B. *)
Definition matched_state : SearchState :=
  {| original_query := "poverty rate";
     decomposed_queries := poverty_queries;
     variable_results :=
       [[("table_name", PStr "A"); ("search_purpose", PStr "primary")];
        [("table_name", PStr "B"); ("search_purpose", PStr "normalization")]];
     database_results := [];
     final_results := EmptyDict;
     errors := [];
     messages := [] |}.

(** The poverty decomposition as models tend to send it: prose, then the
    object inside a json fence, then more prose. *)
Definition fenced_body : string :=
  String Ollama.newline "" ++ poverty_text ++ String Ollama.newline "".

Definition fenced_poverty_text : string :=
  "Here is the plan:" ++ "```json" ++ fenced_body ++ "```" ++ " Let me know.".

Definition fenced_decomposer : QueryDecomposer world :=
  {| llm := answering fenced_poverty_text |}.

(** Table A has a column matching fips. *)
Definition fips_row : RealDictRow :=
  [("table_name", PStr "A"); ("dataset_name", PStr "Poverty estimates");
   ("geometry_type", PStr "POLYGON"); ("matching_columns", PList [PStr "fips"])].

(** As [healthy], but the server also answers the column search for fips. *)
Definition column_server : Connection world :=
  {| cursor := cursor healthy;
     execute := fun st params w =>
       match st, params with
       | SelectMatchingColumns, ParamText "%fips%" :: _ =>
           if alive w then (Ok [fips_row], w) else (Raise closed, w)
       | _, _ => execute healthy st params w
       end;
     rollback := rollback healthy |}.

End Scenario.

(* ===================================================================== *)
(** ** The program, over an arbitrary outside world *)
(* ===================================================================== *)

Section Pipeline.

(** The outside world: database server, network, model runtime. *)
Variable W : Type.

(** [repr] of a list or dict, as an f-string renders one. *)
Variable container_repr : pyval -> string.

(** [json.loads]: raises JSONDecodeError on text that is not JSON. *)
Variable json_loads : string -> result pyval.

Context {set_iteration : SetIteration}.

(** *** PostGISSearcher *)

(** What [f"{v}"] renders. *)
Definition py_str (v : pyval) : string :=
  match v with
  | PNone => "None"
  | PBool true => "True"
  | PBool false => "False"
  | PInt n => str_of_int n
  | PStr s => s
  | PList _ | PDict _ => container_repr v
  end.

Definition NoneType_has_no (attr : string) : exn :=
  Exn AttributeError ("'NoneType' object has no attribute '" ++ attr ++ "'").

(** [with self.conn.cursor(cursor_factory=RealDictCursor) as cursor: body]. *)
Definition with_cursor {A} (self : PostGISSearcher W) (body : Connection W -> M W A) : M W A :=
  match conn self with
  | None => raise (NoneType_has_no "cursor")
  | Some c => cursor c ;;; body c
  end.

(** [self.conn.rollback()]. *)
Definition conn_rollback (self : PostGISSearcher W) : M W unit :=
  match conn self with
  | None => raise (NoneType_has_no "rollback")
  | Some c => rollback c
  end.

(** [pd.read_sql(query, self.engine)]. *)
Definition pd_read_sql (self : PostGISSearcher W) (query : string) : M W DataFrame.t :=
  match engine self with
  | None => raise (Exn ExternalError "no connectable")
  | Some e => read_sql e query
  end.

(** The [for term in search_terms] loop of [search_metadata]: one condition
    and three copies of the pattern per term. *)
Definition add_term (acc : list condition * list sql_param) (term : pyval)
  : result (list condition * list sql_param) :=
  match py_lower term with
  | Raise e => Raise e
  | Ok low =>
      let term_pattern := "%" ++ low ++ "%" in
      Ok ((fst acc ++ [LikeAnyName])%list,
          (snd acc ++ [ParamText term_pattern; ParamText term_pattern;
                       ParamText term_pattern])%list)
  end.

Fixpoint build_conditions (search_terms : list pyval) (acc : list condition * list sql_param)
  : result (list condition * list sql_param) :=
  match search_terms with
  | [] => Ok acc
  | term :: rest =>
      match add_term acc term with
      | Raise e => Raise e
      | Ok acc' => build_conditions rest acc'
      end
  end.

(** [if geometry_type:] on an [Optional[str]]. *)
Definition given (o : option string) : option string :=
  match o with
  | Some s => if String.eqb s "" then None else Some s
  | None => None
  end.

(** The [try] block of [search_metadata]. *)
Definition search_metadata_try (self : PostGISSearcher W) (search_terms : list pyval)
    (geometry_type : option string) (limit : Z) : M W (list pydict) :=
  with_cursor self (fun c =>
    cp <- lift (build_conditions search_terms ([], [])) ;;
    let where_clause := OrJoin (fst cp) in
    let params := snd cp in
    let '(where_clause, params) :=
      match given geometry_type with
      | Some g => (ParenAndGeometry where_clause, (params ++ [ParamText g])%list)
      | None => (where_clause, params)
      end in
    let params := (params ++ [ParamInt limit])%list in
    results <- execute c (SelectDatasetMetadata where_clause) params ;;
    ret results).

Definition search_metadata (self : PostGISSearcher W) (search_terms : list pyval)
    (geometry_type : option string) (limit : Z) : M W (list pydict) :=
  try_except
    (search_metadata_try self search_terms geometry_type limit)
    (fun e => conn_rollback self ;;; ret []).

(** The dict built for one row in [search_columns]. *)
Definition column_match (pattern : pyval) (row : RealDictRow) : result pydict :=
  match dict_item "table_name" row, dict_item "dataset_name" row,
        dict_item "geometry_type" row, dict_item "matching_columns" row with
  | Ok t, Ok d, Ok g, Ok m =>
      Ok [("table_name", t); ("dataset_name", d); ("geometry_type", g);
          ("matching_columns", m); ("search_pattern", pattern)]
  | Raise e, _, _, _ | _, Raise e, _, _ | _, _, Raise e, _ | _, _, _, Raise e => Raise e
  end.

(** The [try] block of [search_columns]. *)
Definition search_columns_try (self : PostGISSearcher W) (column_patterns : list pyval)
    (limit : Z) : M W (list pydict) :=
  with_cursor self (fun c =>
    for_each column_patterns
      (fun results pattern =>
         low <- lift (py_lower pattern) ;;
         rows <- execute c SelectMatchingColumns
                   [ParamText ("%" ++ low ++ "%"); ParamInt limit] ;;
         for_each rows
           (fun results row =>
              m <- lift (column_match pattern row) ;; ret (results ++ [m])%list)
           results)
      []).

Definition search_columns (self : PostGISSearcher W) (column_patterns : list pyval)
    (limit : Z) : M W (list pydict) :=
  try_except
    (search_columns_try self column_patterns limit)
    (fun e => conn_rollback self ;;; ret []).

(** [query] in [get_table_sample]. *)
Definition table_sample_query (table_name : pyval) (columns : option (list string))
    (limit : Z) : string :=
  let col_str :=
    match columns with
    | Some (c :: cs) => PyStr.join ", " (map PyStr.quoted (c :: cs))
    | _ => "*"
    end in
  "SELECT " ++ col_str ++ " FROM " ++ PyStr.quoted (py_str table_name)
  ++ " LIMIT " ++ str_of_int limit.

Definition get_table_sample (self : PostGISSearcher W) (table_name : pyval)
    (columns : option (list string)) (limit : Z) : M W DataFrame.t :=
  try_except
    (pd_read_sql self (table_sample_query table_name columns limit))
    (fun e => ret DataFrame.new).

(** [query] in [join_tables_by_fips]. *)
Definition join_query (table1 table2 fips_column1 fips_column2 : string)
    (select_columns : option (list (string * list string))) (limit : Z) : string :=
  let cols :=
    match select_columns with
    | Some ((t, cs) :: more) =>
        flat_map
          (fun tc =>
             map (fun col =>
                    PyStr.quoted (fst tc) ++ "." ++ PyStr.quoted col ++ " as "
                    ++ PyStr.quoted (fst tc ++ "_" ++ col))
                 (snd tc))
          ((t, cs) :: more)
    | _ => [PyStr.quoted table1 ++ ".*"; PyStr.quoted table2 ++ ".*"]
    end in
  let col_str := PyStr.join ", " cols in
  "SELECT " ++ col_str ++ " FROM " ++ PyStr.quoted table1
  ++ " INNER JOIN " ++ PyStr.quoted table2 ++ " ON "
  ++ PyStr.quoted table1 ++ "." ++ PyStr.quoted fips_column1 ++ " = "
  ++ PyStr.quoted table2 ++ "." ++ PyStr.quoted fips_column2
  ++ " LIMIT " ++ str_of_int limit.

Definition join_tables_by_fips (self : PostGISSearcher W) (table1 table2 : string)
    (fips_column1 fips_column2 : string)
    (select_columns : option (list (string * list string))) (limit : Z)
  : M W DataFrame.t :=
  try_except
    (pd_read_sql self
       (join_query table1 table2 fips_column1 fips_column2 select_columns limit))
    (fun e => ret DataFrame.new).

(** The [try] block of [get_statistics]. *)
Definition get_statistics_try (self : PostGISSearcher W) (table_name column : string)
    (group_by : option string) : M W pydict :=
  with_cursor self (fun c =>
    rows <- execute c (SelectStatistics table_name column (given group_by)) [] ;;
    match given group_by with
    | Some _ => ret [("grouped_statistics", PList (map PDict rows))]
    | None =>
        (* cursor.fetchone(), then dict(result) *)
        match rows with
        | r :: _ => ret r
        | [] => raise (Exn TypeError "'NoneType' object is not iterable")
        end
    end).

Definition get_statistics (self : PostGISSearcher W) (table_name column : string)
    (group_by : option string) : M W pydict :=
  try_except
    (get_statistics_try self table_name column group_by)
    (fun e => conn_rollback self ;;; ret []).

(** *** QueryDecomposer *)

Definition decompose (self : QueryDecomposer W) (query : string) : M W pyval :=
  try_except
    (let prompt := DECOMPOSITION_PROMPT query in
     content <- ainvoke (llm self) prompt ;;
     text <- lift (json_match content) ;;
     result <- lift (json_loads (PyStr.strip text)) ;;
     (* the log line: len(result.get('search_queries', [])) *)
     queries <- lift (py_get result "search_queries" (PList [])) ;;
     lift (py_len queries) ;;;
     ret result)
    (fun e =>
       match exn_type e with
       | JSONDecodeError => ret (basic_decomposition query)
       | _ => ret (basic_decomposition query)
       end).

(** *** GeospatialSearchAgent *)

Definition _decompose_node (self : GeospatialSearchAgent W) (state : SearchState)
  : M W SearchState :=
  try_except
    (decomposed <- decompose (decomposer self) (original_query state) ;;
     queries <- lift (py_get decomposed "search_queries" (PList [])) ;;
     let state := set_decomposed_queries queries state in
     (* the log line: len(state['decomposed_queries']) *)
     lift (py_len queries) ;;;
     ret state)
    (fun e =>
       let state := errors_append ("Decomposition error: " ++ exn_str e) state in
       ret (set_decomposed_queries
              (PList [PDict [("query", PStr (original_query state));
                             ("purpose", PStr "primary")]])
              state)).

(** [match["search_query"] = query; match["search_purpose"] = purpose]. *)
Definition stamp (query purpose : pyval) (m : pydict) : pydict :=
  dict_set "search_purpose" purpose (dict_set "search_query" query m).

Definition variable_error (query : pyval) (e : exn) : string :=
  "Variable search error for '" ++ py_str query ++ "': " ++ exn_str e.

(** One turn of the loop over [state["decomposed_queries"]]; the
    accumulator is [results] and [state["errors"]]. *)
Definition search_variable (self : GeospatialSearchAgent W)
    (acc : list pydict * list string) (query_item : pyval)
  : M W (list pydict * list string) :=
  query <- lift (py_get query_item "query" (PStr "")) ;;
  purpose <- lift (py_get query_item "purpose" (PStr "unknown")) ;;
  try_except
    (matches <- search_metadata (postgis self) [query] None 10 ;;
     ret ((fst acc ++ map (stamp query purpose) matches)%list, snd acc))
    (fun e => ret (fst acc, (snd acc ++ [variable_error query e])%list)).

Definition _search_variables_node (self : GeospatialSearchAgent W) (state : SearchState)
  : M W SearchState :=
  items <- lift (py_iter (decomposed_queries state)) ;;
  acc <- for_each items (search_variable self) ([], errors state) ;;
  ret (set_variable_results (fst acc) (set_errors (snd acc) state)).

(** The loop collecting [tables]: [if var.get("table_name"):
    tables.add(var["table_name"])]. *)
Fixpoint collect_tables (vars : list pydict) (tables : list pyval)
  : result (list pyval) :=
  match vars with
  | [] => Ok tables
  | var :: rest =>
      if py_truthy (dict_get "table_name" PNone var)
      then match dict_item "table_name" var with
           | Raise e => Raise e
           | Ok name =>
               match set_add name tables with
               | Raise e => Raise e
               | Ok tables' => collect_tables rest tables'
               end
           end
      else collect_tables rest tables
  end.

Definition database_error (table_name : pyval) (e : exn) : string :=
  "Database search error for '" ++ py_str table_name ++ "': " ++ exn_str e.

(** One turn of the loop over [list(tables)[:5]]. *)
Definition sample_table (self : GeospatialSearchAgent W)
    (acc : list TableEntry.t * list string) (table_name : pyval)
  : M W (list TableEntry.t * list string) :=
  try_except
    (sample <- get_table_sample (postgis self) table_name None 3 ;;
     let entry :=
       TableEntry.mk table_name
         (if negb (DataFrame.empty sample) then DataFrame.to_dict_records sample else [])
         (if negb (DataFrame.empty sample) then DataFrame.columns sample else []) in
     ret ((fst acc ++ [entry])%list, snd acc))
    (fun e => ret (fst acc, (snd acc ++ [database_error table_name e])%list)).

Definition _search_database_node (self : GeospatialSearchAgent W) (state : SearchState)
  : M W SearchState :=
  tables <- lift (collect_tables (variable_results state) []) ;;
  acc <- for_each (firstn 5 (iter_order tables)) (sample_table self) ([], errors state) ;;
  ret (set_database_results (fst acc) (set_errors (snd acc) state)).

(** [by_purpose[purpose].append(var)], creating the group when absent. *)
Fixpoint group_append (purpose : pyval) (var : pydict) (by_purpose : list (pyval * list pydict))
  : list (pyval * list pydict) :=
  match by_purpose with
  | [] => [(purpose, [var])]
  | (k, vs) :: more =>
      if key_eqb purpose k then (k, (vs ++ [var])%list) :: more
      else (k, vs) :: group_append purpose var more
  end.

Fixpoint group_by_purpose (vars : list pydict) (by_purpose : list (pyval * list pydict))
  : result (list (pyval * list pydict)) :=
  match vars with
  | [] => Ok by_purpose
  | var :: rest =>
      let purpose := dict_get "search_purpose" (PStr "unknown") var in
      if hashable purpose
      then group_by_purpose rest (group_append purpose var by_purpose)
      else Raise (Exn TypeError "unhashable type")
  end.

Definition _aggregate_results_node (self : GeospatialSearchAgent W) (state : SearchState)
  : M W SearchState :=
  by_purpose <- lift (group_by_purpose (variable_results state) []) ;;
  ret (set_final_results
         (Results
            (Summary.mk (original_query state) (decomposed_queries state) by_purpose
               (map TableEntry.table_name (database_results state))
               (List.length (variable_results state))
               (errors state)))
         state).

(** The compiled graph: decompose, search_variables, search_database,
    aggregate_results, END. *)
Definition graph_ainvoke (self : GeospatialSearchAgent W) (state : SearchState)
  : M W SearchState :=
  s1 <- _decompose_node self state ;;
  s2 <- _search_variables_node self s1 ;;
  s3 <- _search_database_node self s2 ;;
  _aggregate_results_node self s3.

Definition initial_state (query : string) : SearchState :=
  {| original_query := query; decomposed_queries := PList [];
     variable_results := []; database_results := []; final_results := EmptyDict;
     errors := []; messages := [] |}.

Definition search (self : GeospatialSearchAgent W) (query : string) : M W FinalResults :=
  final_state <- graph_ainvoke self (initial_state query) ;;
  ret (final_results final_state).

(** *** create_search_tools *)

(** The text [json.dumps(value, indent=2, default=str)] gives for a value,
    and the text [df.to_json(orient='records', indent=2)] gives for a frame. *)
Variable json_dumps : pyval -> string.
Variable to_json : DataFrame.t -> string.

(** [[t.strip() for t in text.split(",")]]. *)
Definition comma_separated (text : string) : list string :=
  map PyStr.strip (PyStr.split "," text).

Definition tool_search_metadata (postgis_searcher : PostGISSearcher W)
    (search_terms : string) (geometry_type : option string) : M W string :=
  let terms := comma_separated search_terms in
  results <- search_metadata postgis_searcher (map PStr terms) (given geometry_type) 20 ;;
  ret (json_dumps (PList (map PDict results))).

Definition tool_search_columns (postgis_searcher : PostGISSearcher W)
    (column_patterns : string) : M W string :=
  let patterns := comma_separated column_patterns in
  results <- search_columns postgis_searcher (map PStr patterns) 50 ;;
  ret (json_dumps (PList (map PDict results))).

Definition tool_get_table_sample (postgis_searcher : PostGISSearcher W)
    (table_name : string) (columns : option string) : M W string :=
  let cols :=
    match given columns with
    | Some text => Some (comma_separated text)
    | None => None
    end in
  df <- get_table_sample postgis_searcher (PStr table_name) cols 5 ;;
  ret (to_json df).

Definition tool_get_column_statistics (postgis_searcher : PostGISSearcher W)
    (table_name column : string) (group_by : option string) : M W string :=
  results <- get_statistics postgis_searcher table_name column (given group_by) ;;
  ret (json_dumps (PDict results)).

(** [decompose_sync] runs [decompose] to its end. *)
Definition decompose_sync (self : QueryDecomposer W) (query : string) : M W pyval :=
  decompose self query.

Definition tool_decompose_query (decomposer : QueryDecomposer W) (query : string)
  : M W string :=
  result <- decompose_sync decomposer query ;;
  ret (json_dumps result).

Definition tool_join_datasets (postgis_searcher : PostGISSearcher W)
    (table1 table2 join_column : string) : M W string :=
  df <- join_tables_by_fips postgis_searcher table1 table2 join_column join_column None 10 ;;
  ret (to_json df).

(* ===================================================================== *)
(** ** What a run went through, told apart from the way the nodes loop *)
(* ===================================================================== *)

(** The text and the purpose of a sub-query. *)
Definition subquery_text (item : pyval) : pyval :=
  match item with
  | PDict d => dict_get "query" (PStr "") d
  | _ => PStr ""
  end.

Definition subquery_purpose (item : pyval) : pyval :=
  match item with
  | PDict d => dict_get "purpose" (PStr "unknown") d
  | _ => PStr "unknown"
  end.

Definition is_dict (v : pyval) : bool :=
  match v with PDict _ => true | _ => false end.

(** What the store's search gave for each sub-query in turn, starting in
    world [w]: the matches, or the exception it raised. *)
Fixpoint store_outcomes (self : PostGISSearcher W) (items : list pyval) (w : W)
  : list (pyval * result (list pydict)) :=
  match items with
  | [] => []
  | item :: rest =>
      let '(r, w') := search_metadata self [subquery_text item] None 10 w in
      (item, r) :: store_outcomes self rest w'
  end.

(** The number of matches a sub-query contributed. *)
Definition match_count (o : pyval * result (list pydict)) : nat :=
  match snd o with Ok ms => List.length ms | Raise _ => 0 end.

(** The matches of a sub-query as they are stored, stamped. *)
Definition stamped_matches (o : pyval * result (list pydict)) : list pydict :=
  match snd o with
  | Ok ms => map (stamp (subquery_text (fst o)) (subquery_purpose (fst o))) ms
  | Raise _ => []
  end.

(** The message a sub-query left, if its search raised. *)
Definition failure_messages (o : pyval * result (list pydict)) : list string :=
  match snd o with
  | Ok _ => []
  | Raise e => [variable_error (subquery_text (fst o)) e]
  end.

Definition succeeded {A} (o : pyval * result A) : Prop :=
  exists a, snd o = Ok a.

(** The query [get_table_sample(table_name, limit=3)] sends. *)
Definition sample_query (table_name : pyval) : string :=
  table_sample_query table_name None 3.

(** What reading each table in turn gave, starting in world [w]. *)
Fixpoint sampling_outcomes (self : PostGISSearcher W) (tables : list pyval) (w : W)
  : list (pyval * result DataFrame.t) :=
  match tables with
  | [] => []
  | t :: rest =>
      let '(r, w') := pd_read_sql self (sample_query t) w in
      (t, r) :: sampling_outcomes self rest w'
  end.

(** The entry recorded for a table, given what reading it gave. *)
Definition entry_of (o : pyval * result DataFrame.t) : TableEntry.t :=
  match snd o with
  | Ok df =>
      TableEntry.mk (fst o)
        (if DataFrame.empty df then [] else DataFrame.records df)
        (if DataFrame.empty df then [] else DataFrame.columns df)
  | Raise _ => TableEntry.mk (fst o) [] []
  end.

(** A sub-query the later nodes can handle: a dict whose purpose can
    key a dict. *)
Definition well_formed_item (item : pyval) : bool :=
  is_dict item && hashable (subquery_purpose item).

(** The catalog search hands back rows whose table name can be a set
    member (text or NULL in the catalog's schema). *)
Definition table_name_hashable (row : pydict) : bool :=
  hashable (dict_get "table_name" PNone row).

Definition catalog_rows_typed (self : PostGISSearcher W) : Prop :=
  forall c w where_ params rows w',
    conn self = Some c ->
    execute c (SelectDatasetMetadata where_) params w = (Ok rows, w') ->
    Forall (fun row => table_name_hashable row = true) rows.

(** The one sub-query substituted when decomposition fails. *)
Definition fallback_queries (query : string) : pyval :=
  PList [PDict [("query", PStr query); ("purpose", PStr "primary")]].

(** The pattern [search_metadata] builds from a term, and the three
    parameters it adds for it. *)
Definition term_pattern (term : string) : string := "%" ++ PyStr.lower term ++ "%".

Definition term_params (term : string) : list sql_param :=
  [ParamText (term_pattern term); ParamText (term_pattern term);
   ParamText (term_pattern term)].

(** The clause and the parameters [search_metadata] sends, given the
    conditions and parameters its loop built. *)
Definition metadata_where (conditions : list condition) (geometry_type : option string)
  : where_clause :=
  match given geometry_type with
  | Some _ => ParenAndGeometry (OrJoin conditions)
  | None => OrJoin conditions
  end.

Definition metadata_params (params : list sql_param) (geometry_type : option string)
    (limit : Z) : list sql_param :=
  (match given geometry_type with
   | Some g => params ++ [ParamText g]
   | None => params
   end ++ [ParamInt limit])%list.

(** The clause [search_metadata] sends for [terms], placeholders filled in. *)
Definition metadata_bound (terms : list string) (geometry_type : option string)
  : Postgres.bound :=
  let patterns :=
    Postgres.BoundOr (map (fun t => (term_pattern t, term_pattern t, term_pattern t)) terms) in
  match given geometry_type with
  | Some g => Postgres.BoundAndGeometry patterns g
  | None => patterns
  end.

(** The row matches [term] as [search_metadata] asks for it: the term in
    lower case between percent signs, as a LIKE pattern, against the dataset
    name, the table name and the entries of the column list in lower case. *)
Definition pattern_matches (term : string) (r : Postgres.catalog_row) : Prop :=
  Postgres.eval_term r (term_pattern term, term_pattern term, term_pattern term) = Some true.

(** Searches that the driver or the server refuses whatever the catalog
    holds: no term at all (an empty WHERE), a limit that is negative or
    no bigint, a NUL character in a term or in the filter. *)
Definition refused (terms : list string) (geometry_type : option string) (limit : Z) : Prop :=
  terms = []
  \/ (limit < 0)%Z
  \/ (Postgres.BIGINT_MAX < limit)%Z
  \/ forallb Postgres.nul_free terms = false
  \/ exists g, given geometry_type = Some g /\ Postgres.nul_free g = false.

(** The error policy of an operation on the connection, [op], whose
    [try] block is [attempt]: what the block returns is returned; when the
    block raises, rollback runs in the world the failure left, and the
    operation returns [empty] if the rollback went through and raises the
    rollback's own exception if it did not. *)
Definition rolls_back_to {A} (self : PostGISSearcher W) (empty : A)
    (attempt op : M W A) : Prop :=
  forall w,
    (forall a w1, attempt w = (Ok a, w1) -> op w = (Ok a, w1)) /\
    (forall e w1 w2,
        attempt w = (Raise e, w1) -> conn_rollback self w1 = (Ok tt, w2) ->
        op w = (Ok empty, w2)) /\
    (forall e w1 e' w2,
        attempt w = (Raise e, w1) -> conn_rollback self w1 = (Raise e', w2) ->
        op w = (Raise e', w2)).

(** The error policy of an operation that reads through the engine with
    [query]: it never raises, hands back the empty frame when the read
    fails, and the world is the one the read left (nothing is rolled back). *)
Definition caught_to_empty_frame (self : PostGISSearcher W) (query : string)
    (op : M W DataFrame.t) : Prop :=
  forall w,
    op w =
    (Ok (match fst (pd_read_sql self query w) with
         | Ok df => df
         | Raise _ => DataFrame.new
         end),
     snd (pd_read_sql self query w)).

(** No character of [s] is a backtick. *)
Fixpoint backtick_free (s : string) : bool :=
  match s with
  | EmptyString => true
  | String c s' => negb (Ascii.eqb c "`") && backtick_free s'
  end.

(** No character of [s] is [c]. *)
Fixpoint char_free (c : ascii) (s : string) : bool :=
  match s with
  | EmptyString => true
  | String b s' => negb (Ascii.eqb c b) && char_free c s'
  end.

(** [s] without its first [n] characters. *)
Fixpoint string_skip (n : nat) (s : string) : string :=
  match n, s with
  | S k, String _ s' => string_skip k s'
  | _, _ => s
  end.

(** The pieces [ms] lie in [s] one after the other, in this order and
    without overlap. *)
Fixpoint laid_out (ms : list string) (s : string) : Prop :=
  match ms with
  | [] => True
  | m :: ms' => exists pre rest, s = pre ++ m ++ rest /\ laid_out ms' rest
  end.

(** What follows the body of a fenced block: nothing, or the closing
    fence and more text. *)
Definition closes_fence (tail : string) : Prop :=
  tail = "" \/ exists post, tail = "```" ++ post.

(** The purpose a match was stamped with, as the last node reads it. *)
Definition stamped_purpose (var : pydict) : pyval :=
  dict_get "search_purpose" (PStr "unknown") var.

(** The catalog row has something a pattern can be compared with: a
    dataset name, a table name, or at least one column. *)
Definition has_a_name (r : Postgres.catalog_row) : bool :=
  match Postgres.dataset_name r, Postgres.table_name r, Postgres.column_list r with
  | None, None, None | None, None, Some [] => false
  | _, _, _ => true
  end.

(** The row passes the geometry filter [search_metadata] was given. *)
Definition passes_filter (geometry_type : option string) (r : Postgres.catalog_row) : bool :=
  match given geometry_type with
  | None => true
  | Some g =>
      match Postgres.geometry_type r with
      | Some x => String.eqb x g
      | None => false
      end
  end.

(** What grouping keeps true of the groups built so far, for the matches
    [seen] so far. *)
Definition grouped (groups : list (pyval * list pydict)) (seen : list pydict) : Prop :=
  Permutation (flat_map snd groups) seen /\
  ForallOrdPairs (fun a b => key_eqb a b = false) (map fst groups) /\
  forall k vs,
    In (k, vs) groups ->
    vs <> [] /\ forall v, In v vs -> key_eqb (stamped_purpose v) k = true.

(** What collecting keeps true of the set of tables. *)
Definition table_set (tables : list pyval) : Prop :=
  NoDup tables /\
  forall t, In t tables -> py_truthy t = true /\ hashable t = true.

(** An entry of a column search made for [pattern]. *)
Definition column_entry (pattern : pyval) (m : pydict) : Prop :=
  map fst m = ["table_name"; "dataset_name"; "geometry_type"; "matching_columns";
               "search_pattern"]
  /\ dict_lookup "search_pattern" m = Some pattern.

(** [results] is one run of entries for each pattern, the runs in the
    order of the patterns. *)
Fixpoint runs_by_pattern (patterns : list pyval) (results : list pydict) : Prop :=
  match patterns with
  | [] => results = []
  | p :: ps =>
      exists run rest,
        results = (run ++ rest)%list /\ Forall (column_entry p) run /\ runs_by_pattern ps rest
  end.

(** A node keeps the query and only appends to the errors. *)
Definition keeps_query_and_appends_errors (node : SearchState -> M W SearchState) : Prop :=
  forall state w state' w',
    node state w = (Ok state', w') ->
    original_query state' = original_query state /\
    exists appended, errors state' = (errors state ++ appended)%list.

(* ===================================================================== *)
(** ** Properties *)
(* ===================================================================== *)

(** *** The monad *)

Lemma bind_ok {A B} (m : M W A) (k : A -> M W B) w b w' :
  bind m k w = (Ok b, w') ->
  exists a w1, m w = (Ok a, w1) /\ k a w1 = (Ok b, w').
Proof.
  unfold bind. destruct (m w) as [[a|e] w1]; intros H.
  - exists a, w1. auto.
  - discriminate.
Qed.

Lemma bind_run {A B} (m : M W A) (k : A -> M W B) w a w1 :
  m w = (Ok a, w1) -> bind m k w = k a w1.
Proof. unfold bind. intros ->. reflexivity. Qed.

Lemma lift_ok {A} (r : result A) (w : W) a w' :
  lift r w = (Ok a, w') -> r = Ok a /\ w' = w.
Proof. unfold lift. intros H. inversion H. auto. Qed.

Lemma ret_ok {A} (a b : A) (w w' : W) :
  ret a w = (Ok b, w') -> b = a /\ w' = w.
Proof. unfold ret. intros H. inversion H. auto. Qed.

Ltac unmonad :=
  repeat match goal with
  | H : bind _ _ _ = (Ok _, _) |- _ =>
      let a := fresh "a" in let w1 := fresh "w" in
      let H1 := fresh "Hrun" in let H2 := fresh "Hrest" in
      apply bind_ok in H; destruct H as (a & w1 & H1 & H2)
  | H : lift _ _ = (Ok _, _) |- _ =>
      let H1 := fresh "Hval" in
      apply lift_ok in H; destruct H as [H1 ->]
  | H : ret _ _ = (Ok _, _) |- _ =>
      apply ret_ok in H; destruct H as [-> ->]
  end.

(** *** QueryDecomposer.decompose *)

Lemma basic_decomposition_queries query :
  py_get (basic_decomposition query) "search_queries" (PList [])
  = Ok (fallback_queries query).
Proof. reflexivity. Qed.

(** [decompose] always returns; what it returns is the basic
    decomposition or the parsed response, the latter only when the call, the
    parse and the log line all went through. *)
Lemma decompose_cases (self : QueryDecomposer W) query w :
  exists d w',
    decompose self query w = (Ok d, w') /\
    (d = basic_decomposition query \/
     exists content text queries n,
       ainvoke (llm self) (DECOMPOSITION_PROMPT query) w = (Ok content, w') /\
       json_match content = Ok text /\
       json_loads (PyStr.strip text) = Ok d /\
       py_get d "search_queries" (PList []) = Ok queries /\
       py_len queries = Ok n).
Proof.
  unfold decompose, try_except, bind, lift, ret.
  destruct (ainvoke (llm self) (DECOMPOSITION_PROMPT query) w) as [[content|e] w1] eqn:Hcall.
  - destruct (json_match content) as [text|e] eqn:Hfence.
    + destruct (json_loads (PyStr.strip text)) as [d|e] eqn:Hparse.
      * destruct (py_get d "search_queries" (PList [])) as [queries|e] eqn:Hget.
        -- destruct (py_len queries) as [n|e] eqn:Hlen.
           ++ exists d, w1. split; [reflexivity|]. right.
              exists content, text, queries, n. auto.
           ++ exists (basic_decomposition query), w1.
              split; [destruct (exn_type e); reflexivity | auto].
        -- exists (basic_decomposition query), w1.
           split; [destruct (exn_type e); reflexivity | auto].
      * exists (basic_decomposition query), w1.
        split; [destruct (exn_type e); reflexivity | auto].
    + exists (basic_decomposition query), w1.
      split; [destruct (exn_type e); reflexivity | auto].
  - exists (basic_decomposition query), w1.
    split; [destruct (exn_type e); reflexivity | auto].
Qed.

(** Whatever [decompose] returns holds a sized value under
    [search_queries] (or nothing, which reads as the empty list). *)
Lemma decompose_sized (self : QueryDecomposer W) query w d w' :
  decompose self query w = (Ok d, w') ->
  exists queries n,
    py_get d "search_queries" (PList []) = Ok queries /\ py_len queries = Ok n.
Proof.
  intros H. destruct (decompose_cases self query w) as (d0 & w0 & H0 & Hcase).
  rewrite H in H0. inversion H0; subst d0 w0.
  destruct Hcase as [-> | (content & text & queries & n & _ & _ & _ & Hget & Hlen)].
  - exists (fallback_queries query), 1. split; reflexivity.
  - exists queries, n. auto.
Qed.

(** C2. If the model's response cannot be parsed as JSON after fence
    stripping, or the call itself raises, or anything else raises on the way,
    [decompose] returns the basic decomposition, whose [search_queries] is the
    single sub-query (the original text, purpose "primary"); and [decompose]
    never raises: in every world it returns a value, and any value other than
    the basic decomposition is the parsed response. *)
Theorem decompose_falls_back_and_never_raises (self : QueryDecomposer W) query w :
  (exists d w', decompose self query w = (Ok d, w')) /\
  (forall content w1 text e,
      ainvoke (llm self) (DECOMPOSITION_PROMPT query) w = (Ok content, w1) ->
      json_match content = Ok text ->
      json_loads (PyStr.strip text) = Raise e ->
      decompose self query w = (Ok (basic_decomposition query), w1)) /\
  (forall e w1,
      ainvoke (llm self) (DECOMPOSITION_PROMPT query) w = (Raise e, w1) ->
      decompose self query w = (Ok (basic_decomposition query), w1)) /\
  (forall d w1,
      decompose self query w = (Ok d, w1) ->
      d <> basic_decomposition query ->
      exists content text,
        ainvoke (llm self) (DECOMPOSITION_PROMPT query) w = (Ok content, w1) /\
        json_match content = Ok text /\
        json_loads (PyStr.strip text) = Ok d) /\
  py_get (basic_decomposition query) "search_queries" (PList [])
  = Ok (PList [PDict [("query", PStr query); ("purpose", PStr "primary")]]).
Proof.
  repeat split.
  - destruct (decompose_cases self query w) as (d & w' & H & _). eauto.
  - intros content w1 text e Hcall Hfence Hparse.
    unfold decompose, try_except, bind, lift. rewrite Hcall, Hfence, Hparse.
    destruct (exn_type e); reflexivity.
  - intros e w1 Hcall.
    unfold decompose, try_except, bind. rewrite Hcall.
    destruct (exn_type e); reflexivity.
  - intros d w1 H Hne.
    destruct (decompose_cases self query w) as (d0 & w0 & H0 & Hcase).
    rewrite H in H0. inversion H0; subst d0 w0.
    destruct Hcase as [-> | (content & text & queries & n & Hc & Hf & Hp & _)].
    + contradiction.
    + exists content, text. auto.
Qed.

(** *** The decompose node *)

(** The node always goes through its [try] body: the handler that
    records "Decomposition error" is never entered, because [decompose]
    itself never raises. *)
Lemma decompose_node_run (self : GeospatialSearchAgent W) state w :
  exists d w' queries,
    decompose (decomposer self) (original_query state) w = (Ok d, w') /\
    py_get d "search_queries" (PList []) = Ok queries /\
    _decompose_node self state w = (Ok (set_decomposed_queries queries state), w').
Proof.
  destruct (decompose_cases (decomposer self) (original_query state) w)
    as (d & w' & Hd & _).
  destruct (decompose_sized _ _ _ _ _ Hd) as (queries & n & Hget & Hlen).
  exists d, w', queries. repeat split; auto.
  unfold _decompose_node, try_except, bind, lift, ret.
  rewrite Hd, Hget, Hlen. reflexivity.
Qed.

(** *** The search_variables node *)

Lemma search_variable_run (self : GeospatialSearchAgent W) acc item w :
  is_dict item = true ->
  search_variable self acc item w =
  (Ok ((fst acc ++ stamped_matches
                     (item, fst (search_metadata (postgis self) [subquery_text item] None 10 w)))%list,
       (snd acc ++ failure_messages
                     (item, fst (search_metadata (postgis self) [subquery_text item] None 10 w)))%list),
   snd (search_metadata (postgis self) [subquery_text item] None 10 w)).
Proof.
  destruct item; try discriminate. intros _.
  unfold search_variable, bind, lift, py_get, try_except, ret,
    stamped_matches, failure_messages.
  cbn [subquery_text subquery_purpose fst snd].
  destruct (search_metadata (postgis self) [dict_get "query" (PStr "") entries] None 10 w)
    as [[ms|e] w1]; cbn [fst snd]; rewrite app_nil_r; reflexivity.
Qed.

Lemma search_variable_not_dict (self : GeospatialSearchAgent W) acc item w :
  is_dict item = false ->
  exists e, search_variable self acc item w = (Raise e, w).
Proof.
  destruct item; try discriminate; intros _;
    unfold search_variable, bind, lift, py_get; eauto.
Qed.

Lemma store_outcomes_cons (self : PostGISSearcher W) item rest w :
  store_outcomes self (item :: rest) w =
  (item, fst (search_metadata self [subquery_text item] None 10 w))
  :: store_outcomes self rest (snd (search_metadata self [subquery_text item] None 10 w)).
Proof.
  cbn [store_outcomes].
  destruct (search_metadata self [subquery_text item] None 10 w); reflexivity.
Qed.

(** The loop, when it completes, has gathered the stamped matches and the
    failure messages of the sub-queries, in order. *)
Lemma variable_loop_ok (self : GeospatialSearchAgent W) items :
  forall acc w acc' w',
    for_each items (search_variable self) acc w = (Ok acc', w') ->
    forallb is_dict items = true /\
    fst acc' = (fst acc ++ flat_map stamped_matches
                             (store_outcomes (postgis self) items w))%list /\
    snd acc' = (snd acc ++ flat_map failure_messages
                             (store_outcomes (postgis self) items w))%list.
Proof.
  induction items as [|item rest IH]; intros acc w acc' w' H.
  - cbn in H. apply ret_ok in H. destruct H as [-> _].
    cbn. rewrite !app_nil_r. auto.
  - cbn [for_each] in H.
    destruct (is_dict item) eqn:Hd.
    + rewrite (bind_run _ _ _ _ _ (search_variable_run self acc item w Hd)) in H.
      apply IH in H. destruct H as (Hall & Hres & Herr).
      cbn [forallb]. rewrite Hd, Hall. split; [reflexivity|].
      rewrite store_outcomes_cons. cbn [flat_map].
      cbn [fst snd] in Hres, Herr.
      rewrite Hres, Herr, !app_assoc. auto.
    + destruct (search_variable_not_dict self acc item w Hd) as (e & He).
      unfold bind in H. rewrite He in H. discriminate.
Qed.

(** The loop completes on every list of dicts. *)
Lemma variable_loop_total (self : GeospatialSearchAgent W) items :
  forallb is_dict items = true ->
  forall acc w, exists acc' w',
    for_each items (search_variable self) acc w = (Ok acc', w').
Proof.
  induction items as [|item rest IH]; intros Hall acc w.
  - exists acc, w. reflexivity.
  - cbn [forallb] in Hall. apply andb_prop in Hall. destruct Hall as [Hd Hrest].
    cbn [for_each].
    rewrite (bind_run _ _ _ _ _ (search_variable_run self acc item w Hd)).
    apply IH; assumption.
Qed.

(** *** The store's sampling never raises *)

Lemma get_table_sample_run (self : PostGISSearcher W) table_name w :
  get_table_sample self table_name None 3 w =
  (Ok (match fst (pd_read_sql self (sample_query table_name) w) with
       | Ok df => df
       | Raise _ => DataFrame.new
       end),
   snd (pd_read_sql self (sample_query table_name) w)).
Proof.
  unfold get_table_sample, try_except, sample_query, ret.
  destruct (pd_read_sql self _ w) as [[df|e] w1]; reflexivity.
Qed.

Lemma sample_table_run (self : GeospatialSearchAgent W) acc table_name w :
  sample_table self acc table_name w =
  (Ok ((fst acc ++ [entry_of (table_name,
                              fst (pd_read_sql (postgis self) (sample_query table_name) w))])%list,
       snd acc),
   snd (pd_read_sql (postgis self) (sample_query table_name) w)).
Proof.
  unfold sample_table, try_except, bind. rewrite get_table_sample_run.
  unfold ret, entry_of. cbn [fst snd].
  destruct (pd_read_sql (postgis self) (sample_query table_name) w) as [[df|e] w1];
    cbn [fst snd].
  - destruct (DataFrame.empty df); reflexivity.
  - reflexivity.
Qed.

Lemma sampling_outcomes_cons (self : PostGISSearcher W) t rest w :
  sampling_outcomes self (t :: rest) w =
  (t, fst (pd_read_sql self (sample_query t) w))
  :: sampling_outcomes self rest (snd (pd_read_sql self (sample_query t) w)).
Proof.
  cbn [sampling_outcomes]. destruct (pd_read_sql self (sample_query t) w); reflexivity.
Qed.

(** The loop over the tables always completes, records one entry per
    table and leaves the errors as they were. *)
Lemma sample_loop_run (self : GeospatialSearchAgent W) tables :
  forall acc w, exists w',
    for_each tables (sample_table self) acc w =
    (Ok ((fst acc ++ map entry_of (sampling_outcomes (postgis self) tables w))%list,
         snd acc), w').
Proof.
  induction tables as [|t rest IH]; intros acc w.
  - exists w. cbn. rewrite app_nil_r. destruct acc; reflexivity.
  - cbn [for_each]. rewrite (bind_run _ _ _ _ _ (sample_table_run self acc t w)).
    destruct (IH ((fst acc ++ [entry_of (t, fst (pd_read_sql (postgis self) (sample_query t) w))])%list,
                  snd acc)
                 (snd (pd_read_sql (postgis self) (sample_query t) w))) as (w' & Hrun).
    exists w'. rewrite Hrun. cbn [fst snd].
    rewrite sampling_outcomes_cons. cbn [map]. rewrite <- app_assoc. reflexivity.
Qed.

Lemma sampling_outcomes_tables (self : PostGISSearcher W) tables :
  forall w, map fst (sampling_outcomes self tables w) = tables.
Proof.
  induction tables as [|t rest IH]; intros w.
  - reflexivity.
  - rewrite sampling_outcomes_cons. cbn [map fst]. rewrite IH. reflexivity.
Qed.

Lemma entry_of_table_name (o : pyval * result DataFrame.t) :
  TableEntry.table_name (entry_of o) = fst o.
Proof. unfold entry_of. destruct (snd o); reflexivity. Qed.

(** *** Dictionaries and stamping *)

Lemma dict_lookup_set_same k v d : dict_lookup k (dict_set k v d) = Some v.
Proof.
  induction d as [|[k' v'] d IH]; cbn.
  - rewrite String.eqb_refl. reflexivity.
  - destruct (String.eqb k k') eqn:E; cbn; rewrite E; auto.
Qed.

Lemma dict_lookup_set_other k k' v d :
  k <> k' -> dict_lookup k' (dict_set k v d) = dict_lookup k' d.
Proof.
  intros Hne. induction d as [|[k0 v0] d IH]; cbn.
  - destruct (String.eqb_spec k' k); [congruence | reflexivity].
  - destruct (String.eqb_spec k k0) as [->|Hk]; cbn.
    + destruct (String.eqb_spec k' k0); [congruence | reflexivity].
    + destruct (String.eqb_spec k' k0); auto.
Qed.

Lemma stamp_purpose query purpose m default :
  dict_get "search_purpose" default (stamp query purpose m) = purpose.
Proof. unfold dict_get, stamp. rewrite dict_lookup_set_same. reflexivity. Qed.

Lemma stamp_table_name query purpose m :
  dict_lookup "table_name" (stamp query purpose m) = dict_lookup "table_name" m.
Proof.
  unfold stamp. rewrite !dict_lookup_set_other by discriminate. reflexivity.
Qed.

(** *** The tables collected from the matches *)

(** Every collected table is the table name of some match. *)
Lemma collect_tables_members vars :
  forall acc tables t,
    collect_tables vars acc = Ok tables ->
    In t tables ->
    In t acc \/ exists var, In var vars /\ dict_lookup "table_name" var = Some t.
Proof.
  induction vars as [|var rest IH]; intros acc tables t H Hin.
  - cbn in H. inversion H; subst. auto.
  - cbn [collect_tables] in H.
    destruct (py_truthy (dict_get "table_name" PNone var)).
    + unfold dict_item in H.
      destruct (dict_lookup "table_name" var) as [name|] eqn:Hname; [|discriminate].
      unfold set_add in H. destruct (hashable name); [|discriminate].
      destruct (IH _ _ _ H Hin) as [Hacc | (v & Hv & Hl)].
      * destruct (existsb (key_eqb name) acc).
        -- auto.
        -- apply in_app_or in Hacc. destruct Hacc as [Hacc | [<- | []]].
           ++ auto.
           ++ right. exists var. split; [left; reflexivity | assumption].
      * right. exists v. split; [right; assumption | assumption].
    + destruct (IH _ _ _ H Hin) as [Hacc | (v & Hv & Hl)]; auto.
      right. exists v. split; [right; assumption | assumption].
Qed.

(** Collecting never raises when every table name is hashable. *)
Lemma collect_tables_total vars :
  Forall (fun var => table_name_hashable var = true) vars ->
  forall acc, exists tables, collect_tables vars acc = Ok tables.
Proof.
  induction 1 as [|var rest Hvar _ IH]; intros acc.
  - exists acc. reflexivity.
  - cbn [collect_tables]. unfold table_name_hashable, dict_get in Hvar.
    unfold dict_get, dict_item.
    destruct (dict_lookup "table_name" var) as [name|]; cbn [py_truthy].
    + destruct (py_truthy name); [|apply IH].
      unfold set_add. rewrite Hvar. apply IH.
    + apply IH.
Qed.

(** *** The search_database node *)

Lemma database_node_run (self : GeospatialSearchAgent W) state w tables :
  collect_tables (variable_results state) [] = Ok tables ->
  exists w',
    _search_database_node self state w =
    (Ok (set_database_results
           (map entry_of
              (sampling_outcomes (postgis self) (firstn 5 (iter_order tables)) w))
           (set_errors (errors state) state)),
     w').
Proof.
  intros Hc. unfold _search_database_node, bind at 1, lift. rewrite Hc.
  destruct (sample_loop_run self (firstn 5 (iter_order tables)) ([], errors state) w)
    as (w' & Hrun).
  exists w'. unfold bind. rewrite Hrun. reflexivity.
Qed.

Lemma database_node_ok (self : GeospatialSearchAgent W) state w state' w' :
  _search_database_node self state w = (Ok state', w') ->
  exists tables,
    collect_tables (variable_results state) [] = Ok tables /\
    state' =
    set_database_results
      (map entry_of
         (sampling_outcomes (postgis self) (firstn 5 (iter_order tables)) w))
      (set_errors (errors state) state).
Proof.
  intros H.
  destruct (collect_tables (variable_results state) []) as [tables|e] eqn:Hc.
  - destruct (database_node_run self state w tables Hc) as (w1 & Hrun).
    rewrite Hrun in H. inversion H. exists tables. auto.
  - unfold _search_database_node, bind, lift in H. rewrite Hc in H. discriminate.
Qed.

(** *** The aggregate_results node *)

Lemma group_by_purpose_total vars :
  Forall (fun var => hashable (dict_get "search_purpose" (PStr "unknown") var) = true) vars ->
  forall acc, exists groups, group_by_purpose vars acc = Ok groups.
Proof.
  induction 1 as [|var rest Hvar _ IH]; intros acc.
  - exists acc. reflexivity.
  - cbn [group_by_purpose]. rewrite Hvar. apply IH.
Qed.

Lemma aggregate_node_ok (self : GeospatialSearchAgent W) state w state' w' :
  _aggregate_results_node self state w = (Ok state', w') ->
  w' = w /\
  exists by_purpose,
    group_by_purpose (variable_results state) [] = Ok by_purpose /\
    state' =
    set_final_results
      (Results
         (Summary.mk (original_query state) (decomposed_queries state) by_purpose
            (map TableEntry.table_name (database_results state))
            (List.length (variable_results state)) (errors state)))
      state.
Proof.
  unfold _aggregate_results_node. intros H. unmonad.
  split; [reflexivity|]. exists a. auto.
Qed.

Lemma aggregate_node_run (self : GeospatialSearchAgent W) state w by_purpose :
  group_by_purpose (variable_results state) [] = Ok by_purpose ->
  _aggregate_results_node self state w =
  (Ok (set_final_results
         (Results
            (Summary.mk (original_query state) (decomposed_queries state) by_purpose
               (map TableEntry.table_name (database_results state))
               (List.length (variable_results state)) (errors state)))
         state), w).
Proof.
  intros Hg. unfold _aggregate_results_node, bind, lift. rewrite Hg. reflexivity.
Qed.

Lemma variables_node_ok (self : GeospatialSearchAgent W) state w state' w' :
  _search_variables_node self state w = (Ok state', w') ->
  exists items,
    py_iter (decomposed_queries state) = Ok items /\
    forallb is_dict items = true /\
    state' =
    set_variable_results
      (flat_map stamped_matches (store_outcomes (postgis self) items w))
      (set_errors
         (errors state ++ flat_map failure_messages
                            (store_outcomes (postgis self) items w))%list
         state).
Proof.
  unfold _search_variables_node. intros H. unmonad.
  apply variable_loop_ok in Hrun0. destruct Hrun0 as (Hall & Hres & Herr).
  exists a. repeat split; auto.
  cbn [fst snd] in Hres, Herr. rewrite Hres, Herr. reflexivity.
Qed.

Lemma variables_node_total (self : GeospatialSearchAgent W) state w items :
  py_iter (decomposed_queries state) = Ok items ->
  forallb is_dict items = true ->
  exists state' w', _search_variables_node self state w = (Ok state', w').
Proof.
  intros Hiter Hall.
  destruct (variable_loop_total self items Hall ([], errors state) w) as (acc & w' & Hrun).
  unfold _search_variables_node, bind at 1, lift. rewrite Hiter.
  unfold bind. rewrite Hrun. do 2 eexists. reflexivity.
Qed.

(** *** The whole graph *)

(** The final state of a completed run, in terms of what the store gave
    for each sub-query and what reading each table gave. *)
Lemma graph_run_shape (self : GeospatialSearchAgent W) state w final w' :
  graph_ainvoke self state w = (Ok final, w') ->
  exists queries w1 items w2 tables by_purpose,
    _decompose_node self state w = (Ok (set_decomposed_queries queries state), w1) /\
    py_iter queries = Ok items /\
    forallb is_dict items = true /\
    collect_tables (flat_map stamped_matches (store_outcomes (postgis self) items w1)) []
    = Ok tables /\
    group_by_purpose (flat_map stamped_matches (store_outcomes (postgis self) items w1)) []
    = Ok by_purpose /\
    final =
    {| original_query := original_query state;
       decomposed_queries := queries;
       variable_results := flat_map stamped_matches (store_outcomes (postgis self) items w1);
       database_results :=
         map entry_of
           (sampling_outcomes (postgis self) (firstn 5 (iter_order tables)) w2);
       final_results :=
         Results
           (Summary.mk (original_query state) queries by_purpose
              (map TableEntry.table_name
                 (map entry_of
                    (sampling_outcomes (postgis self) (firstn 5 (iter_order tables)) w2)))
              (List.length
                 (flat_map stamped_matches (store_outcomes (postgis self) items w1)))
              (errors state ++ flat_map failure_messages
                                 (store_outcomes (postgis self) items w1))%list);
       errors := (errors state ++ flat_map failure_messages
                                    (store_outcomes (postgis self) items w1))%list;
       messages := messages state |}.
Proof.
  unfold graph_ainvoke. intros H. unmonad.
  destruct (decompose_node_run self state w) as (d & wd & queries & _ & _ & Hnode).
  rewrite Hnode in Hrun. inversion Hrun; subst a w0. clear Hrun.
  apply variables_node_ok in Hrun0. destruct Hrun0 as (items & Hiter & Hall & ->).
  apply database_node_ok in Hrun1. destruct Hrun1 as (tables & Hc & ->).
  apply aggregate_node_ok in Hrest. destruct Hrest as (-> & by_purpose & Hg & ->).
  exists queries, wd, items, w1, tables, by_purpose.
  cbn in Hiter, Hc, Hg. repeat split; auto.
Qed.

Lemma store_outcomes_items (self : PostGISSearcher W) items :
  forall w, map fst (store_outcomes self items w) = items.
Proof.
  induction items as [|item rest IH]; intros w.
  - reflexivity.
  - rewrite store_outcomes_cons. cbn [map fst]. rewrite IH. reflexivity.
Qed.

Lemma stamped_matches_count outcomes :
  List.length (flat_map stamped_matches outcomes) = list_sum (map match_count outcomes).
Proof.
  induction outcomes as [|o rest IH]; cbn [flat_map map list_sum].
  - reflexivity.
  - rewrite length_app, IH.
    replace (List.length (stamped_matches o)) with (match_count o); [reflexivity|].
    unfold stamped_matches, match_count. destruct (snd o).
    + symmetry. apply length_map.
    + reflexivity.
Qed.

Lemma no_failure_messages outcomes :
  Forall succeeded outcomes -> flat_map failure_messages outcomes = [].
Proof.
  induction 1 as [|o rest [ms Ho] _ IH]; cbn [flat_map].
  - reflexivity.
  - rewrite IH. unfold failure_messages. rewrite Ho. reflexivity.
Qed.

Lemma in_firstn {A} (x : A) n : forall l, In x (firstn n l) -> In x l.
Proof.
  induction n as [|n IH]; intros [|y l] H; cbn in H; try contradiction.
  destruct H as [-> | H]; [left; reflexivity | right; apply IH; exact H].
Qed.

(** C4. In the final result of a run, [total_matches] is the sum, over
    the decomposed sub-queries in order, of the number of matches the store
    search returned for that sub-query, a sub-query whose search raised
    counting for 0; it is also the length of [variable_results]. *)
Theorem total_matches_is_sum_over_subqueries
    (self : GeospatialSearchAgent W) query w final w' :
  graph_ainvoke self (initial_state query) w = (Ok final, w') ->
  exists r s1 w1 items,
    final_results final = Results r /\
    search self query w = (Ok (Results r), w') /\
    _decompose_node self (initial_state query) w = (Ok s1, w1) /\
    Summary.decomposition r = decomposed_queries s1 /\
    py_iter (decomposed_queries s1) = Ok items /\
    map fst (store_outcomes (postgis self) items w1) = items /\
    Summary.total_matches r
    = list_sum (map match_count (store_outcomes (postgis self) items w1)) /\
    Summary.total_matches r = List.length (variable_results final) /\
    (forall o e,
        In o (store_outcomes (postgis self) items w1) ->
        snd o = Raise e -> match_count o = 0).
Proof.
  intros H.
  destruct (graph_run_shape self _ _ _ _ H)
    as (queries & w1 & items & w2 & tables & by_purpose & Hnode & Hiter & _ & _ & _ & ->).
  eexists _, _, w1, items. cbn [final_results variable_results].
  split; [reflexivity|].
  split; [unfold search, bind; rewrite H; reflexivity|].
  split; [exact Hnode|].
  cbn [Summary.decomposition Summary.total_matches decomposed_queries set_decomposed_queries].
  repeat split; auto.
  - apply store_outcomes_items.
  - apply stamped_matches_count.
  - intros o e _ Ho. unfold match_count. rewrite Ho. reflexivity.
Qed.

(** C6. In the final state of every run, [database_results] has at
    most 5 entries, and the table name of each entry is the table name of
    some match in [variable_results]. *)
Theorem database_results_at_most_five_from_matches
    (self : GeospatialSearchAgent W) state w final w' :
  graph_ainvoke self state w = (Ok final, w') ->
  List.length (database_results final) <= 5 /\
  forall entry,
    In entry (database_results final) ->
    exists var,
      In var (variable_results final) /\
      dict_lookup "table_name" var = Some (TableEntry.table_name entry).
Proof.
  intros H.
  destruct (graph_run_shape self _ _ _ _ H)
    as (queries & w1 & items & w2 & tables & by_purpose & _ & _ & _ & Hc & _ & ->).
  cbn [database_results variable_results]. split.
  - rewrite length_map.
    rewrite <- (length_map fst), sampling_outcomes_tables.
    rewrite length_firstn. apply Nat.le_min_l.
  - intros entry Hin.
    apply in_map_iff in Hin. destruct Hin as (o & <- & Ho).
    rewrite entry_of_table_name.
    assert (Hfst : In (fst o) (firstn 5 (iter_order tables))).
    { rewrite <- (sampling_outcomes_tables (postgis self) _ w2).
      apply in_map. exact Ho. }
    apply in_firstn in Hfst.
    apply (Permutation_in _ (iter_order_perm tables)) in Hfst.
    destruct (collect_tables_members _ _ _ _ Hc Hfst) as [[] | Hvar].
    exact Hvar.
Qed.

(** C7. If, during search_variables, the store's search raises for exactly
    one sub-query, the final errors list is exactly the one message naming
    that sub-query's text, that sub-query contributes no match, and the
    matches returned for every other sub-query are in [variable_results]. *)
Theorem one_failed_subquery_is_reported_once
    (self : GeospatialSearchAgent W) query w final w' s1 w1 items before item e after :
  graph_ainvoke self (initial_state query) w = (Ok final, w') ->
  _decompose_node self (initial_state query) w = (Ok s1, w1) ->
  py_iter (decomposed_queries s1) = Ok items ->
  store_outcomes (postgis self) items w1 = (before ++ (item, Raise e) :: after)%list ->
  Forall succeeded before ->
  Forall succeeded after ->
  errors final
  = ["Variable search error for '" ++ py_str (subquery_text item) ++ "': " ++ exn_str e] /\
  match_count (item, Raise e) = 0 /\
  variable_results final
  = (flat_map stamped_matches before ++ flat_map stamped_matches after)%list /\
  (forall o m,
      In o (before ++ after)%list -> In m (stamped_matches o) ->
      In m (variable_results final)).
Proof.
  intros H Hnode Hiter Hout Hbefore Hafter.
  destruct (graph_run_shape self _ _ _ _ H)
    as (queries & w1' & items' & w2 & tables & by_purpose & Hnode' & Hiter' & _ & _ & _ & ->).
  rewrite Hnode in Hnode'. inversion Hnode'; subst s1 w1'. clear Hnode'.
  cbn [decomposed_queries set_decomposed_queries] in Hiter.
  rewrite Hiter in Hiter'. inversion Hiter'; subst items'. clear Hiter'.
  cbn [errors variable_results initial_state app].
  rewrite Hout, !flat_map_app. cbn [flat_map].
  rewrite (no_failure_messages _ Hbefore), (no_failure_messages _ Hafter).
  assert (Hnone : stamped_matches (item, Raise e) = []) by reflexivity.
  rewrite Hnone. cbn [app].
  repeat split; auto.
  intros o m Ho Hm. apply in_app_or in Ho. apply in_or_app.
  destruct Ho as [Ho | Ho]; [left | right]; apply in_flat_map; eauto.
Qed.

(** C8, amended. In the search_database state a table whose sampling
    fails still gets an entry in [database_results], with empty [sample_data]
    and empty [columns], and no error message is appended:
    [get_table_sample] catches the failure and hands back an empty frame.
    Each of the (at most five) selected tables is processed, in order. *)
Theorem failed_sampling_yields_empty_entry_and_no_error
    (self : GeospatialSearchAgent W) state w state' w' :
  _search_database_node self state w = (Ok state', w') ->
  errors state' = errors state /\
  exists tables,
    collect_tables (variable_results state) [] = Ok tables /\
    map TableEntry.table_name (database_results state') = firstn 5 (iter_order tables) /\
    database_results state'
    = map entry_of (sampling_outcomes (postgis self) (firstn 5 (iter_order tables)) w) /\
    forall o e,
      In o (sampling_outcomes (postgis self) (firstn 5 (iter_order tables)) w) ->
      snd o = Raise e ->
      In (TableEntry.mk (fst o) [] []) (database_results state').
Proof.
  intros H. apply database_node_ok in H. destruct H as (tables & Hc & ->).
  split; [reflexivity|]. exists tables. cbn [database_results set_database_results].
  repeat split; auto.
  - rewrite map_map.
    rewrite (map_ext _ fst entry_of_table_name).
    apply sampling_outcomes_tables.
  - intros o e Ho Hfail.
    apply in_map_iff. exists o. split; [|exact Ho].
    unfold entry_of. rewrite Hfail. reflexivity.
Qed.

(** C9. Each of the four nodes leaves [original_query] as it was and
    only appends to [errors]: the errors on entry are a prefix of the errors
    on exit. *)
Theorem nodes_keep_query_and_append_errors (self : GeospatialSearchAgent W) :
  keeps_query_and_appends_errors (_decompose_node self) /\
  keeps_query_and_appends_errors (_search_variables_node self) /\
  keeps_query_and_appends_errors (_search_database_node self) /\
  keeps_query_and_appends_errors (_aggregate_results_node self).
Proof.
  unfold keeps_query_and_appends_errors. repeat split.
  - destruct (decompose_node_run self state w) as (d & w1 & queries & _ & _ & Hnode).
    rewrite Hnode in H. inversion H. reflexivity.
  - destruct (decompose_node_run self state w) as (d & w1 & queries & _ & _ & Hnode).
    rewrite Hnode in H. inversion H. exists []. cbn. rewrite app_nil_r. reflexivity.
  - apply variables_node_ok in H. destruct H as (items & _ & _ & ->). reflexivity.
  - apply variables_node_ok in H. destruct H as (items & _ & _ & ->).
    eexists. reflexivity.
  - apply database_node_ok in H. destruct H as (tables & _ & ->). reflexivity.
  - apply database_node_ok in H. destruct H as (tables & _ & ->).
    exists []. cbn. rewrite app_nil_r. reflexivity.
  - apply aggregate_node_ok in H. destruct H as (_ & g & _ & ->). reflexivity.
  - apply aggregate_node_ok in H. destruct H as (_ & g & _ & ->).
    exists []. cbn. rewrite app_nil_r. reflexivity.
Qed.

(** *** The run completes on well-formed sub-queries *)

Lemma search_metadata_typed (self : PostGISSearcher W) terms g limit w rows w' :
  catalog_rows_typed self ->
  search_metadata self terms g limit w = (Ok rows, w') ->
  Forall (fun row => table_name_hashable row = true) rows.
Proof.
  intros Htyped H. unfold search_metadata, try_except in H.
  destruct (search_metadata_try self terms g limit w) as [[rows0|e] w1] eqn:Htry.
  - inversion H; subst rows0 w1. clear H.
    unfold search_metadata_try, with_cursor in Htry.
    destruct (conn self) as [c|] eqn:Hconn; [|discriminate].
    unmonad. destruct (given g); unmonad; eapply Htyped; eauto.
  - unmonad. constructor.
Qed.

Lemma stamped_matches_typed (self : PostGISSearcher W) items :
  catalog_rows_typed self ->
  forall w,
    Forall (fun var => table_name_hashable var = true)
           (flat_map stamped_matches (store_outcomes self items w)).
Proof.
  intros Htyped. induction items as [|item rest IH]; intros w.
  - constructor.
  - rewrite store_outcomes_cons. cbn [flat_map]. apply Forall_app. split; [|apply IH].
    unfold stamped_matches. cbn [fst snd].
    destruct (search_metadata self [subquery_text item] None 10 w) as [[ms|e] w1] eqn:Hs;
      cbn [fst]; [|constructor].
    apply Forall_forall. intros var Hin.
    apply in_map_iff in Hin. destruct Hin as (m & <- & Hm).
    unfold table_name_hashable, dict_get. rewrite stamp_table_name.
    pose proof (search_metadata_typed _ _ _ _ _ _ _ Htyped Hs) as Hall.
    rewrite Forall_forall in Hall. exact (Hall m Hm).
Qed.

Lemma stamped_matches_purposes (self : PostGISSearcher W) items :
  forallb well_formed_item items = true ->
  forall w,
    Forall (fun var => hashable (dict_get "search_purpose" (PStr "unknown") var) = true)
           (flat_map stamped_matches (store_outcomes self items w)).
Proof.
  induction items as [|item rest IH]; intros Hall w.
  - constructor.
  - cbn [forallb] in Hall. apply andb_prop in Hall. destruct Hall as [Hitem Hrest].
    rewrite store_outcomes_cons. cbn [flat_map]. apply Forall_app. split; [|apply IH; exact Hrest].
    unfold stamped_matches. cbn [fst snd].
    destruct (fst (search_metadata self [subquery_text item] None 10 w)) as [ms|e];
      [|constructor].
    apply Forall_forall. intros var Hin.
    apply in_map_iff in Hin. destruct Hin as (m & <- & _).
    rewrite stamp_purpose.
    unfold well_formed_item in Hitem. apply andb_prop in Hitem. apply Hitem.
Qed.

Lemma well_formed_items_are_dicts items :
  forallb well_formed_item items = true -> forallb is_dict items = true.
Proof.
  induction items as [|item rest IH]; cbn [forallb]; intros H; [reflexivity|].
  apply andb_prop in H. destruct H as [Hitem Hrest].
  unfold well_formed_item in Hitem. apply andb_prop in Hitem.
  destruct Hitem as [-> _]. rewrite (IH Hrest). reflexivity.
Qed.

Lemma run_completes (self : GeospatialSearchAgent W) state w queries w1 items :
  catalog_rows_typed (postgis self) ->
  _decompose_node self state w = (Ok (set_decomposed_queries queries state), w1) ->
  py_iter queries = Ok items ->
  forallb well_formed_item items = true ->
  exists final w', graph_ainvoke self state w = (Ok final, w').
Proof.
  intros Htyped Hnode Hiter Hwf.
  unfold graph_ainvoke. rewrite (bind_run _ _ _ _ _ Hnode).
  destruct (variables_node_total self (set_decomposed_queries queries state) w1 items
              Hiter (well_formed_items_are_dicts _ Hwf)) as (s2 & w2 & Hvars).
  rewrite (bind_run _ _ _ _ _ Hvars).
  apply variables_node_ok in Hvars.
  destruct Hvars as (items' & Hiter' & _ & ->).
  cbn [decomposed_queries set_decomposed_queries] in Hiter'.
  rewrite Hiter in Hiter'. inversion Hiter'; subst items'. clear Hiter'.
  match goal with |- context [_search_database_node self ?s2] => set (st2 := s2) end.
  destruct (collect_tables_total (variable_results st2)
              (stamped_matches_typed (postgis self) items Htyped w1) [])
    as (tables & Hc).
  destruct (database_node_run self st2 w2 tables Hc) as (w3 & Hdb).
  rewrite (bind_run _ _ _ _ _ Hdb).
  match goal with |- context [_aggregate_results_node self ?s3] => set (st3 := s3) end.
  destruct (group_by_purpose_total (variable_results st3)
              (stamped_matches_purposes (postgis self) items Hwf w1) [])
    as (groups & Hg).
  rewrite (aggregate_node_run self st3 w3 groups Hg). eauto.
Qed.

Lemma search_of_graph (self : GeospatialSearchAgent W) query w final w' :
  graph_ainvoke self (initial_state query) w = (Ok final, w') ->
  search self query w = (Ok (final_results final), w').
Proof. intros H. unfold search, bind. rewrite H. reflexivity. Qed.

Lemma search_decomposition (self : GeospatialSearchAgent W) query w r w' :
  search self query w = (Ok (Results r), w') ->
  exists d w1,
    decompose (decomposer self) query w = (Ok d, w1) /\
    py_get d "search_queries" (PList []) = Ok (Summary.decomposition r).
Proof.
  unfold search. intros H. unmonad.
  destruct (decompose_node_run self (initial_state query) w)
    as (d & w1 & queries & Hd & Hget & Hnode).
  destruct (graph_run_shape self _ _ _ _ Hrun)
    as (queries' & w1' & items & w2 & tables & by_purpose & Hnode' & _ & _ & _ & _ & ->).
  rewrite Hnode in Hnode'. inversion Hnode'; subst queries' w1'.
  apply ret_ok in Hrest. destruct Hrest as [Hr _].
  cbn [final_results] in Hr. inversion Hr; subst r.
  exists d, w1. cbn [Summary.decomposition]. auto.
Qed.

(** C1, amended. For every query string: [decompose] always returns a
    decomposition.  When it falls back (the model's response was malformed, or
    something raised), [search] does not raise and its result carries exactly
    one sub-query, the original text with purpose "primary".  When it
    succeeds, a completed run carries whatever the response holds under
    [search_queries] (the empty list when the key is absent), and the run
    completes whenever every sub-query is a dict whose purpose is
    hashable.  The catalog is taken to hand back hashable table names. *)
Theorem search_decomposition_is_fallback_or_response
    (self : GeospatialSearchAgent W) query w :
  catalog_rows_typed (postgis self) ->
  exists d w1 queries,
    decompose (decomposer self) query w = (Ok d, w1) /\
    py_get d "search_queries" (PList []) = Ok queries /\
    (d = basic_decomposition query ->
     exists r w',
       search self query w = (Ok (Results r), w') /\
       Summary.decomposition r
       = PList [PDict [("query", PStr query); ("purpose", PStr "primary")]]) /\
    (forall items,
        py_iter queries = Ok items ->
        forallb well_formed_item items = true ->
        exists r w',
          search self query w = (Ok (Results r), w') /\
          Summary.decomposition r = queries) /\
    (forall r w',
        search self query w = (Ok (Results r), w') ->
        Summary.decomposition r = queries).
Proof.
  intros Htyped.
  destruct (decompose_node_run self (initial_state query) w)
    as (d & w1 & queries & Hd & Hget & Hnode).
  cbn [original_query initial_state] in Hd.
  assert (Hcomplete : forall items,
             py_iter queries = Ok items ->
             forallb well_formed_item items = true ->
             exists r w',
               search self query w = (Ok (Results r), w') /\
               Summary.decomposition r = queries).
  { intros items Hiter Hwf.
    destruct (run_completes self _ _ _ _ _ Htyped Hnode Hiter Hwf) as (final & w' & Hrun).
    pose proof (search_of_graph _ _ _ _ _ Hrun) as Hsearch.
    destruct (graph_run_shape self _ _ _ _ Hrun)
      as (queries' & w1' & items' & w2 & tables & by_purpose & Hnode' & _ & _ & _ & _ & Hfinal).
    rewrite Hnode in Hnode'. inversion Hnode'; subst queries' w1'.
    rewrite Hfinal in Hsearch. cbn [final_results] in Hsearch.
    eexists _, w'. split; [exact Hsearch | reflexivity]. }
  exists d, w1, queries. repeat split; auto.
  - intros ->. rewrite basic_decomposition_queries in Hget.
    inversion Hget; subst queries.
    apply (Hcomplete [PDict [("query", PStr query); ("purpose", PStr "primary")]]);
      reflexivity.
  - intros r w' Hsearch.
    destruct (search_decomposition _ _ _ _ _ Hsearch) as (d' & w1' & Hd' & Hget').
    rewrite Hd in Hd'. inversion Hd'; subst d' w1'.
    rewrite Hget in Hget'. inversion Hget'. reflexivity.
Qed.

(** *** The store client's error policy *)

Lemma try_rollback_policy {A} (self : PostGISSearcher W) (empty : A) (attempt : M W A) :
  rolls_back_to self empty attempt
    (try_except attempt (fun e => conn_rollback self ;;; ret empty)).
Proof.
  intros w. unfold try_except, bind, ret. repeat split.
  - intros a w1 ->. reflexivity.
  - intros e w1 w2 -> ->. reflexivity.
  - intros e w1 e' w2 -> ->. reflexivity.
Qed.

Lemma try_read_policy (self : PostGISSearcher W) (query : string) :
  caught_to_empty_frame self query
    (try_except (pd_read_sql self query) (fun e => ret DataFrame.new)).
Proof.
  intros w. unfold try_except, ret.
  destruct (pd_read_sql self query w) as [[df|e] w1]; reflexivity.
Qed.

(** C3, amended. Metadata search, column search and statistics catch
    any failure of their [try] block and call rollback on the connection;
    they return the empty list or mapping when the rollback goes through, and
    the only exception that can reach the caller is one raised by the
    rollback call itself.  A failing [execute] is such a failure.  Table
    sample and join catch any failure of the read, return the empty frame and
    never raise; they go through the engine and roll nothing back. *)
Theorem store_operations_error_policy (self : PostGISSearcher W) :
  (forall terms g limit,
      rolls_back_to self [] (search_metadata_try self terms g limit)
        (search_metadata self terms g limit)) /\
  (forall patterns limit,
      rolls_back_to self [] (search_columns_try self patterns limit)
        (search_columns self patterns limit)) /\
  (forall table column group_by,
      rolls_back_to self [] (get_statistics_try self table column group_by)
        (get_statistics self table column group_by)) /\
  (forall table columns limit,
      caught_to_empty_frame self (table_sample_query table columns limit)
        (get_table_sample self table columns limit)) /\
  (forall t1 t2 c1 c2 select limit,
      caught_to_empty_frame self (join_query t1 t2 c1 c2 select limit)
        (join_tables_by_fips self t1 t2 c1 c2 select limit)) /\
  (forall terms g limit c w w0 conditions params e w1,
      conn self = Some c ->
      cursor c w = (Ok tt, w0) ->
      build_conditions terms ([], []) = Ok (conditions, params) ->
      execute c (SelectDatasetMetadata (metadata_where conditions g))
        (metadata_params params g limit) w0 = (Raise e, w1) ->
      search_metadata_try self terms g limit w = (Raise e, w1) /\
      search_metadata self terms g limit w =
      match rollback c w1 with
      | (Ok _, w2) => (Ok [], w2)
      | (Raise e', w2) => (Raise e', w2)
      end).
Proof.
  split; [intros; apply try_rollback_policy|].
  split; [intros; apply try_rollback_policy|].
  split; [intros; apply try_rollback_policy|].
  split; [intros; apply try_read_policy|].
  split; [intros; apply try_read_policy|].
  intros terms g limit c w w0 conditions params e w1 H H0 H1 H2. split.
  - unfold search_metadata_try, with_cursor, bind, lift, metadata_where, metadata_params in *.
    rewrite H, H0, H1. cbn [fst snd].
    destruct (given g); rewrite H2; reflexivity.
  - unfold search_metadata, try_except, conn_rollback, bind, ret.
    unfold search_metadata_try, with_cursor, bind, lift, metadata_where, metadata_params in *.
    rewrite H, H0, H1. cbn [fst snd].
    destruct (given g); rewrite H2; destruct (rollback c w1) as [[[]|e'] w2]; reflexivity.
Qed.

(** *** LIKE on patterns without wildcards is substring search *)

Lemma like_percent rest s :
  Postgres.like (String "%" rest) s =
  Postgres.like rest s ||
  match s with
  | EmptyString => false
  | String _ s' => Postgres.like (String "%" rest) s'
  end.
Proof. destruct s; reflexivity. Qed.

Lemma like_plain c rest s :
  Postgres.wildcard c = false ->
  Postgres.like (String c rest) s =
  match s with
  | EmptyString => false
  | String c' s' => Ascii.eqb c c' && Postgres.like rest s'
  end.
Proof.
  unfold Postgres.wildcard. intros H.
  apply orb_false_elim in H. destruct H as [H H3].
  apply orb_false_elim in H. destruct H as [H1 H2].
  cbn [Postgres.like]. rewrite H1, H2, H3. reflexivity.
Qed.

Lemma like_only_percent s : Postgres.like "%" s = true.
Proof.
  induction s as [|c s IH]; rewrite like_percent.
  - reflexivity.
  - rewrite IH. apply orb_true_r.
Qed.

Lemma like_prefix term :
  Postgres.wildcard_free term = true ->
  forall s, Postgres.like (term ++ "%") s = prefix term s.
Proof.
  induction term as [|c term IH]; intros Hfree s.
  - cbn [append]. rewrite like_only_percent. destruct s; reflexivity.
  - cbn [Postgres.wildcard_free] in Hfree. apply andb_prop in Hfree.
    destruct Hfree as [Hc Hterm]. apply negb_true_iff in Hc.
    cbn [append]. rewrite (like_plain _ _ _ Hc).
    destruct s as [|c' s]; [reflexivity|]. cbn [prefix].
    rewrite (IH Hterm).
    destruct (Ascii.eqb_spec c c') as [->|Hne]; destruct (ascii_dec _ _);
      try reflexivity; congruence.
Qed.

Lemma like_contains term :
  Postgres.wildcard_free term = true ->
  forall s, Postgres.like ("%" ++ term ++ "%") s = PyStr.contains term s.
Proof.
  intros Hfree. induction s as [|c s IH]; cbn [append] in *;
    rewrite like_percent, (like_prefix _ Hfree); cbn [PyStr.contains].
  - reflexivity.
  - rewrite IH. reflexivity.
Qed.

Lemma lower_ascii_not_wildcard c :
  Postgres.wildcard c = false -> Postgres.wildcard (PyStr.lower_ascii c) = false.
Proof.
  destruct c as [[] [] [] [] [] [] [] []]; vm_compute; intros H;
    first [reflexivity | discriminate H].
Qed.

Lemma lower_wildcard_free term :
  Postgres.wildcard_free term = true ->
  Postgres.wildcard_free (PyStr.lower term) = true.
Proof.
  induction term as [|c term IH]; cbn [Postgres.wildcard_free PyStr.lower]; intros H.
  - reflexivity.
  - apply andb_prop in H. destruct H as [Hc Hterm]. apply negb_true_iff in Hc.
    rewrite (lower_ascii_not_wildcard _ Hc), (IH Hterm). reflexivity.
Qed.

Lemma tv_or_true a b :
  Postgres.tv_or a b = Some true -> a = Some true \/ b = Some true.
Proof. destruct a as [[]|], b as [[]|]; cbn; intros H; auto; discriminate. Qed.

Lemma tv_and_true a b :
  Postgres.tv_and a b = Some true -> a = Some true /\ b = Some true.
Proof. destruct a as [[]|], b as [[]|]; cbn; intros H; auto; discriminate. Qed.

Lemma lower_like_matches x term :
  Postgres.wildcard_free term = true ->
  Postgres.lower_like x (term_pattern term) = Some true ->
  match x with Some s => Postgres.icontains term s | None => false end = true.
Proof.
  intros Hfree. apply lower_wildcard_free in Hfree.
  unfold Postgres.lower_like, Postgres.icontains, term_pattern.
  destruct x as [s|]; [|discriminate].
  rewrite (like_contains _ Hfree). intros H. inversion H. reflexivity.
Qed.

Lemma exists_column_like_matches cols term :
  Postgres.wildcard_free term = true ->
  Postgres.exists_column_like cols (term_pattern term) = Some true ->
  match cols with Some cs => existsb (Postgres.icontains term) cs | None => false end
  = true.
Proof.
  intros Hfree. apply lower_wildcard_free in Hfree.
  unfold Postgres.exists_column_like, Postgres.icontains, term_pattern.
  destruct cols as [cs|]; [|discriminate].
  intros H. inversion H as [Hex]. rewrite Hex.
  apply existsb_exists in Hex. destruct Hex as (col & Hin & Hlike).
  apply existsb_exists. exists col. split; [exact Hin|].
  rewrite <- (like_contains _ Hfree). exact Hlike.
Qed.

Lemma eval_term_matches (r : Postgres.catalog_row) term :
  Postgres.wildcard_free term = true ->
  Postgres.eval_term r (term_pattern term, term_pattern term, term_pattern term)
  = Some true ->
  Postgres.term_matches term r = true.
Proof.
  intros Hfree H. unfold Postgres.eval_term in H. unfold Postgres.term_matches.
  apply tv_or_true in H. destruct H as [H | H].
  - apply tv_or_true in H. destruct H as [H | H].
    + rewrite (lower_like_matches _ _ Hfree H). reflexivity.
    + rewrite (lower_like_matches _ _ Hfree H). rewrite orb_true_r. reflexivity.
  - rewrite (exists_column_like_matches _ _ Hfree H). apply orb_true_r.
Qed.

(** *** The catalog search on a connection that serves a catalog *)

Lemma build_conditions_strings terms :
  forall acc,
    build_conditions (map PStr terms) acc =
    Ok ((fst acc ++ map (fun _ => LikeAnyName) terms)%list,
        (snd acc ++ flat_map term_params terms)%list).
Proof.
  induction terms as [|t terms IH]; intros [conditions params]; cbn [map flat_map fst snd].
  - cbn. rewrite !app_nil_r. reflexivity.
  - cbn [build_conditions add_term py_lower fst snd]. rewrite IH. cbn [fst snd].
    rewrite <- !app_assoc. reflexivity.
Qed.

Lemma bind_conditions_terms terms :
  forall unused,
    Postgres.bind_conditions (map (fun _ => LikeAnyName) terms)
      (flat_map term_params terms ++ unused)%list =
    Some (map (fun t => (term_pattern t, term_pattern t, term_pattern t)) terms, unused).
Proof.
  induction terms as [|t terms IH]; intros unused; cbn [map flat_map].
  - reflexivity.
  - cbn [term_params app Postgres.bind_conditions]. rewrite IH. reflexivity.
Qed.

Lemma bind_metadata_where terms g limit :
  terms <> [] ->
  Postgres.bind_where
    (metadata_where (map (fun _ => LikeAnyName) terms) g)
    (metadata_params (flat_map term_params terms) g limit)
  = Some (metadata_bound terms g, [ParamInt limit]).
Proof.
  intros Hsome. destruct terms as [|t terms]; [contradiction|].
  unfold metadata_where, metadata_params, metadata_bound.
  destruct (given g) as [x|]; cbn [Postgres.bind_where map].
  - change (LikeAnyName :: map (fun _ : string => LikeAnyName) terms)
      with (map (fun _ : string => LikeAnyName) (t :: terms)).
    rewrite <- app_assoc, bind_conditions_terms. reflexivity.
  - change (LikeAnyName :: map (fun _ : string => LikeAnyName) terms)
      with (map (fun _ : string => LikeAnyName) (t :: terms)).
    rewrite bind_conditions_terms. reflexivity.
Qed.

Lemma bind_metadata_where_none g limit :
  Postgres.bind_where
    (metadata_where (map (fun _ : string => LikeAnyName) []) g)
    (metadata_params (flat_map term_params []) g limit)
  = None.
Proof. unfold metadata_where, metadata_params. destruct (given g); reflexivity. Qed.

(** What a catalog search that went through has returned. *)
Lemma select_dataset_metadata_ok catalog terms g limit rows :
  Postgres.select_dataset_metadata catalog
    (metadata_where (map (fun _ => LikeAnyName) terms) g)
    (metadata_params (flat_map term_params terms) g limit) = Ok rows ->
  terms <> []
  /\ (0 <= limit <= Postgres.BIGINT_MAX)%Z
  /\ forallb Postgres.bindable (metadata_params (flat_map term_params terms) g limit) = true
  /\ rows = map Postgres.row_dict
              (firstn (Z.to_nat limit)
                 (Postgres.order_by_row_count
                    (filter (Postgres.selected (metadata_bound terms g)) catalog))).
Proof.
  unfold Postgres.select_dataset_metadata.
  destruct (forallb Postgres.bindable _) eqn:Hbind; cbn [negb]; [|discriminate].
  destruct terms as [|t terms].
  { rewrite bind_metadata_where_none. discriminate. }
  rewrite bind_metadata_where by discriminate.
  destruct (limit <? 0)%Z eqn:Hneg; [discriminate|].
  destruct (Postgres.BIGINT_MAX <? limit)%Z eqn:Hbig; [discriminate|].
  apply Z.ltb_ge in Hneg. apply Z.ltb_ge in Hbig.
  intros H. injection H as <-. repeat split; try lia. discriminate.
Qed.

Lemma search_metadata_try_served (self : PostGISSearcher W) c catalog terms g limit
    (w : W) rows w' :
  conn self = Some c ->
  Postgres.serves catalog c ->
  search_metadata_try self (map PStr terms) g limit w = (Ok rows, w') ->
  Postgres.select_dataset_metadata catalog
    (metadata_where (map (fun _ => LikeAnyName) terms) g)
    (metadata_params (flat_map term_params terms) g limit) = Ok rows.
Proof.
  intros Hc Hserves H. unfold search_metadata_try, with_cursor in H. rewrite Hc in H.
  apply bind_ok in H. destruct H as (u & w1 & _ & H).
  apply bind_ok in H. destruct H as (cp & w2 & Hcp & H).
  apply lift_ok in Hcp. destruct Hcp as [Hcp ->].
  rewrite build_conditions_strings in Hcp. injection Hcp as <-. cbn [fst snd app] in H.
  unfold metadata_where, metadata_params.
  destruct (given g); apply bind_ok in H; destruct H as (results & w3 & Hexec & Hret);
    apply ret_ok in Hret; destruct Hret as [-> ->];
    exact (Hserves _ _ _ _ _ Hexec).
Qed.

Lemma search_metadata_outcome (self : PostGISSearcher W) terms g limit (w : W) rows w' :
  search_metadata self terms g limit w = (Ok rows, w') ->
  search_metadata_try self terms g limit w = (Ok rows, w') \/ rows = [].
Proof.
  unfold search_metadata, try_except.
  destruct (search_metadata_try self terms g limit w) as [[found|e] w1]; intros H.
  - left. exact H.
  - right. apply bind_ok in H. destruct H as (u & w2 & _ & Hret).
    apply ret_ok in Hret. destruct Hret as [-> _]. reflexivity.
Qed.

Lemma search_metadata_of_try (self : PostGISSearcher W) terms g limit (w : W) rows w' :
  search_metadata_try self terms g limit w = (Ok rows, w') ->
  search_metadata self terms g limit w = (Ok rows, w').
Proof. unfold search_metadata, try_except. intros ->. reflexivity. Qed.

(** The clause is true of a row when the disjunction of the terms is
    and the row passes the filter. *)
Lemma metadata_bound_selected terms g r :
  Postgres.selected (metadata_bound terms g) r
  = Postgres.selected
      (Postgres.BoundOr
         (map (fun t => (term_pattern t, term_pattern t, term_pattern t)) terms)) r
    && passes_filter g r.
Proof.
  unfold metadata_bound, passes_filter, Postgres.selected.
  destruct (given g) as [x|].
  - change (Postgres.eval_bound (Postgres.BoundAndGeometry ?b x) r)
      with (Postgres.tv_and (Postgres.eval_bound b r)
              (match Postgres.geometry_type r with
               | Some y => Some (String.eqb y x)
               | None => None
               end)).
    destruct (Postgres.eval_bound (Postgres.BoundOr _) r) as [[]|];
      destruct (Postgres.geometry_type r) as [y|]; cbn;
      try destruct (String.eqb y x); reflexivity.
  - rewrite andb_true_r. reflexivity.
Qed.

Lemma metadata_bound_true terms g r :
  Postgres.eval_bound (metadata_bound terms g) r = Some true ->
  Postgres.eval_bound
    (Postgres.BoundOr
       (map (fun t => (term_pattern t, term_pattern t, term_pattern t)) terms)) r
  = Some true
  /\ passes_filter g r = true.
Proof.
  intros H. pose proof (metadata_bound_selected terms g r) as Hsel.
  unfold Postgres.selected in Hsel at 1. rewrite H in Hsel.
  symmetry in Hsel. apply andb_prop in Hsel. destruct Hsel as [Hor Hpass].
  split; [|exact Hpass]. unfold Postgres.selected in Hor.
  destruct (Postgres.eval_bound (Postgres.BoundOr _) r) as [[]|];
    [reflexivity | discriminate | discriminate].
Qed.

Lemma in_insert r x sorted :
  In r (Postgres.insert x sorted) -> r = x \/ In r sorted.
Proof.
  induction sorted as [|y sorted IH]; cbn [Postgres.insert].
  - intros [<- | []]. auto.
  - destruct (Postgres.before x y).
    + intros [<- | H]; auto.
    + intros [<- | H]; [right; left; reflexivity|].
      destruct (IH H); [auto | right; right; assumption].
Qed.

Lemma in_order_by_row_count r rows :
  In r (Postgres.order_by_row_count rows) -> In r rows.
Proof.
  unfold Postgres.order_by_row_count. induction rows as [|x rows IH]; cbn [fold_right].
  - auto.
  - intros H. apply in_insert in H. destruct H as [-> | H]; [left | right]; auto.
Qed.

Lemma selected_rows catalog b n d :
  In d (map Postgres.row_dict
          (firstn n (Postgres.order_by_row_count (filter (Postgres.selected b) catalog)))) ->
  exists r, In r catalog /\ d = Postgres.row_dict r /\ Postgres.eval_bound b r = Some true.
Proof.
  intros H. apply in_map_iff in H. destruct H as (r & <- & Hr).
  apply in_firstn, in_order_by_row_count, filter_In in Hr. destruct Hr as [Hin Hsel].
  exists r. repeat split; auto.
  unfold Postgres.selected in Hsel.
  destruct (Postgres.eval_bound b r) as [[]|]; [reflexivity | discriminate | discriminate].
Qed.

Lemma eval_or_terms r terms :
  Postgres.eval_bound
    (Postgres.BoundOr (map (fun t => (term_pattern t, term_pattern t, term_pattern t)) terms)) r
  = Some true ->
  exists term,
    In term terms /\
    Postgres.eval_term r (term_pattern term, term_pattern term, term_pattern term)
    = Some true.
Proof.
  cbn [Postgres.eval_bound]. induction terms as [|t terms IH]; cbn [map fold_right].
  - discriminate.
  - intros H. apply tv_or_true in H. destruct H as [H | H].
    + exists t. split; [left; reflexivity | exact H].
    + destruct (IH H) as (term & Hin & Hterm). exists term. split; [right|]; assumption.
Qed.

(** C5, amended. [search_metadata] returns only catalog rows, and only
    rows that match one of the terms the way the query asks: the term in
    lower case between percent signs, as a LIKE pattern, against the dataset
    name, the table name and the entries of the column list.  For a term that
    holds no LIKE wildcard (percent sign, underscore, backslash) this is
    that the term occurs there, letter case apart.  Whatever the terms are,
    when a non-empty [geometry_type] is given every row returned has exactly
    that geometry type.  This holds on every connection to a server holding
    the catalog, whether the search goes through or fails. *)
Theorem search_metadata_returns_only_matching_rows
    (self : PostGISSearcher W) c catalog terms geometry_type limit (w : W) rows w' :
  conn self = Some c ->
  Postgres.serves catalog c ->
  search_metadata self (map PStr terms) geometry_type limit w = (Ok rows, w') ->
  forall d,
    In d rows ->
    exists r,
      In r catalog /\
      d = Postgres.row_dict r /\
      (exists term,
          In term terms /\
          pattern_matches term r /\
          (Postgres.wildcard_free term = true -> Postgres.term_matches term r = true)) /\
      (forall g, geometry_type = Some g -> g <> "" -> Postgres.geometry_type r = Some g).
Proof.
  intros Hc Hserves H d Hd.
  destruct (search_metadata_outcome _ _ _ _ _ _ _ H) as [Htry | ->]; [|contradiction].
  pose proof (search_metadata_try_served _ _ _ _ _ _ _ _ _ Hc Hserves Htry) as Hsel.
  apply select_dataset_metadata_ok in Hsel. destruct Hsel as (_ & _ & _ & ->).
  destruct (selected_rows _ _ _ _ Hd) as (r & Hin & -> & Heval).
  apply metadata_bound_true in Heval. destruct Heval as [Hor Hpass].
  destruct (eval_or_terms _ _ Hor) as (term & Hterm & Hmatch).
  exists r. split; [exact Hin|]. split; [reflexivity|]. split.
  - exists term. split; [exact Hterm|]. split; [exact Hmatch|].
    intros Hfree. apply eval_term_matches; assumption.
  - intros g -> Hne. unfold passes_filter, given in Hpass.
    destruct (String.eqb_spec g ""); [contradiction|].
    destruct (Postgres.geometry_type r) as [x|]; [|discriminate].
    apply String.eqb_eq in Hpass. subst x. reflexivity.
Qed.

(* ===================================================================== *)
(** ** Further properties of the decomposer *)
(* ===================================================================== *)

(** *** Splitting at a fence *)

Lemma prefix_refl_app sep rest : prefix sep (sep ++ rest) = true.
Proof.
  induction sep as [|c sep IH]; cbn [append].
  - destruct rest; reflexivity.
  - cbn [prefix]. destruct (ascii_dec c c); [exact IH | congruence].
Qed.

Lemma prefix_other_head c sep b s :
  Ascii.eqb c b = false -> prefix (String c sep) (String b s) = false.
Proof.
  intros H. cbn [prefix]. destruct (ascii_dec c b) as [->|]; [|reflexivity].
  rewrite Ascii.eqb_refl in H. discriminate.
Qed.

Lemma split_go_skip sep skipped :
  forall rest,
    PyStr.split_go sep (String.length skipped) (skipped ++ rest)
    = PyStr.split_go sep 0 rest.
Proof.
  induction skipped as [|c skipped IH]; intros rest; cbn [append String.length].
  - reflexivity.
  - cbn [PyStr.split_go]. apply IH.
Qed.

(** The text before the first fence is the first piece. *)
Lemma split_at_first_fence sep' pre rest :
  backtick_free pre = true ->
  PyStr.split (String "`" sep') (pre ++ String "`" sep' ++ rest)
  = pre :: PyStr.split (String "`" sep') rest.
Proof.
  unfold PyStr.split. induction pre as [|c pre IH]; intros Hfree.
  - cbn [append PyStr.split_go].
    rewrite (prefix_refl_app (String "`" sep') rest : prefix _ (String "`" (sep' ++ rest)) = true).
    cbn [String.length]. rewrite Nat.sub_succ, Nat.sub_0_r, split_go_skip.
    destruct (PyStr.split_go (String "`" sep') 0 rest). reflexivity.
  - cbn [backtick_free] in Hfree. apply andb_prop in Hfree. destruct Hfree as [Hc Hpre].
    apply negb_true_iff in Hc.
    cbn [append PyStr.split_go].
    rewrite prefix_other_head by (rewrite Ascii.eqb_sym; exact Hc).
    specialize (IH Hpre). cbn [append] in IH.
    destruct (PyStr.split_go (String "`" sep') 0 (pre ++ String "`" (sep' ++ rest))) as [p ps].
    injection IH as Hp Hps. subst p ps. reflexivity.
Qed.

(** A text without the separator is one piece. *)
Lemma split_without sep s :
  PyStr.contains sep s = false -> PyStr.split sep s = [s].
Proof.
  unfold PyStr.split. induction s as [|c s IH]; cbn [PyStr.contains PyStr.split_go]; intros H.
  - reflexivity.
  - apply orb_false_elim in H. destruct H as [Hp Hs]. rewrite Hp.
    specialize (IH Hs). destruct (PyStr.split_go sep 0 s) as [p ps].
    injection IH as Hpiece Hrest. subst p ps. reflexivity.
Qed.

Lemma contains_at_fence sep pre rest :
  PyStr.contains sep (pre ++ sep ++ rest) = true.
Proof.
  induction pre as [|c pre IH]; cbn [append].
  - destruct (sep ++ rest) eqn:E; cbn [PyStr.contains]; rewrite <- E, prefix_refl_app;
      reflexivity.
  - cbn [PyStr.contains]. rewrite IH. apply orb_true_r.
Qed.

Lemma backtick_free_no_fence sep' s :
  backtick_free s = true -> PyStr.contains (String "`" sep') s = false.
Proof.
  induction s as [|c s IH]; cbn [backtick_free PyStr.contains]; intros H.
  - reflexivity.
  - apply andb_prop in H. destruct H as [Hc Hs]. apply negb_true_iff in Hc.
    rewrite prefix_other_head by (rewrite Ascii.eqb_sym; exact Hc).
    rewrite (IH Hs). reflexivity.
Qed.

(** The body of a block is what stands before the closing fence, or
    all of the text when the fence is never closed. *)
Lemma body_before_closing_fence body tail :
  backtick_free body = true ->
  closes_fence tail ->
  list_item (PyStr.split "```" (body ++ tail)) 0 = Ok body.
Proof.
  intros Hbody [-> | (post & ->)].
  - replace (body ++ "") with body by (clear; induction body; cbn; congruence).
    rewrite split_without by (apply backtick_free_no_fence; exact Hbody). reflexivity.
  - rewrite (split_at_first_fence "``" body post Hbody). reflexivity.
Qed.

Lemma json_match_json_fence pre body tail :
  backtick_free pre = true ->
  backtick_free body = true ->
  closes_fence tail ->
  PyStr.contains "```json" (body ++ tail) = false ->
  json_match (pre ++ "```json" ++ body ++ tail) = Ok body.
Proof.
  intros Hpre Hbody Htail Hone. unfold json_match.
  rewrite contains_at_fence.
  rewrite (split_at_first_fence "``json" pre (body ++ tail) Hpre).
  rewrite (split_without _ _ Hone). cbn [list_item nth_error].
  apply body_before_closing_fence; assumption.
Qed.



(** X2. A fenced JSON object is decomposed into that object, under these
    conditions.  The model answers [pre], the json fence, [body] and [tail];
    [pre] and [body] hold no backtick; [tail] is empty or begins with the
    closing fence; the json fence does not occur again in [body ++ tail]; the
    stripped [body] parses, the parsed value answers [get], and what it holds
    under [search_queries] has a length.  Then [decompose] returns the
    parsed value, not the fallback, in the world the model left. *)
Theorem decompose_reads_fenced_object
    (self : QueryDecomposer W) query w pre body tail w1 parsed queries n :
  backtick_free pre = true ->
  backtick_free body = true ->
  closes_fence tail ->
  PyStr.contains "```json" (body ++ tail) = false ->
  ainvoke (llm self) (DECOMPOSITION_PROMPT query) w
  = (Ok (pre ++ "```json" ++ body ++ tail), w1) ->
  json_loads (PyStr.strip body) = Ok parsed ->
  py_get parsed "search_queries" (PList []) = Ok queries ->
  py_len queries = Ok n ->
  decompose self query w = (Ok parsed, w1).
Proof.
  intros Hpre Hbody Htail Hone Hcall Hparse Hget Hlen.
  unfold decompose, try_except, bind, lift, ret.
  rewrite Hcall, (json_match_json_fence _ _ _ Hpre Hbody Htail Hone), Hparse, Hget, Hlen.
  reflexivity.
Qed.

(** X3. [decompose] always hands back a dict, and what the dict holds
    under [search_queries] (the empty list when absent) always has a length;
    a response that parses to anything but such a dict (a JSON list, number,
    string or null, or an object whose [search_queries] is a number or null)
    gives the fallback. *)
Theorem decompose_returns_dict_with_sized_queries
    (self : QueryDecomposer W) query w :
  (exists entries w' n,
      decompose self query w = (Ok (PDict entries), w') /\
      py_len (dict_get "search_queries" (PList []) entries) = Ok n) /\
  (forall content w1 text parsed,
      ainvoke (llm self) (DECOMPOSITION_PROMPT query) w = (Ok content, w1) ->
      json_match content = Ok text ->
      json_loads (PyStr.strip text) = Ok parsed ->
      (forall entries n,
          parsed = PDict entries ->
          py_len (dict_get "search_queries" (PList []) entries) <> Ok n) ->
      decompose self query w = (Ok (basic_decomposition query), w1)).
Proof.
  split.
  - destruct (decompose_cases self query w) as (d & w' & Hd & Hcase).
    destruct Hcase as [-> | (content & text & queries & n & _ & _ & _ & Hget & Hlen)].
    + eexists _, w', 1. split; [exact Hd | reflexivity].
    + destruct d; try discriminate Hget. cbn [py_get] in Hget. inversion Hget; subst queries.
      exists entries, w', n. auto.
  - intros content w1 text parsed Hcall Hfence Hparse Hbad.
    unfold decompose, try_except, bind, lift, ret. rewrite Hcall, Hfence, Hparse.
    destruct parsed; cbn [py_get];
      try (match goal with |- context [exn_type ?e] => destruct (exn_type e) end; reflexivity).
    destruct (py_len (dict_get "search_queries" (PList []) entries)) as [n|e] eqn:Hlen.
    + exfalso. exact (Hbad entries n eq_refl Hlen).
    + destruct (exn_type e); reflexivity.
Qed.

(** X4. The decompose node never raises and never records an error: the
    handler that would append "Decomposition error" cannot be entered, since
    [decompose] catches everything itself.  The node only sets
    [decomposed_queries], to what the decomposition holds under
    [search_queries]. *)
Theorem decompose_node_never_fails (self : GeospatialSearchAgent W) state w :
  exists state' w',
    _decompose_node self state w = (Ok state', w') /\
    errors state' = errors state /\
    original_query state' = original_query state /\
    variable_results state' = variable_results state /\
    database_results state' = database_results state /\
    final_results state' = final_results state /\
    exists d,
      decompose (decomposer self) (original_query state) w = (Ok d, w') /\
      py_get d "search_queries" (PList []) = Ok (decomposed_queries state').
Proof.
  destruct (decompose_node_run self state w) as (d & w' & queries & Hd & Hget & Hnode).
  eexists _, w'. split; [exact Hnode|]. cbn. repeat split; try reflexivity.
  exists d. auto.
Qed.

(* ===================================================================== *)
(** ** Further properties of the pipeline *)
(* ===================================================================== *)

Lemma stamp_query query purpose m :
  dict_lookup "search_query" (stamp query purpose m) = Some query.
Proof.
  unfold stamp. rewrite dict_lookup_set_other by discriminate.
  apply dict_lookup_set_same.
Qed.

Lemma stamp_keeps_fields query purpose m k :
  k <> "search_query" -> k <> "search_purpose" ->
  dict_lookup k (stamp query purpose m) = dict_lookup k m.
Proof.
  intros Hq Hp. unfold stamp.
  rewrite !dict_lookup_set_other by congruence. reflexivity.
Qed.

(** X5. After search_variables every match in [variable_results] is a row
    the store returned for one of the sub-queries, stamped with that
    sub-query's text under [search_query] and its purpose under
    [search_purpose]; every other field of the row is as the store gave
    it. *)
Theorem matches_carry_their_subquery
    (self : GeospatialSearchAgent W) state w state' w' :
  _search_variables_node self state w = (Ok state', w') ->
  exists items,
    py_iter (decomposed_queries state) = Ok items /\
    forall var,
      In var (variable_results state') ->
      exists item rows row,
        In item items /\
        In (item, Ok rows) (store_outcomes (postgis self) items w) /\
        In row rows /\
        dict_lookup "search_query" var = Some (subquery_text item) /\
        dict_lookup "search_purpose" var = Some (subquery_purpose item) /\
        forall k,
          k <> "search_query" -> k <> "search_purpose" ->
          dict_lookup k var = dict_lookup k row.
Proof.
  intros H. apply variables_node_ok in H. destruct H as (items & Hiter & _ & ->).
  exists items. split; [exact Hiter|].
  cbn [variable_results set_variable_results]. intros var Hvar.
  apply in_flat_map in Hvar. destruct Hvar as ([item r] & Ho & Hvar).
  unfold stamped_matches in Hvar. cbn [fst snd] in Hvar.
  destruct r as [rows|e]; [|contradiction].
  apply in_map_iff in Hvar. destruct Hvar as (row & <- & Hrow).
  exists item, rows, row. split.
  { rewrite <- (store_outcomes_items (postgis self) items w).
    change item with (fst (item, Ok rows)). apply in_map. exact Ho. }
  split; [exact Ho|]. split; [exact Hrow|].
  split; [apply stamp_query|].
  split; [unfold stamp; apply dict_lookup_set_same|].
  intros k Hq Hp. apply stamp_keeps_fields; assumption.
Qed.

Lemma failure_messages_empty outcomes :
  flat_map failure_messages outcomes = [] -> Forall succeeded outcomes.
Proof.
  induction outcomes as [|o rest IH]; cbn [flat_map]; intros H.
  - constructor.
  - apply app_eq_nil in H. destruct H as [Ho Hrest].
    constructor; [|apply IH; exact Hrest].
    unfold failure_messages in Ho. unfold succeeded.
    destruct (snd o) as [ms|e]; [eauto | discriminate].
Qed.

(** X6. In a completed run the errors list is exactly the failure
    messages of the sub-queries whose store search raised, in sub-query
    order; so it is empty exactly when no search raised, and the result's
    [errors] is that same list. *)
Theorem errors_are_the_failed_subqueries
    (self : GeospatialSearchAgent W) query w final w' :
  graph_ainvoke self (initial_state query) w = (Ok final, w') ->
  exists s1 w1 items r,
    _decompose_node self (initial_state query) w = (Ok s1, w1) /\
    py_iter (decomposed_queries s1) = Ok items /\
    errors final
    = flat_map failure_messages (store_outcomes (postgis self) items w1) /\
    (errors final = [] <-> Forall succeeded (store_outcomes (postgis self) items w1)) /\
    final_results final = Results r /\
    Summary.errors r = errors final /\
    Summary.query r = query.
Proof.
  intros H.
  destruct (graph_run_shape self _ _ _ _ H)
    as (queries & w1 & items & w2 & tables & by_purpose & Hnode & Hiter & _ & _ & _ & ->).
  eexists _, w1, items, _. split; [exact Hnode|].
  cbn [decomposed_queries set_decomposed_queries errors final_results initial_state app
       Summary.errors Summary.query original_query].
  split; [exact Hiter|]. split; [reflexivity|].
  split; [|auto].
  split; [apply failure_messages_empty | apply no_failure_messages].
Qed.

(** *** Grouping by purpose *)

Lemma key_eqb_sym a b : key_eqb a b = key_eqb b a.
Proof.
  destruct a, b; cbn [key_eqb]; try reflexivity.
  - destruct b, b0; reflexivity.
  - apply Z.eqb_sym.
  - apply String.eqb_sym.
Qed.

Lemma key_eqb_refl a : hashable a = true -> key_eqb a a = true.
Proof.
  destruct a; cbn; intros H; try reflexivity; try discriminate.
  - destruct b; reflexivity.
  - apply Z.eqb_refl.
  - apply String.eqb_refl.
Qed.

Lemma group_append_keys purpose var groups :
  map fst (group_append purpose var groups) =
  if existsb (key_eqb purpose) (map fst groups)
  then map fst groups
  else (map fst groups ++ [purpose])%list.
Proof.
  induction groups as [|[k vs] more IH]; cbn [group_append map fst existsb].
  - reflexivity.
  - destruct (key_eqb purpose k); cbn [orb map fst].
    + reflexivity.
    + rewrite IH. destruct (existsb (key_eqb purpose) (map fst more)); reflexivity.
Qed.

Lemma group_append_members purpose var groups :
  Permutation (flat_map snd (group_append purpose var groups))
              (flat_map snd groups ++ [var]).
Proof.
  induction groups as [|[k vs] more IH]; cbn [group_append flat_map snd].
  - reflexivity.
  - destruct (key_eqb purpose k); cbn [flat_map snd].
    + rewrite <- !app_assoc. apply Permutation_app_head. apply Permutation_app_comm.
    + rewrite <- app_assoc. apply Permutation_app_head. exact IH.
Qed.

Lemma group_append_group purpose var groups k vs :
  hashable purpose = true ->
  In (k, vs) (group_append purpose var groups) ->
  In (k, vs) groups \/
  (vs <> [] /\ forall v, In v vs ->
      v = var /\ key_eqb purpose k = true \/
      exists vs0, In (k, vs0) groups /\ In v vs0).
Proof.
  intros Hhash. induction groups as [|[k0 vs0] more IH]; cbn [group_append].
  - intros [Heq | []]. inversion Heq; subst k vs. right. split; [discriminate|].
    intros v [<- | []]. left. split; [reflexivity | apply key_eqb_refl; exact Hhash].
  - destruct (key_eqb purpose k0) eqn:Hk.
    + intros [Heq | Hin]; [|left; right; exact Hin].
      inversion Heq; subst k vs. right. split.
      { destruct vs0; discriminate. }
      intros v Hv. apply in_app_or in Hv. destruct Hv as [Hv | [<- | []]].
      * right. exists vs0. split; [left; reflexivity | exact Hv].
      * left. auto.
    + intros [Heq | Hin]; [left; left; exact Heq|].
      destruct (IH Hin) as [Hold | (Hne & Hnew)]; [left; right; exact Hold|].
      right. split; [exact Hne|]. intros v Hv.
      destruct (Hnew v Hv) as [Hvar | (vs1 & Hg & Hv1)]; [left; exact Hvar|].
      right. exists vs1. split; [right; exact Hg | exact Hv1].
Qed.

Lemma distinct_keys_snoc keys k :
  ForallOrdPairs (fun a b => key_eqb a b = false) keys ->
  existsb (key_eqb k) keys = false ->
  ForallOrdPairs (fun a b => key_eqb a b = false) (keys ++ [k]).
Proof.
  induction 1 as [|a keys Ha Hkeys IH]; cbn [existsb app]; intros Hk.
  - constructor; constructor.
  - apply orb_false_elim in Hk. destruct Hk as [Hka Hrest].
    constructor.
    + apply Forall_app. split; [exact Ha|]. constructor; [|constructor].
      rewrite key_eqb_sym. exact Hka.
    + apply IH. exact Hrest.
Qed.

Lemma group_by_purpose_grouped vars :
  forall acc seen groups,
    grouped acc seen ->
    group_by_purpose vars acc = Ok groups ->
    grouped groups (seen ++ vars).
Proof.
  induction vars as [|var rest IH]; intros acc seen groups Hacc H.
  - cbn in H. inversion H; subst groups. rewrite app_nil_r. exact Hacc.
  - cbn [group_by_purpose] in H. fold (stamped_purpose var) in H.
    destruct (hashable (stamped_purpose var)) eqn:Hhash; [|discriminate].
    replace (seen ++ var :: rest)%list with ((seen ++ [var]) ++ rest)%list
      by (rewrite <- app_assoc; reflexivity).
    eapply IH; [|exact H].
    destruct Hacc as (Hperm & Hkeys & Hgroups). split; [|split].
    + rewrite group_append_members. apply Permutation_app_tail. exact Hperm.
    + rewrite group_append_keys.
      destruct (existsb (key_eqb (stamped_purpose var)) (map fst acc)) eqn:Hex.
      * exact Hkeys.
      * apply distinct_keys_snoc; assumption.
    + intros k vs Hin.
      destruct (group_append_group _ _ _ _ _ Hhash Hin) as [Hold | (Hne & Hnew)].
      * apply Hgroups. exact Hold.
      * split; [exact Hne|]. intros v Hv.
        destruct (Hnew v Hv) as [[-> Hk] | (vs0 & Hg & Hv0)]; [exact Hk|].
        apply (Hgroups k vs0 Hg). exact Hv0.
Qed.

Lemma group_sizes_sum (groups : list (pyval * list pydict)) :
  list_sum (map (fun g => List.length (snd g)) groups)
  = List.length (flat_map snd groups).
Proof.
  induction groups as [|g more IH]; cbn [map flat_map].
  - reflexivity.
  - rewrite length_app, <- IH. reflexivity.
Qed.

(** X7. Grouping by purpose partitions the matches: the groups of
    [results_by_purpose] hold, together, exactly the matches of
    [variable_results] (each once), their sizes sum to [total_matches], no
    group is empty, every match sits in a group whose key equals its stamped
    purpose, and no two groups have equal keys. *)
Theorem purposes_partition_the_matches
    (self : GeospatialSearchAgent W) state w state' w' :
  _aggregate_results_node self state w = (Ok state', w') ->
  exists r,
    final_results state' = Results r /\
    Permutation (flat_map snd (Summary.results_by_purpose r)) (variable_results state) /\
    list_sum (map (fun g => List.length (snd g)) (Summary.results_by_purpose r))
    = Summary.total_matches r /\
    ForallOrdPairs (fun a b => key_eqb a b = false)
                   (map fst (Summary.results_by_purpose r)) /\
    forall k vs,
      In (k, vs) (Summary.results_by_purpose r) ->
      vs <> [] /\ forall v, In v vs -> key_eqb (stamped_purpose v) k = true.
Proof.
  intros H. apply aggregate_node_ok in H. destruct H as (_ & groups & Hg & ->).
  eexists. split; [reflexivity|].
  cbn [Summary.results_by_purpose Summary.total_matches].
  assert (Hempty : grouped [] []).
  { split; [reflexivity|]. split; [constructor|]. intros k vs []. }
  destruct (group_by_purpose_grouped _ _ _ _ Hempty Hg) as (Hperm & Hkeys & Hgroups).
  cbn [app] in Hperm. repeat split; auto.
  - rewrite group_sizes_sum. apply Permutation_length. exact Hperm.
  - apply (Hgroups k vs H).
  - apply (Hgroups k vs H).
Qed.

(** *** The tables offered *)

Lemma nodup_snoc {A} (l : list A) (x : A) :
  NoDup l -> ~ In x l -> NoDup (l ++ [x]).
Proof.
  induction 1 as [|a l Ha Hl IH]; cbn [app]; intros Hx.
  - constructor; [intros [] | constructor].
  - constructor.
    + intros Hin. apply in_app_or in Hin. destruct Hin as [Hin | [-> | []]].
      * contradiction.
      * apply Hx. left. reflexivity.
    + apply IH. intros Hin. apply Hx. right. exact Hin.
Qed.

Lemma nodup_firstn {A} n : forall (l : list A), NoDup l -> NoDup (firstn n l).
Proof.
  induction n as [|n IH]; intros l Hl; [constructor|].
  destruct Hl as [|a l Ha Hl]; cbn [firstn]; constructor.
  - intros Hin. apply Ha. apply in_firstn in Hin. exact Hin.
  - apply IH. exact Hl.
Qed.

Lemma firstn_short {A} n : forall (l : list A),
  List.length (firstn n l) < n -> firstn n l = l.
Proof.
  induction n as [|n IH]; intros l H; [cbn in H; lia|].
  destruct l as [|a l]; [reflexivity|]. cbn [firstn List.length] in *.
  f_equal. apply IH. lia.
Qed.

Lemma collect_tables_set vars :
  forall acc tables,
    table_set acc ->
    collect_tables vars acc = Ok tables ->
    table_set tables.
Proof.
  induction vars as [|var rest IH]; intros acc tables Hacc H.
  - cbn in H. inversion H; subst tables. exact Hacc.
  - cbn [collect_tables] in H. unfold dict_get, dict_item in H.
    destruct (dict_lookup "table_name" var) as [name|]; cbn [py_truthy] in H;
      [|eapply IH; eauto].
    destruct (py_truthy name) eqn:Htruthy; [|eapply IH; eauto].
    unfold set_add in H. destruct (hashable name) eqn:Hhash; [|discriminate].
    eapply IH; [|exact H].
    destruct (existsb (key_eqb name) acc) eqn:Hex; [exact Hacc|].
    destruct Hacc as [Hnodup Hmembers]. split.
    + apply nodup_snoc; [exact Hnodup|]. intros Hin.
      assert (Htrue : existsb (key_eqb name) acc = true).
      { apply existsb_exists. exists name. split; [exact Hin|].
        apply key_eqb_refl. exact Hhash. }
      congruence.
    + intros t Hin. apply in_app_or in Hin. destruct Hin as [Hin | [<- | []]]; auto.
Qed.

Lemma collect_tables_grows vars :
  forall acc tables t,
    collect_tables vars acc = Ok tables ->
    existsb (key_eqb t) acc = true ->
    existsb (key_eqb t) tables = true.
Proof.
  induction vars as [|var rest IH]; intros acc tables t H Hacc.
  - cbn in H. inversion H; subst tables. exact Hacc.
  - cbn [collect_tables] in H. unfold dict_get, dict_item in H.
    destruct (dict_lookup "table_name" var) as [name|]; cbn [py_truthy] in H;
      [|eapply IH; eauto].
    destruct (py_truthy name); [|eapply IH; eauto].
    unfold set_add in H. destruct (hashable name); [|discriminate].
    eapply IH; [exact H|].
    destruct (existsb (key_eqb name) acc); [exact Hacc|].
    rewrite existsb_app, Hacc. reflexivity.
Qed.

(** Every truthy table name of a match has an equal member in the set. *)
Lemma collect_tables_covers vars :
  forall acc tables var t,
    collect_tables vars acc = Ok tables ->
    In var vars ->
    dict_lookup "table_name" var = Some t ->
    py_truthy t = true ->
    existsb (key_eqb t) tables = true.
Proof.
  induction vars as [|v rest IH]; intros acc tables var t H Hin Hname Htruthy.
  - contradiction.
  - cbn [collect_tables] in H. destruct Hin as [-> | Hin].
    + unfold dict_get, dict_item in H. rewrite Hname, Htruthy in H.
      unfold set_add in H. destruct (hashable t) eqn:Hhash; [|discriminate].
      eapply collect_tables_grows; [exact H|].
      destruct (existsb (key_eqb t) acc) eqn:Hex; [exact Hex|].
      rewrite existsb_app. cbn [existsb].
      rewrite (key_eqb_refl _ Hhash). rewrite orb_true_r. reflexivity.
    + unfold dict_get, dict_item in H.
      destruct (dict_lookup "table_name" v) as [name|]; cbn [py_truthy] in H;
        [|eapply IH; eauto].
      destruct (py_truthy name); [|eapply IH; eauto].
      unfold set_add in H. destruct (hashable name); [|discriminate].
      eapply IH; eauto.
Qed.

(** X8. In a completed run [available_tables] lists the table names of
    [database_results]; no table is listed twice, every listed name is a
    truthy, hashable value, and unless five tables are listed, every truthy
    table name found among the matches is listed (up to Python equality). *)
Theorem available_tables_are_the_distinct_table_names
    (self : GeospatialSearchAgent W) state w final w' :
  graph_ainvoke self state w = (Ok final, w') ->
  exists r,
    final_results final = Results r /\
    Summary.available_tables r = map TableEntry.table_name (database_results final) /\
    NoDup (Summary.available_tables r) /\
    (forall t, In t (Summary.available_tables r) ->
               py_truthy t = true /\ hashable t = true) /\
    (List.length (Summary.available_tables r) < 5 ->
     forall var t,
       In var (variable_results final) ->
       dict_lookup "table_name" var = Some t ->
       py_truthy t = true ->
       exists listed, In listed (Summary.available_tables r) /\ key_eqb t listed = true).
Proof.
  intros H.
  destruct (graph_run_shape self _ _ _ _ H)
    as (queries & w1 & items & w2 & tables & by_purpose & _ & _ & _ & Hc & _ & ->).
  eexists. split; [reflexivity|].
  cbn [Summary.available_tables database_results variable_results].
  split; [reflexivity|].
  assert (Hnames :
            map TableEntry.table_name
              (map entry_of
                 (sampling_outcomes (postgis self) (firstn 5 (iter_order tables)) w2))
            = firstn 5 (iter_order tables)).
  { rewrite map_map, (map_ext _ fst entry_of_table_name).
    apply sampling_outcomes_tables. }
  rewrite Hnames.
  assert (Hset : table_set tables).
  { eapply collect_tables_set; [|exact Hc]. split; [constructor | intros t []]. }
  destruct Hset as [Hnodup Hmembers].
  pose proof (iter_order_perm tables) as Hperm.
  split; [|split].
  - apply nodup_firstn. eapply Permutation_NoDup; [|exact Hnodup].
    symmetry. exact Hperm.
  - intros t Hin. apply Hmembers. eapply Permutation_in; [exact Hperm|].
    apply in_firstn in Hin. exact Hin.
  - intros Hshort var t Hvar Hname Htruthy.
    rewrite (firstn_short _ _ Hshort).
    pose proof (collect_tables_covers _ _ _ _ _ Hc Hvar Hname Htruthy) as Hex.
    apply existsb_exists in Hex. destruct Hex as (listed & Hin & Heq).
    exists listed. split; [|exact Heq].
    eapply Permutation_in; [symmetry; exact Hperm | exact Hin].
Qed.

(* ===================================================================== *)
(** ** Further properties of the catalog search *)
(* ===================================================================== *)

Lemma before_total a b : Postgres.before a b = false -> Postgres.before b a = true.
Proof.
  unfold Postgres.before.
  destruct (Postgres.row_count a), (Postgres.row_count b); try discriminate; try reflexivity.
  intros H. apply Z.leb_gt in H. apply Z.leb_le. lia.
Qed.

Lemma before_trans a b c :
  Postgres.before a b = true -> Postgres.before b c = true -> Postgres.before a c = true.
Proof.
  unfold Postgres.before.
  destruct (Postgres.row_count a), (Postgres.row_count b), (Postgres.row_count c);
    try discriminate; try reflexivity.
  intros H1 H2. apply Z.leb_le in H1, H2. apply Z.leb_le. lia.
Qed.

Lemma insert_in r x sorted :
  r = x \/ In r sorted -> In r (Postgres.insert x sorted).
Proof.
  induction sorted as [|y sorted IH]; cbn [Postgres.insert].
  - intros [-> | []]. left. reflexivity.
  - destruct (Postgres.before x y).
    + intros [-> | H]; [left; reflexivity | right; exact H].
    + intros [-> | [-> | H]].
      * right. apply IH. left. reflexivity.
      * left. reflexivity.
      * right. apply IH. right. exact H.
Qed.

Lemma insert_sorted x sorted :
  StronglySorted (fun a b => Postgres.before a b = true) sorted ->
  StronglySorted (fun a b => Postgres.before a b = true) (Postgres.insert x sorted).
Proof.
  induction 1 as [|y sorted Hsorted IH Hy]; cbn [Postgres.insert].
  - constructor; constructor.
  - destruct (Postgres.before x y) eqn:Hxy.
    + constructor; [constructor; assumption|].
      constructor; [exact Hxy|].
      rewrite Forall_forall in *. intros z Hz. eapply before_trans; eauto.
    + constructor; [exact IH|].
      rewrite Forall_forall in *. intros z Hz. apply in_insert in Hz.
      destruct Hz as [-> | Hz]; [apply before_total; exact Hxy | apply Hy; exact Hz].
Qed.

Lemma order_by_row_count_sorted rows :
  StronglySorted (fun a b => Postgres.before a b = true) (Postgres.order_by_row_count rows).
Proof.
  unfold Postgres.order_by_row_count. induction rows as [|r rows IH]; cbn [fold_right].
  - constructor.
  - apply insert_sorted. exact IH.
Qed.

Lemma order_by_row_count_in r rows :
  In r rows -> In r (Postgres.order_by_row_count rows).
Proof.
  unfold Postgres.order_by_row_count. induction rows as [|x rows IH]; cbn [fold_right].
  - auto.
  - intros [-> | H]; apply insert_in; [left; reflexivity | right; apply IH; exact H].
Qed.

Lemma insert_length x sorted :
  List.length (Postgres.insert x sorted) = S (List.length sorted).
Proof.
  induction sorted as [|y sorted IH]; cbn [Postgres.insert]; [reflexivity|].
  destruct (Postgres.before x y); cbn [List.length]; [reflexivity|].
  rewrite IH. reflexivity.
Qed.

Lemma order_by_row_count_length rows :
  List.length (Postgres.order_by_row_count rows) = List.length rows.
Proof.
  unfold Postgres.order_by_row_count. induction rows as [|x rows IH]; cbn [fold_right].
  - reflexivity.
  - rewrite insert_length, IH. reflexivity.
Qed.

Lemma firstn_sorted {A} (R : A -> A -> Prop) n :
  forall l, StronglySorted R l -> StronglySorted R (firstn n l).
Proof.
  induction n as [|n IH]; intros l Hl; [constructor|].
  destruct Hl as [|a l Hl Ha]; cbn [firstn]; constructor.
  - apply IH. exact Hl.
  - rewrite Forall_forall in *. intros z Hz. apply Ha. apply in_firstn in Hz. exact Hz.
Qed.

Lemma lower_ascii_nul c :
  Ascii.eqb (PyStr.lower_ascii c) Ascii.zero = Ascii.eqb c Ascii.zero.
Proof. destruct c as [[] [] [] [] [] [] [] []]; vm_compute; reflexivity. Qed.

Lemma nul_free_lower s : Postgres.nul_free (PyStr.lower s) = Postgres.nul_free s.
Proof.
  induction s as [|c s IH]; cbn [PyStr.lower Postgres.nul_free]; [reflexivity|].
  rewrite lower_ascii_nul, IH. reflexivity.
Qed.

Lemma nul_free_app a b :
  Postgres.nul_free (a ++ b) = Postgres.nul_free a && Postgres.nul_free b.
Proof.
  induction a as [|c a IH]; cbn [append Postgres.nul_free]; [reflexivity|].
  rewrite IH, andb_assoc. reflexivity.
Qed.

Lemma nul_free_term_pattern term :
  Postgres.nul_free (term_pattern term) = Postgres.nul_free term.
Proof.
  unfold term_pattern. rewrite !nul_free_app, nul_free_lower.
  cbn. rewrite andb_true_r. reflexivity.
Qed.

Lemma bindable_term_params terms :
  forallb Postgres.bindable (flat_map term_params terms)
  = forallb Postgres.nul_free terms.
Proof.
  induction terms as [|t terms IH]; cbn [flat_map forallb]; [reflexivity|].
  rewrite forallb_app, IH. cbn [term_params forallb Postgres.bindable].
  rewrite nul_free_term_pattern. destruct (Postgres.nul_free t); reflexivity.
Qed.

(** The parameters can all be bound when no term and no filter holds NUL. *)
Lemma bindable_metadata_params terms g limit :
  forallb Postgres.bindable (metadata_params (flat_map term_params terms) g limit)
  = forallb Postgres.nul_free terms
    && match given g with Some x => Postgres.nul_free x | None => true end.
Proof.
  unfold metadata_params. rewrite forallb_app. cbn [forallb Postgres.bindable].
  rewrite andb_true_r.
  destruct (given g) as [x|].
  - rewrite forallb_app, bindable_term_params. cbn [forallb Postgres.bindable].
    rewrite andb_true_r. reflexivity.
  - rewrite bindable_term_params, andb_true_r. reflexivity.
Qed.

(** X9. What [search_metadata] returns on a connection to a server
    holding the catalog, whenever it returns: rows of the catalog, in
    descending order of row count with NULL counts last, at most [limit] of
    them; and the empty list for every search the driver or the server
    refuses outright: no term at all, a limit that is negative or above the
    largest bigint, a NUL character in a term or in the filter. *)
Theorem search_metadata_is_ordered_and_limited
    (self : PostGISSearcher W) c catalog terms geometry_type limit (w : W) rows w' :
  conn self = Some c ->
  Postgres.serves catalog c ->
  search_metadata self (map PStr terms) geometry_type limit w = (Ok rows, w') ->
  (exists rs,
      rows = map Postgres.row_dict rs /\
      (forall r, In r rs -> In r catalog) /\
      StronglySorted (fun a b => Postgres.before a b = true) rs /\
      (Z.of_nat (List.length rs) <= Z.max 0 limit)%Z) /\
  (refused terms geometry_type limit -> rows = []).
Proof.
  intros Hc Hserves H.
  destruct (search_metadata_outcome _ _ _ _ _ _ _ H) as [Htry | ->].
  2:{ split; [|reflexivity]. exists []. split; [reflexivity|]. split; [intros r []|].
      split; [constructor | cbn; lia]. }
  pose proof (search_metadata_try_served _ _ _ _ _ _ _ _ _ Hc Hserves Htry) as Hsel.
  apply select_dataset_metadata_ok in Hsel.
  destruct Hsel as (Hsome & Hlimit & Hbind & ->). split.
  - eexists. split; [reflexivity|]. split; [|split].
    + intros r Hr. apply in_firstn, in_order_by_row_count, filter_In in Hr. apply Hr.
    + apply firstn_sorted, order_by_row_count_sorted.
    + rewrite length_firstn. lia.
  - rewrite bindable_metadata_params in Hbind. apply andb_prop in Hbind.
    destruct Hbind as [Hterms Hfilter].
    intros [Hnone | [Hneg | [Hbig | [Hnul | (g & Hg & Hnul)]]]].
    + contradiction.
    + lia.
    + lia.
    + rewrite Hnul in Hterms. discriminate.
    + rewrite Hg, Hnul in Hfilter. discriminate.
Qed.

Lemma tv_or_left b : Postgres.tv_or (Some true) b = Some true.
Proof. destruct b as [[]|]; reflexivity. Qed.

Lemma tv_or_right a : Postgres.tv_or a (Some true) = Some true.
Proof. destruct a as [[]|]; reflexivity. Qed.

Lemma tv_or_first x y : Postgres.tv_or (Postgres.tv_or (Some true) x) y = Some true.
Proof. destruct x as [[]|], y as [[]|]; reflexivity. Qed.

Lemma tv_or_second x y : Postgres.tv_or (Postgres.tv_or x (Some true)) y = Some true.
Proof. destruct x as [[]|], y as [[]|]; reflexivity. Qed.

Lemma term_matches_eval (r : Postgres.catalog_row) term :
  Postgres.wildcard_free term = true ->
  Postgres.term_matches term r = true ->
  Postgres.eval_term r (term_pattern term, term_pattern term, term_pattern term)
  = Some true.
Proof.
  intros Hfree H. apply lower_wildcard_free in Hfree.
  unfold Postgres.term_matches in H. unfold Postgres.eval_term, Postgres.lower_like,
    Postgres.exists_column_like, term_pattern.
  apply orb_prop in H. destruct H as [H | H]; [apply orb_prop in H; destruct H as [H | H]|].
  - destruct (Postgres.dataset_name r) as [s|]; [|discriminate].
    unfold Postgres.icontains in H. rewrite (like_contains _ Hfree), H.
    apply tv_or_first.
  - destruct (Postgres.table_name r) as [s|]; [|discriminate].
    unfold Postgres.icontains in H. rewrite (like_contains _ Hfree _), H.
    apply tv_or_second.
  - destruct (Postgres.column_list r) as [cs|]; [|discriminate].
    apply existsb_exists in H. destruct H as (col & Hin & Hcol).
    unfold Postgres.icontains in Hcol.
    assert (Hex : existsb
                    (fun col0 => Postgres.like ("%" ++ PyStr.lower term ++ "%")
                                   (PyStr.lower col0)) cs = true).
    { apply existsb_exists. exists col. split; [exact Hin|].
      rewrite (like_contains _ Hfree). exact Hcol. }
    rewrite Hex. apply tv_or_right.
Qed.

Lemma eval_or_some_term r terms term :
  In term terms ->
  Postgres.eval_term r (term_pattern term, term_pattern term, term_pattern term)
  = Some true ->
  Postgres.eval_bound
    (Postgres.BoundOr (map (fun t => (term_pattern t, term_pattern t, term_pattern t)) terms)) r
  = Some true.
Proof.
  cbn [Postgres.eval_bound]. induction terms as [|t terms IH]; cbn [map fold_right].
  - contradiction.
  - intros [-> | Hin] Heval.
    + rewrite Heval. apply tv_or_left.
    + rewrite (IH Hin Heval). apply tv_or_right.
Qed.

(** X10. A search that goes through misses nothing: on a connection to
    a server holding the catalog, when the [try] block of [search_metadata]
    raises nothing and the limit is at least the size of the catalog, every
    catalog row in which a term without LIKE wildcards occurs, letter case
    apart, and which passes the geometry filter, is among the rows
    [search_metadata] returns. *)
Theorem search_metadata_returns_every_matching_row
    (self : PostGISSearcher W) c catalog terms geometry_type limit (w : W) rows w' term r :
  conn self = Some c ->
  Postgres.serves catalog c ->
  search_metadata_try self (map PStr terms) geometry_type limit w = (Ok rows, w') ->
  In term terms ->
  Postgres.wildcard_free term = true ->
  In r catalog ->
  Postgres.term_matches term r = true ->
  passes_filter geometry_type r = true ->
  (Z.of_nat (List.length catalog) <= limit)%Z ->
  search_metadata self (map PStr terms) geometry_type limit w = (Ok rows, w') /\
  In (Postgres.row_dict r) rows.
Proof.
  intros Hc Hserves Htry Hterm Hfree Hr Hmatch Hpass Hlimit.
  split; [apply search_metadata_of_try; exact Htry|].
  pose proof (search_metadata_try_served _ _ _ _ _ _ _ _ _ Hc Hserves Htry) as Hsel.
  apply select_dataset_metadata_ok in Hsel. destruct Hsel as (_ & _ & _ & ->).
  pose proof (eval_or_some_term r terms term Hterm
                (term_matches_eval r term Hfree Hmatch)) as Hor.
  apply in_map. rewrite firstn_all2.
  - apply order_by_row_count_in, filter_In. split; [exact Hr|].
    rewrite metadata_bound_selected, Hpass. unfold Postgres.selected.
    rewrite Hor. reflexivity.
  - rewrite order_by_row_count_length.
    pose proof (filter_length_le (Postgres.selected (metadata_bound terms geometry_type))
                  catalog).
    lia.
Qed.

(** *** The search tool *)

Lemma given_idempotent g : given (given g) = given g.
Proof.
  unfold given. destruct g as [s|]; [|reflexivity].
  destruct (String.eqb s "") eqn:E; [reflexivity|]. rewrite E. reflexivity.
Qed.

Lemma like_everything s : Postgres.like "%%" s = true.
Proof.
  induction s as [|c s IH]; rewrite like_percent, like_only_percent; reflexivity.
Qed.

Lemma eval_term_of_named r :
  has_a_name r = true ->
  Postgres.eval_term r (term_pattern "", term_pattern "", term_pattern "") = Some true.
Proof.
  unfold has_a_name, Postgres.eval_term, Postgres.lower_like, Postgres.exists_column_like.
  change (term_pattern "") with "%%".
  destruct (Postgres.dataset_name r) as [d|].
  { intros _. rewrite like_everything. apply tv_or_first. }
  destruct (Postgres.table_name r) as [t|].
  { intros _. rewrite like_everything. apply tv_or_second. }
  destruct (Postgres.column_list r) as [[|c cs]|]; try discriminate.
  intros _. cbn [existsb]. rewrite like_everything. reflexivity.
Qed.

Lemma eval_terms_of_unnamed r patterns :
  has_a_name r = false ->
  Postgres.eval_bound (Postgres.BoundOr patterns) r <> Some true.
Proof.
  unfold has_a_name. intros H. cbn [Postgres.eval_bound].
  assert (Hterm : forall t, Postgres.eval_term r t = None).
  { intros [[p1 p2] p3].
    unfold Postgres.eval_term, Postgres.lower_like, Postgres.exists_column_like.
    destruct (Postgres.dataset_name r); [discriminate|].
    destruct (Postgres.table_name r); [discriminate|].
    destruct (Postgres.column_list r) as [[|c cs]|]; try discriminate; reflexivity. }
  induction patterns as [|t patterns IH]; cbn [fold_right].
  - discriminate.
  - rewrite Hterm.
    destruct (fold_right (fun t0 acc => Postgres.tv_or (Postgres.eval_term r t0) acc)
                (Some false) patterns) as [[]|]; [contradiction| |]; discriminate.
Qed.

(** X11. An empty term makes the search tool return the whole catalog:
    when the comma-separated text holds an empty term (the text is empty or
    blank, or has a leading, trailing or doubled comma) and the search goes
    through (the [try] block of [search_metadata] raises nothing, on a
    connection to a server holding the catalog), the tool returns the first
    20, in the order of the query, of all the catalog rows that have a dataset
    name, a table name or a column and pass the filter, whatever the other
    terms are. *)
Theorem empty_term_returns_every_named_row
    (self : PostGISSearcher W) c catalog text geometry_type (w : W) rows w' :
  conn self = Some c ->
  Postgres.serves catalog c ->
  In "" (comma_separated text) ->
  search_metadata_try self (map PStr (comma_separated text)) (given geometry_type) 20 w
  = (Ok rows, w') ->
  tool_search_metadata self text geometry_type w
  = (Ok (json_dumps
           (PList
              (map PDict
                 (map Postgres.row_dict
                    (firstn 20
                       (Postgres.order_by_row_count
                          (filter (fun r => has_a_name r && passes_filter geometry_type r)
                                  catalog))))))),
     w').
Proof.
  intros Hc Hserves Hempty Htry.
  unfold tool_search_metadata.
  rewrite (bind_run _ _ _ _ _ (search_metadata_of_try _ _ _ _ _ _ _ Htry)).
  pose proof (search_metadata_try_served _ _ _ _ _ _ _ _ _ Hc Hserves Htry) as Hsel.
  apply select_dataset_metadata_ok in Hsel. destruct Hsel as (_ & _ & _ & ->).
  change (Z.to_nat 20) with 20%nat.
  rewrite (filter_ext
             (Postgres.selected (metadata_bound (comma_separated text) (given geometry_type)))
             (fun r => has_a_name r && passes_filter geometry_type r)); [reflexivity|].
  intros r. rewrite metadata_bound_selected.
  unfold passes_filter. rewrite given_idempotent. f_equal.
  unfold Postgres.selected. destruct (has_a_name r) eqn:Hname.
  - rewrite (eval_or_some_term r _ "" Hempty (eval_term_of_named r Hname)). reflexivity.
  - pose proof (eval_terms_of_unnamed r
                  (map (fun t => (term_pattern t, term_pattern t, term_pattern t))
                       (comma_separated text)) Hname) as Hnot.
    destruct (Postgres.eval_bound _ r) as [[]|]; [contradiction | reflexivity | reflexivity].
Qed.

(** *** The column search *)

Lemma column_match_entry pattern row m :
  column_match pattern row = Ok m -> column_entry pattern m.
Proof.
  unfold column_match.
  destruct (dict_item "table_name" row); [|discriminate].
  destruct (dict_item "dataset_name" row); [|discriminate].
  destruct (dict_item "geometry_type" row); [|discriminate].
  destruct (dict_item "matching_columns" row); [|discriminate].
  intros H. injection H as <-. split; reflexivity.
Qed.

Lemma column_rows_run pattern rows :
  forall acc (w : W) out w',
    for_each rows
      (fun results row =>
         m <- lift (column_match pattern row) ;; ret (results ++ [m])%list)
      acc w = (Ok out, w') ->
    exists run, out = (acc ++ run)%list /\ Forall (column_entry pattern) run.
Proof.
  induction rows as [|row rows IH]; intros acc w out w' H; cbn [for_each] in H.
  - apply ret_ok in H. destruct H as [-> _]. exists []. rewrite app_nil_r. auto.
  - apply bind_ok in H. destruct H as (acc' & w1 & Hrow & Hrest).
    apply bind_ok in Hrow. destruct Hrow as (m & w2 & Hm & Hret).
    apply lift_ok in Hm. destruct Hm as [Hm _].
    apply ret_ok in Hret. destruct Hret as [-> _].
    destruct (IH _ _ _ _ Hrest) as (run & -> & Hrun).
    exists (m :: run). rewrite <- app_assoc. split; [reflexivity|].
    constructor; [exact (column_match_entry _ _ _ Hm) | exact Hrun].
Qed.

Lemma runs_by_pattern_none patterns : runs_by_pattern patterns [].
Proof.
  induction patterns as [|p ps IH]; cbn [runs_by_pattern]; [reflexivity|].
  exists [], []. auto.
Qed.

Lemma column_patterns_run (c : Connection W) limit patterns :
  forall acc (w : W) out w',
    for_each patterns
      (fun results pattern =>
         low <- lift (py_lower pattern) ;;
         rows <- execute c SelectMatchingColumns
                   [ParamText ("%" ++ low ++ "%"); ParamInt limit] ;;
         for_each rows
           (fun results row =>
              m <- lift (column_match pattern row) ;; ret (results ++ [m])%list)
           results)
      acc w = (Ok out, w') ->
    exists new,
      out = (acc ++ new)%list
      /\ runs_by_pattern patterns new
      /\ Forall (fun p => exists text, p = PStr text) patterns.
Proof.
  induction patterns as [|p ps IH]; intros acc w out w' H; cbn [for_each] in H.
  - apply ret_ok in H. destruct H as [-> _]. exists []. rewrite app_nil_r.
    repeat split. constructor.
  - apply bind_ok in H. destruct H as (acc' & w1 & Hp & Hrest).
    apply bind_ok in Hp. destruct Hp as (low & w2 & Hlow & Hp).
    apply lift_ok in Hlow. destruct Hlow as [Hlow ->].
    apply bind_ok in Hp. destruct Hp as (rows & w3 & _ & Hrows).
    destruct (column_rows_run _ _ _ _ _ _ Hrows) as (run & -> & Hrun).
    destruct (IH _ _ _ _ Hrest) as (new & -> & Hnew & Htexts).
    exists (run ++ new)%list. rewrite app_assoc. split; [reflexivity|]. split.
    + cbn [runs_by_pattern]. exists run, new. auto.
    + constructor; [|exact Htexts].
      destruct p; try discriminate. eexists. reflexivity.
Qed.

(** X12. What a column search returns: whenever [search_columns]
    returns, its result is one run of entries for each pattern, the runs in
    the order of the patterns; each entry has exactly the five keys
    table_name, dataset_name, geometry_type, matching_columns and
    search_pattern, and is stamped with the pattern it was found for.  The
    result is all or nothing: a non-empty result means that every pattern
    given was a string, so one pattern that is not empties the whole answer. *)
Theorem search_columns_returns_runs_by_pattern
    (self : PostGISSearcher W) column_patterns limit (w : W) results w' :
  search_columns self column_patterns limit w = (Ok results, w') ->
  runs_by_pattern column_patterns results
  /\ (results <> [] -> Forall (fun p => exists text, p = PStr text) column_patterns).
Proof.
  unfold search_columns, try_except. intros H.
  destruct (search_columns_try self column_patterns limit w) as [[found|e] w1] eqn:Htry.
  - injection H as <- <-. unfold search_columns_try, with_cursor in Htry.
    destruct (conn self) as [c|]; [|discriminate].
    apply bind_ok in Htry. destruct Htry as (u & w2 & _ & Hloop).
    destruct (column_patterns_run _ _ _ _ _ _ _ Hloop) as (new & -> & Hruns & Htexts).
    cbn [app]. auto.
  - apply bind_ok in H. destruct H as (u & w2 & _ & Hret).
    apply ret_ok in Hret. destruct Hret as [-> _].
    split; [apply runs_by_pattern_none | intros Hnot; contradiction].
Qed.

End Pipeline.

(* ===================================================================== *)
(** ** The factor script *)
(* ===================================================================== *)

(** C10, amended. For every response in which the factor regex finds
    at least one and at most MAX_FACTORS (8) matches,
    [parse_final_response] returns the full list of matches. *)
Theorem parse_final_response_returns_all_up_to_max (final_response : string) :
  1 <= List.length (Ollama.findall final_response) <= Ollama.MAX_FACTORS ->
  Ollama.parse_final_response final_response
  = ([], Ok (Some (Ollama.findall final_response))).
Proof.
  intros [Hlow Hhigh]. unfold Ollama.parse_final_response.
  destruct (Ollama.findall final_response) as [|m ms] eqn:Hm.
  - cbn in Hlow. lia.
  - apply Nat.ltb_ge in Hhigh. rewrite Hhigh. reflexivity.
Qed.

(* ===================================================================== *)
(** ** Further properties of the factor parser *)
(* ===================================================================== *)

Lemma string_app_assoc (a b c : string) : (a ++ b) ++ c = a ++ b ++ c.
Proof. induction a as [|x a IH]; cbn [append]; [reflexivity | rewrite IH; reflexivity]. Qed.

Lemma drop_prefix_app p :
  forall s rest, Ollama.drop_prefix p s = Some rest -> s = p ++ rest.
Proof.
  induction p as [|a p IH]; intros [|b s] rest H; cbn [Ollama.drop_prefix] in H.
  - injection H as <-. reflexivity.
  - injection H as <-. reflexivity.
  - discriminate.
  - destruct (Ascii.eqb a b) eqn:E; [|discriminate].
    apply Ascii.eqb_eq in E. subst b. cbn [append]. f_equal. apply IH. exact H.
Qed.

Lemma span_app keep :
  forall s a b, Ollama.span keep s = (a, b) -> s = a ++ b.
Proof.
  induction s as [|c s IH]; intros a b H; cbn [Ollama.span] in H.
  - injection H as <- <-. reflexivity.
  - destruct (keep c).
    + destruct (Ollama.span keep s) as [a' b'] eqn:E. injection H as <- <-.
      cbn [append]. f_equal. apply IH. reflexivity.
    + injection H as <- <-. reflexivity.
Qed.

(** A match is anchored where it was looked for, and opens with the
    marker. *)
Lemma match_here_prefix s m :
  Ollama.match_here s = Some m ->
  prefix ">>> **" m = true /\ exists rest, s = m ++ rest.
Proof.
  unfold Ollama.match_here.
  destruct (Ollama.drop_prefix ">>> **" s) as [s1|] eqn:H1; [|discriminate].
  destruct (Ollama.span _ s1) as [name s2] eqn:H2.
  destruct name as [|c name]; [discriminate|].
  destruct (Ollama.drop_prefix "**: " s2) as [s3|] eqn:H3; [|discriminate].
  destruct (Ollama.span _ s3) as [tail rest] eqn:H4.
  intros H. injection H as <-. split.
  - apply (prefix_refl_app ">>> **").
  - exists rest.
    apply drop_prefix_app in H1. apply drop_prefix_app in H3.
    apply span_app in H2. apply span_app in H4. subst s s1 s2 s3.
    change (">>> **" ++ String c name ++ "**: " ++ tail ++ rest
            = (">>> **" ++ (String c name ++ "**: " ++ tail)) ++ rest).
    rewrite (string_app_assoc ">>> **"), (string_app_assoc (String c name)),
      (string_app_assoc "**: "). reflexivity.
Qed.

Lemma laid_out_later ms c s : laid_out ms s -> laid_out ms (String c s).
Proof.
  destruct ms as [|m ms]; cbn [laid_out]; [trivial|].
  intros (pre & rest & -> & H). exists (String c pre), rest. split; [reflexivity | exact H].
Qed.

Lemma string_skip_app a : forall b, string_skip (String.length a) (a ++ b) = b.
Proof.
  induction a as [|c a IH]; intros b; cbn [String.length append string_skip].
  - destruct b; reflexivity.
  - apply IH.
Qed.

Lemma findall_go_laid_out :
  forall s skip, laid_out (Ollama.findall_go skip s) (string_skip skip s).
Proof.
  induction s as [|c s IH]; intros skip; cbn [Ollama.findall_go].
  - exact I.
  - destruct skip as [|k]; [|cbn [string_skip]; apply IH].
    cbn [string_skip].
    destruct (Ollama.match_here (String c s)) as [m|] eqn:E.
    + destruct (match_here_prefix _ _ E) as [Hmark [rest Hs]].
      cbn [laid_out]. exists "", rest. split; [exact Hs|].
      destruct m as [|b m]; [discriminate Hmark|].
      cbn [append] in Hs. injection Hs as _ ->.
      cbn [String.length]. rewrite Nat.sub_succ, Nat.sub_0_r.
      specialize (IH (String.length m)). rewrite string_skip_app in IH. exact IH.
    + apply laid_out_later. specialize (IH 0%nat).
      destruct s; exact IH.
Qed.

Lemma findall_go_marked :
  forall s skip m, In m (Ollama.findall_go skip s) -> prefix ">>> **" m = true.
Proof.
  induction s as [|c s IH]; intros skip m H; cbn [Ollama.findall_go] in H.
  - contradiction.
  - destruct skip as [|k]; [|exact (IH _ _ H)].
    destruct (Ollama.match_here (String c s)) as [m'|] eqn:E.
    + destruct H as [<- | H]; [|exact (IH _ _ H)].
      apply (match_here_prefix _ _ E).
    + exact (IH _ _ H).
Qed.

(** X13. The factors that come back are pieces of the response: when
    [parse_final_response] returns a list, nothing is printed, the list
    has between one and MAX_FACTORS entries, every entry opens with the
    marker of a factor, and the entries lie in the response one after the
    other, in the order returned and without overlap. *)
Theorem returned_factors_lie_in_the_response (final_response : string) prints factors :
  Ollama.parse_final_response final_response = (prints, Ok (Some factors)) ->
  prints = []
  /\ (1 <= List.length factors <= Ollama.MAX_FACTORS)%nat
  /\ Forall (fun m => prefix ">>> **" m = true) factors
  /\ laid_out factors final_response.
Proof.
  unfold Ollama.parse_final_response. intros H.
  pose proof (findall_go_laid_out final_response 0) as Hlaid.
  pose proof (findall_go_marked final_response 0) as Hmark.
  replace (string_skip 0 final_response) with final_response in Hlaid
    by (destruct final_response; reflexivity).
  fold (Ollama.findall final_response) in Hlaid, Hmark.
  destruct (Ollama.findall final_response) as [|m ms] eqn:Hm; [discriminate|].
  destruct (Ollama.MAX_FACTORS <? List.length (m :: ms))%nat eqn:Hlen.
  - destruct (list_item (m :: ms) Ollama.MAX_FACTORS); discriminate.
  - injection H as <- <-. apply Nat.ltb_ge in Hlen.
    split; [reflexivity|]. split; [cbn [List.length] in *; lia|].
    split; [apply Forall_forall; exact Hmark | exact Hlaid].
Qed.

(** X14. [parse_final_response] never raises: the index expression of
    the long branch is guarded by the length test, so it cannot fail; the
    function returns None exactly when the regex finds no match or more
    than MAX_FACTORS matches, and prints only when it finds none. *)
Theorem parse_final_response_never_raises (final_response : string) :
  exists prints returned,
    Ollama.parse_final_response final_response = (prints, Ok returned)
    /\ (returned = None <->
        Ollama.findall final_response = []
        \/ (Ollama.MAX_FACTORS < List.length (Ollama.findall final_response))%nat)
    /\ (prints <> [] <-> Ollama.findall final_response = []).
Proof.
  unfold Ollama.parse_final_response.
  destruct (Ollama.findall final_response) as [|m ms] eqn:Hm.
  - eexists _, _. split; [reflexivity|]. split; split; intros; try discriminate; auto.
  - destruct (Ollama.MAX_FACTORS <? List.length (m :: ms))%nat eqn:Hlen.
    + apply Nat.ltb_lt in Hlen. unfold list_item.
      destruct (nth_error (m :: ms) Ollama.MAX_FACTORS) as [x|] eqn:Hx.
      * eexists _, _. split; [reflexivity|]. split; split; intros H; try discriminate; auto.
        contradiction.
      * apply nth_error_None in Hx. lia.
    + apply Nat.ltb_ge in Hlen.
      eexists _, _. split; [reflexivity|]. split; split; intros H; try discriminate.
      * destruct H as [H | H]; [discriminate | lia].
      * contradiction.
Qed.

(** *** Saving the selected factors *)

Lemma split_at_char c pre rest :
  char_free c pre = true ->
  PyStr.split (String c "") (pre ++ String c rest)
  = pre :: PyStr.split (String c "") rest.
Proof.
  unfold PyStr.split. induction pre as [|b pre IH]; intros Hfree.
  - cbn [append PyStr.split_go].
    rewrite (prefix_refl_app (String c "") rest : prefix _ (String c rest) = true).
    cbn [String.length Nat.sub].
    destruct (PyStr.split_go (String c "") 0 rest). reflexivity.
  - cbn [char_free] in Hfree. apply andb_prop in Hfree. destruct Hfree as [Hb Hpre].
    apply negb_true_iff in Hb.
    cbn [append PyStr.split_go]. rewrite (prefix_other_head _ _ _ _ Hb).
    specialize (IH Hpre).
    destruct (PyStr.split_go (String c "") 0 (pre ++ String c rest)) as [q qs].
    injection IH as Hq Hqs. subst q qs. reflexivity.
Qed.

Lemma char_free_not_contained c s :
  char_free c s = true -> PyStr.contains (String c "") s = false.
Proof.
  induction s as [|b s IH]; cbn [char_free PyStr.contains]; intros H.
  - reflexivity.
  - apply andb_prop in H. destruct H as [Hb Hs]. apply negb_true_iff in Hb.
    rewrite (prefix_other_head _ _ _ _ Hb), (IH Hs). reflexivity.
Qed.

Lemma split_join_lines f fs :
  Forall (fun x => char_free Ollama.newline x = true) (f :: fs) ->
  PyStr.split Ollama.line_feed (PyStr.join Ollama.line_feed (f :: fs)) = f :: fs.
Proof.
  revert f. induction fs as [|g fs IH]; intros f H.
  - cbn [PyStr.join]. apply split_without. apply char_free_not_contained.
    inversion H. assumption.
  - inversion H as [|? ? Hf Hrest]; subst.
    change (PyStr.join Ollama.line_feed (f :: g :: fs))
      with (f ++ String Ollama.newline (PyStr.join Ollama.line_feed (g :: fs))).
    unfold Ollama.line_feed at 1. rewrite (split_at_char _ _ _ Hf).
    f_equal. apply IH. exact Hrest.
Qed.

(** X15. Saved factors can be read back: for a non-empty selection none
    of whose factors holds a line feed, [save_selected_factors] writes to
    the file the very text it returns, and splitting that text at the line
    feeds gives the selection back, factor by factor. *)
Theorem saved_factors_split_back (selected_factors : list string) :
  selected_factors <> [] ->
  Forall (fun f => char_free Ollama.newline f = true) selected_factors ->
  exists considered_factors,
    Ollama.save_selected_factors selected_factors
    = (Some considered_factors, Some considered_factors)
    /\ PyStr.split Ollama.line_feed considered_factors = selected_factors.
Proof.
  intros Hsome Hlines. destruct selected_factors as [|f fs]; [contradiction|].
  eexists. split; [reflexivity|]. apply split_join_lines. exact Hlines.
Qed.

(* ===================================================================== *)
(** ** The properties at work on the small deployment *)
(* ===================================================================== *)

Local Abbreviation run_graph self state :=
  (graph_ainvoke Scenario.world Scenario.container_repr Scenario.json_loads self state
     Scenario.start).
Local Abbreviation run_search self query :=
  (search Scenario.world Scenario.container_repr Scenario.json_loads self query
     Scenario.start).

Lemma row_dict_typed (r : Postgres.catalog_row) :
  table_name_hashable (Postgres.row_dict r) = true.
Proof. unfold table_name_hashable. cbn. destruct (Postgres.table_name r); reflexivity. Qed.

Lemma select_dataset_metadata_typed catalog where_ params rows :
  Postgres.select_dataset_metadata catalog where_ params = Ok rows ->
  Forall (fun row => table_name_hashable row = true) rows.
Proof.
  unfold Postgres.select_dataset_metadata.
  destruct (negb (forallb Postgres.bindable params)); [discriminate|].
  destruct (Postgres.bind_where where_ params) as [[b [|[t|limit] [|p ps]]]|];
    try discriminate.
  destruct (limit <? 0)%Z; [discriminate|].
  destruct (Postgres.BIGINT_MAX <? limit)%Z; [discriminate|].
  intros H. inversion H. apply Forall_forall. intros d Hd.
  apply in_map_iff in Hd. destruct Hd as (r & <- & _). apply row_dict_typed.
Qed.

Lemma healthy_serves : Postgres.serves Scenario.catalog Scenario.healthy.
Proof.
  intros where_ params w rows w' H. cbn [Scenario.healthy execute] in H.
  destruct (Scenario.alive w); [|discriminate].
  inversion H. reflexivity.
Qed.

Lemma scenario_catalog_typed (c : Connection Scenario.world) :
  c = Scenario.healthy \/ (exists pattern, c = Scenario.dropping pattern) ->
  catalog_rows_typed Scenario.world (Scenario.searcher c).
Proof.
  intros Hc c' w where_ params rows w' Hconn Hexec.
  cbn in Hconn. inversion Hconn; subst c'. clear Hconn.
  assert (Hhealthy : forall w0 w1,
             execute Scenario.healthy (SelectDatasetMetadata where_) params w0 = (Ok rows, w1) ->
             Forall (fun row => table_name_hashable row = true) rows).
  { intros w0 w1 H. cbn [Scenario.healthy execute] in H.
    destruct (Scenario.alive w0); [|discriminate].
    inversion H as [[Hrows Hw]].
    eapply select_dataset_metadata_typed. exact Hrows. }
  destruct Hc as [-> | (pattern & ->)].
  - eapply Hhealthy. exact Hexec.
  - cbn [Scenario.dropping execute] in Hexec.
    destruct params as [|[p|n] params'].
    + eapply Hhealthy. exact Hexec.
    + destruct (Scenario.alive w && String.eqb p pattern); [discriminate|].
      eapply Hhealthy. exact Hexec.
    + eapply Hhealthy. exact Hexec.
Qed.

(** C1, as stated, fails: the model answers with a JSON object whose
    [search_queries] is empty; the run completes and its result carries no
    sub-query at all. *)
Lemma empty_decomposition_reaches_the_result :
  run_search (Scenario.agent Scenario.healthy (Scenario.answering Scenario.no_queries_text))
    "poverty rate"
  = (Ok (Results (Summary.mk "poverty rate" (PList []) [] [] 0 [])), Scenario.start).
Proof. vm_compute. reflexivity. Qed.

(** A sub-query that is not a dict makes the run raise. *)
Example number_subquery_raises :
  run_search (Scenario.agent Scenario.healthy (Scenario.answering Scenario.number_item_text))
    "poverty rate"
  = (Raise (Exn AttributeError "object has no attribute 'get'"), Scenario.start).
Proof. vm_compute. reflexivity. Qed.

(** C1 at work: the model cannot be reached; the run completes on the
    one fallback sub-query. *)
Lemma fallback_run_completes :
  catalog_rows_typed Scenario.world (Scenario.searcher Scenario.healthy) /\
  exists r w',
    run_search (Scenario.agent Scenario.healthy Scenario.unreachable) "poverty"
    = (Ok (Results r), w') /\
    Summary.decomposition r
    = PList [PDict [("query", PStr "poverty"); ("purpose", PStr "primary")]].
Proof.
  split; [apply scenario_catalog_typed; left; reflexivity|].
  destruct (search_decomposition_is_fallback_or_response
              Scenario.world Scenario.container_repr Scenario.json_loads
              (Scenario.agent Scenario.healthy Scenario.unreachable) "poverty"
              Scenario.start
              (scenario_catalog_typed _ (or_introl eq_refl)))
    as (d & w1 & queries & Hd & _ & Hfallback & _).
  apply Hfallback. vm_compute in Hd. inversion Hd. reflexivity.
Defined.

(** C2 at work: the model answers in prose. *)
Lemma prose_response_falls_back :
  decompose Scenario.world Scenario.json_loads
    {| llm := Scenario.answering "I cannot help with that." |} "poverty" Scenario.start
  = (Ok (basic_decomposition "poverty"), Scenario.start).
Proof.
  destruct (decompose_falls_back_and_never_raises
              Scenario.world Scenario.json_loads
              {| llm := Scenario.answering "I cannot help with that." |} "poverty"
              Scenario.start)
    as (_ & Hparse & _).
  eapply Hparse; reflexivity.
Defined.

(** C3, as stated, fails, in three ways.  On a searcher that was never
    connected the failure of the search is caught, the rollback in the
    handler raises in turn, and that exception reaches the caller.  When the
    server drops the connection during the search, rollback raises on the
    dead connection, and again the caller sees an exception.  And a failed
    table sample returns the empty frame with nothing rolled back. *)
Lemma store_failures_can_escape_or_skip_rollback :
  search_metadata Scenario.world Scenario.unconnected [PStr "school"] (Some "POLYGON") 20
    Scenario.start
  = (Raise (Exn AttributeError "'NoneType' object has no attribute 'rollback'"),
     Scenario.start) /\
  search_metadata Scenario.world (Scenario.searcher (Scenario.dropping "%population%"))
    [PStr "population"] None 10 Scenario.start
  = (Raise Scenario.closed, {| Scenario.alive := false; Scenario.rollbacks := 0 |}) /\
  get_table_sample Scenario.world Scenario.container_repr
    (Scenario.searcher Scenario.healthy) (PStr "B") None 3 Scenario.start
  = (Ok DataFrame.new, {| Scenario.alive := true; Scenario.rollbacks := 0 |}).
Proof. repeat split; vm_compute; reflexivity. Qed.

(** C3 at work: a search without terms is a syntax error for the server;
    the failure is caught, the connection rolled back once, and the empty list
    returned. *)
Lemma failed_search_rolls_back_to_empty :
  search_metadata Scenario.world (Scenario.searcher Scenario.healthy) [] None 10
    Scenario.start
  = (Ok [], {| Scenario.alive := true; Scenario.rollbacks := 1 |}).
Proof.
  destruct (store_operations_error_policy Scenario.world Scenario.container_repr
              (Scenario.searcher Scenario.healthy))
    as (Hsearch & _).
  destruct (Hsearch [] None 10%Z Scenario.start) as (_ & Hfailed & _).
  eapply Hfailed; vm_compute; reflexivity.
Defined.

(** C4 at work: two matches for "poverty", one for "population". *)
Lemma poverty_run_counts_three :
  exists final w' r,
    run_graph Scenario.poverty_agent (initial_state "poverty rate") = (Ok final, w') /\
    final_results final = Results r /\
    Summary.total_matches r = List.length (variable_results final) /\
    Summary.total_matches r = 3.
Proof.
  eassert (H : run_graph Scenario.poverty_agent (initial_state "poverty rate") = (Ok _, _))
    by (vm_compute; reflexivity).
  destruct (total_matches_is_sum_over_subqueries _ _ _ _ _ _ _ _ H)
    as (r & s1 & w1 & items & Hr & _ & _ & _ & _ & _ & _ & Hlen & _).
  eexists _, _, r. split; [exact H|]. split; [exact Hr|]. split; [exact Hlen|].
  rewrite Hlen. reflexivity.
Defined.

(** C5, as stated, fails: the term p_p is no substring of any name, yet
    the underscore matches the o of "population"; and a filter given as the
    empty string filters nothing, rows of either geometry type come back. *)
Lemma underscore_matches_any_character :
  search_metadata Scenario.world (Scenario.searcher Scenario.healthy)
    [PStr "p_p"] None 20 Scenario.start
  = (Ok [Postgres.row_dict Scenario.county_demographics], Scenario.start) /\
  Postgres.term_matches "p_p" Scenario.county_demographics = false /\
  search_metadata Scenario.world (Scenario.searcher Scenario.healthy)
    [PStr "fips"] (Some "") 20 Scenario.start
  = (Ok [Postgres.row_dict Scenario.county_demographics;
         Postgres.row_dict Scenario.poverty_estimates], Scenario.start).
Proof. repeat split; vm_compute; reflexivity. Qed.

(** C5 at work: a search for "Poverty" among polygons. *)
Lemma poverty_polygons_match :
  search_metadata Scenario.world (Scenario.searcher Scenario.healthy)
    [PStr "Poverty"] (Some "POLYGON") 20 Scenario.start
  = (Ok [Postgres.row_dict Scenario.poverty_estimates], Scenario.start) /\
  exists r,
    In r Scenario.catalog /\
    Postgres.row_dict Scenario.poverty_estimates = Postgres.row_dict r /\
    (exists term,
        In term ["Poverty"] /\
        pattern_matches term r /\
        (Postgres.wildcard_free term = true -> Postgres.term_matches term r = true)) /\
    (forall g, Some "POLYGON" = Some g -> g <> "" -> Postgres.geometry_type r = Some g).
Proof.
  assert (H : search_metadata Scenario.world (Scenario.searcher Scenario.healthy)
                (map PStr ["Poverty"]) (Some "POLYGON") 20 Scenario.start
              = (Ok [Postgres.row_dict Scenario.poverty_estimates], Scenario.start))
    by (vm_compute; reflexivity).
  split; [exact H|].
  refine (search_metadata_returns_only_matching_rows Scenario.world
            (Scenario.searcher Scenario.healthy) Scenario.healthy Scenario.catalog
            ["Poverty"] (Some "POLYGON") 20 Scenario.start _ _
            eq_refl healthy_serves H _ _).
  left. reflexivity.
Defined.

(** C6 at work. *)
Lemma poverty_run_samples_its_tables :
  exists final w',
    run_graph Scenario.poverty_agent (initial_state "poverty rate") = (Ok final, w') /\
    List.length (database_results final) <= 5 /\
    forall entry,
      In entry (database_results final) ->
      exists var,
        In var (variable_results final) /\
        dict_lookup "table_name" var = Some (TableEntry.table_name entry).
Proof.
  eassert (H : run_graph Scenario.poverty_agent (initial_state "poverty rate") = (Ok _, _))
    by (vm_compute; reflexivity).
  eexists _, _. split; [exact H|].
  exact (database_results_at_most_five_from_matches _ _ _ _ _ _ _ _ H).
Defined.

(** C7 at work: the server drops the connection during the second
    sub-query; its failure is the one message of the result and the two
    matches of the first sub-query are kept. *)
Lemma dropped_subquery_is_the_only_error :
  exists final w',
    run_graph Scenario.dropping_agent (initial_state "poverty rate") = (Ok final, w') /\
    errors final = ["Variable search error for 'population': connection already closed"] /\
    List.length (variable_results final) = 2.
Proof.
  eassert (H : run_graph Scenario.dropping_agent (initial_state "poverty rate") = (Ok _, _))
    by (vm_compute; reflexivity).
  eassert (Hnode : _decompose_node Scenario.world Scenario.json_loads
                     Scenario.dropping_agent (initial_state "poverty rate") Scenario.start
                   = (Ok _, _))
    by (vm_compute; reflexivity).
  assert (Hiter : py_iter Scenario.poverty_queries = Ok Scenario.poverty_items)
    by reflexivity.
  eassert (Hout : store_outcomes Scenario.world (postgis Scenario.dropping_agent)
                    Scenario.poverty_items Scenario.start
                  = ([(_, Ok _)] ++ (_, Raise _) :: [])%list)
    by (vm_compute; reflexivity).
  edestruct (one_failed_subquery_is_reported_once
               Scenario.world Scenario.container_repr Scenario.json_loads
               Scenario.dropping_agent
               "poverty rate" Scenario.start _ _ _ _ _ _ _ _ _
               H Hnode Hiter Hout)
    as (Herrors & _ & Hresults & _).
  { constructor; [eexists; reflexivity | constructor]. }
  { constructor. }
  eexists _, _. split; [exact H|]. split.
  - rewrite Herrors. reflexivity.
  - rewrite Hresults. reflexivity.
Defined.

(** C8, as stated, fails: table B cannot be read, yet the node records
    no error and B has its entry, empty. *)
Lemma unreadable_table_is_listed_without_error :
  fst (pd_read_sql Scenario.world (Scenario.searcher Scenario.healthy)
         (sample_query Scenario.container_repr (PStr "B")) Scenario.start)
  = Raise (Exn ExternalError "relation does not exist") /\
  exists final w',
    _search_database_node Scenario.world Scenario.container_repr
      (Scenario.agent Scenario.healthy Scenario.unreachable) Scenario.matched_state
      Scenario.start
    = (Ok final, w') /\
    errors final = [] /\
    In (TableEntry.mk (PStr "B") [] []) (database_results final).
Proof.
  split; [reflexivity|].
  eexists _, _. split; [vm_compute; reflexivity|].
  split; [reflexivity|]. right. left. reflexivity.
Qed.

(** C8 at work, on the same state. *)
Lemma unreadable_table_gets_empty_entry :
  exists final w',
    _search_database_node Scenario.world Scenario.container_repr
      (Scenario.agent Scenario.healthy Scenario.unreachable) Scenario.matched_state
      Scenario.start
    = (Ok final, w') /\
    errors final = errors Scenario.matched_state /\
    map TableEntry.table_name (database_results final) = [PStr "A"; PStr "B"].
Proof.
  eassert (H : _search_database_node Scenario.world Scenario.container_repr
                 (Scenario.agent Scenario.healthy Scenario.unreachable)
                 Scenario.matched_state Scenario.start = (Ok _, _))
    by (vm_compute; reflexivity).
  destruct (failed_sampling_yields_empty_entry_and_no_error _ _ _ _ _ _ _ H)
    as (Herrors & tables & Hc & Hnames & _).
  eexists _, _. split; [exact H|]. split; [exact Herrors|].
  rewrite Hnames. vm_compute in Hc. inversion Hc. reflexivity.
Defined.

(** C9 at work: the search_variables node, with the connection dropping
    during the second sub-query. *)
Lemma variables_node_appends_one_error :
  exists state' w',
    _search_variables_node Scenario.world Scenario.container_repr
      (Scenario.agent (Scenario.dropping "%population%") Scenario.unreachable)
      Scenario.matched_state Scenario.start = (Ok state', w') /\
    original_query state' = "poverty rate" /\
    exists appended, errors state' = (errors Scenario.matched_state ++ appended)%list.
Proof.
  eassert (H : _search_variables_node Scenario.world Scenario.container_repr
                 (Scenario.agent (Scenario.dropping "%population%") Scenario.unreachable)
                 Scenario.matched_state Scenario.start = (Ok _, _))
    by (vm_compute; reflexivity).
  destruct (nodes_keep_query_and_append_errors
              Scenario.world Scenario.container_repr Scenario.json_loads
              (Scenario.agent (Scenario.dropping "%population%") Scenario.unreachable))
    as (_ & Hvariables & _).
  eexists _, _. split; [exact H|]. exact (Hvariables _ _ _ _ H).
Defined.

(** C10, as stated, fails: with nine matches the function evaluates
    [matches[MAX_FACTORS]], drops it and returns [None], not the matches. *)
Lemma nine_factors_give_none :
  List.length (Ollama.findall Scenario.nine_factors) = 9 /\
  Ollama.parse_final_response Scenario.nine_factors = ([], Ok None).
Proof. split; vm_compute; reflexivity. Qed.

(** C10 at work: three factors come back whole. *)
Lemma three_factors_come_back :
  1 <= List.length (Ollama.findall Scenario.three_factors) <= Ollama.MAX_FACTORS /\
  Ollama.parse_final_response Scenario.three_factors
  = ([], Ok (Some [">>> **Income**: proven to matter";
                   ">>> **Education**: proven to matter";
                   ">>> **Air quality**: proven to matter"])).
Proof.
  assert (Hlen : 1 <= List.length (Ollama.findall Scenario.three_factors)
                 <= Ollama.MAX_FACTORS) by (vm_compute; lia).
  split; [exact Hlen|].
  exact (parse_final_response_returns_all_up_to_max Scenario.three_factors Hlen).
Defined.


(** X2 at work: the fenced poverty plan is the decomposition. *)
Lemma fenced_poverty_plan_is_read :
  decompose Scenario.world Scenario.json_loads Scenario.fenced_decomposer
    "poverty rate" Scenario.start
  = (Ok (PDict [("search_queries", Scenario.poverty_queries)]), Scenario.start).
Proof.
  refine (decompose_reads_fenced_object
            Scenario.world Scenario.json_loads Scenario.fenced_decomposer
            "poverty rate" Scenario.start
            "Here is the plan:" Scenario.fenced_body ("```" ++ " Let me know.")
            Scenario.start _ Scenario.poverty_queries 2 _ _ _ _ _ _ _ _).
  - vm_compute; reflexivity.
  - vm_compute; reflexivity.
  - right. exists " Let me know.". reflexivity.
  - vm_compute; reflexivity.
  - vm_compute; reflexivity.
  - vm_compute; reflexivity.
  - vm_compute; reflexivity.
  - vm_compute; reflexivity.
Defined.

(** X5 at work: each match of the poverty run names its sub-query. *)
Lemma poverty_matches_name_their_subquery :
  exists state' w',
    _search_variables_node Scenario.world Scenario.container_repr
      Scenario.poverty_agent Scenario.matched_state Scenario.start = (Ok state', w') /\
    List.length (variable_results state') = 3 /\
    forall var,
      In var (variable_results state') ->
      exists item,
        In item Scenario.poverty_items /\
        dict_lookup "search_query" var = Some (subquery_text item).
Proof.
  eassert (H : _search_variables_node Scenario.world Scenario.container_repr
                 Scenario.poverty_agent Scenario.matched_state Scenario.start = (Ok _, _))
    by (vm_compute; reflexivity).
  destruct (matches_carry_their_subquery _ _ _ _ _ _ _ H) as (items & Hitems & Hall).
  eexists _, _. split; [exact H|]. split; [reflexivity|].
  intros var Hin. destruct (Hall var Hin) as (item & rows & row & Hitem & _ & _ & Hq & _).
  exists item. split; [|exact Hq].
  injection Hitems as <-. exact Hitem.
Defined.

(** X6 at work: the summary of the poverty run repeats the query and
    the errors of the run. *)
Lemma poverty_run_reports_its_errors :
  exists final w' r,
    run_graph Scenario.poverty_agent (initial_state "poverty rate") = (Ok final, w') /\
    final_results final = Results r /\
    Summary.errors r = errors final /\
    Summary.query r = "poverty rate".
Proof.
  eassert (H : run_graph Scenario.poverty_agent (initial_state "poverty rate") = (Ok _, _))
    by (vm_compute; reflexivity).
  destruct (errors_are_the_failed_subqueries _ _ _ _ _ _ _ _ H)
    as (s1 & w1 & items & r & _ & _ & _ & _ & Hr & Herrors & Hquery).
  eexists _, _, r. split; [exact H|]. split; [exact Hr|]. split; [exact Herrors | exact Hquery].
Defined.

(** X7 at work: the two matches fall into two groups. *)
Lemma matched_state_groups_add_up :
  exists state' w' r,
    _aggregate_results_node Scenario.world Scenario.poverty_agent
      Scenario.matched_state Scenario.start = (Ok state', w') /\
    final_results state' = Results r /\
    list_sum (map (fun g => List.length (snd g)) (Summary.results_by_purpose r))
    = Summary.total_matches r.
Proof.
  eassert (H : _aggregate_results_node Scenario.world Scenario.poverty_agent
                 Scenario.matched_state Scenario.start = (Ok _, _))
    by (vm_compute; reflexivity).
  destruct (purposes_partition_the_matches _ _ _ _ _ _ H) as (r & Hr & _ & Hsum & _).
  eexists _, _, r. split; [exact H|]. split; [exact Hr | exact Hsum].
Defined.

(** X8 at work: the poverty run lists its tables once each. *)
Lemma poverty_run_lists_distinct_tables :
  exists final w' r,
    run_graph Scenario.poverty_agent (initial_state "poverty rate") = (Ok final, w') /\
    final_results final = Results r /\
    Summary.available_tables r = map TableEntry.table_name (database_results final) /\
    NoDup (Summary.available_tables r).
Proof.
  eassert (H : run_graph Scenario.poverty_agent (initial_state "poverty rate") = (Ok _, _))
    by (vm_compute; reflexivity).
  destruct (available_tables_are_the_distinct_table_names _ _ _ _ _ _ _ _ H)
    as (r & Hr & Hnames & Hdistinct & _).
  eexists _, _, r. split; [exact H|]. split; [exact Hr|]. split; [exact Hnames | exact Hdistinct].
Defined.

(** X9 at work: with limit 1 only the larger dataset comes back. *)
Lemma fips_search_is_ordered_and_limited :
  search_metadata Scenario.world (Scenario.searcher Scenario.healthy)
    [PStr "fips"] None 1 Scenario.start
  = (Ok [Postgres.row_dict Scenario.county_demographics], Scenario.start) /\
  exists rs,
    [Postgres.row_dict Scenario.county_demographics] = map Postgres.row_dict rs /\
    (forall r, In r rs -> In r Scenario.catalog) /\
    StronglySorted (fun a b => Postgres.before a b = true) rs /\
    (Z.of_nat (List.length rs) <= Z.max 0 1)%Z.
Proof.
  assert (H : search_metadata Scenario.world (Scenario.searcher Scenario.healthy)
                (map PStr ["fips"]) None 1 Scenario.start
              = (Ok [Postgres.row_dict Scenario.county_demographics], Scenario.start))
    by (vm_compute; reflexivity).
  split; [exact H|].
  exact (proj1 (search_metadata_is_ordered_and_limited Scenario.world
                  (Scenario.searcher Scenario.healthy) Scenario.healthy Scenario.catalog
                  ["fips"] None 1 Scenario.start _ _ eq_refl healthy_serves H)).
Defined.

(** X10 at work: the poverty estimates are among the rows for poverty. *)
Lemma poverty_estimates_are_found :
  exists rows,
    search_metadata Scenario.world (Scenario.searcher Scenario.healthy)
      [PStr "poverty"] None 20 Scenario.start = (Ok rows, Scenario.start) /\
    In (Postgres.row_dict Scenario.poverty_estimates) rows.
Proof.
  eassert (H : search_metadata_try Scenario.world (Scenario.searcher Scenario.healthy)
                 (map PStr ["poverty"]) None 20 Scenario.start = (Ok _, Scenario.start))
    by (vm_compute; reflexivity).
  eexists.
  refine (search_metadata_returns_every_matching_row Scenario.world
            (Scenario.searcher Scenario.healthy) Scenario.healthy Scenario.catalog
            ["poverty"] None 20 Scenario.start _ _ "poverty" Scenario.poverty_estimates
            eq_refl healthy_serves H _ _ _ _ _ _).
  - left; reflexivity.
  - vm_compute; reflexivity.
  - left; reflexivity.
  - vm_compute; reflexivity.
  - vm_compute; reflexivity.
  - cbn; lia.
Defined.

(** X11 at work: a trailing comma brings back the whole catalog. *)
Lemma trailing_comma_lists_the_catalog :
  tool_search_metadata Scenario.world Scenario.container_repr
    (Scenario.searcher Scenario.healthy) "poverty," None Scenario.start
  = (Ok (Scenario.container_repr
           (PList (map PDict (map Postgres.row_dict
                                  [Scenario.county_demographics;
                                   Scenario.poverty_estimates])))),
     Scenario.start).
Proof.
  assert (Hempty : In "" (comma_separated "poverty,")) by (right; left; reflexivity).
  eassert (H : search_metadata_try Scenario.world (Scenario.searcher Scenario.healthy)
                 (map PStr (comma_separated "poverty,")) (given None) 20 Scenario.start
               = (Ok _, Scenario.start))
    by (vm_compute; reflexivity).
  exact (empty_term_returns_every_named_row
           Scenario.world Scenario.container_repr
           (Scenario.searcher Scenario.healthy) Scenario.healthy Scenario.catalog
           "poverty," None Scenario.start _ _ eq_refl healthy_serves Hempty H).
Defined.

(** X12 at work: one entry for FIPS, none for zip. *)
Lemma fips_entry_is_stamped :
  exists results w',
    search_columns Scenario.world (Scenario.searcher Scenario.column_server)
      [PStr "FIPS"; PStr "zip"] 50 Scenario.start = (Ok results, w') /\
    List.length results = 1 /\
    runs_by_pattern [PStr "FIPS"; PStr "zip"] results.
Proof.
  eassert (H : search_columns Scenario.world (Scenario.searcher Scenario.column_server)
                 [PStr "FIPS"; PStr "zip"] 50 Scenario.start = (Ok _, _))
    by (vm_compute; reflexivity).
  destruct (search_columns_returns_runs_by_pattern _ _ _ _ _ _ _ H) as [Hruns _].
  eexists _, _. split; [exact H|]. split; [reflexivity | exact Hruns].
Defined.

(** X13 at work: the three factors lie in the response in order. *)
Lemma three_factors_lie_in_the_response :
  exists factors,
    Ollama.parse_final_response Scenario.three_factors = ([], Ok (Some factors)) /\
    List.length factors = 3 /\
    laid_out factors Scenario.three_factors.
Proof.
  eassert (H : Ollama.parse_final_response Scenario.three_factors = ([], Ok (Some _)))
    by (vm_compute; reflexivity).
  destruct (returned_factors_lie_in_the_response _ _ _ H) as (_ & _ & _ & Hlaid).
  eexists. split; [exact H|]. split; [reflexivity | exact Hlaid].
Defined.

(** X15 at work: two factors are written on two lines and read back. *)
Lemma two_factors_are_read_back :
  exists considered_factors,
    Ollama.save_selected_factors
      [">>> **Income**: proven to matter"; ">>> **Education**: proven to matter"]
    = (Some considered_factors, Some considered_factors) /\
    PyStr.split Ollama.line_feed considered_factors
    = [">>> **Income**: proven to matter"; ">>> **Education**: proven to matter"].
Proof.
  apply saved_factors_split_back.
  - discriminate.
  - constructor; [reflexivity|]. constructor; [reflexivity | constructor].
Defined.
